(** * quicklyHttps: request assembly, bounded retry and the response body cache

    A shallow embedding of the Go package [quicklyHttps] (client.go, the
    request file, response.go, utils.go).  Go strings and byte slices are
    byte sequences and are modelled as [string] (a list of 8-bit [ascii]);
    Go [int] values that are only compared are modelled as [Z].

    Maps held by a [Client] or a [Request] are Go reference objects: they
    live in a store and the records hold their locations, so that sharing
    between a client and the requests made from it is visible; cookie
    slices are a backing array and a length, and their elements point to
    cookie objects.  Functions that touch the store, the logger or the
    transport are written in a small state monad whose only failure is a
    Go run-time panic.

    Calls are sequential: the mutex of the envelope is not modelled.  The
    map-typed fields are taken to be allocated, as [NewClient] and [R]
    leave them.  The transport, [url.Parse], [json.Marshal], the cookie
    sanitizers and the growth policy of [append] are parameters. *)

From Stdlib Require Import ZArith Ascii String.
From stdpp Require Import gmap strings list sorting.

Local Open Scope string_scope.
Local Open Scope list_scope.

(** ** Package [strings] of the Go library, on byte strings *)

Module GoStrings.

(** [s[n:]] *)
Definition dropBytes (n : nat) (s : string) : string :=
  String.substring n (String.length s - n) s.

(** [strings.HasPrefix(s, prefix)] *)
Definition HasPrefix (s prefix : string) : bool := String.prefix prefix s.

(** [strings.HasSuffix(s, suffix)]:
    [len(s) >= len(suffix) && s[len(s)-len(suffix):] == suffix] *)
Definition HasSuffix (s suffix : string) : bool :=
  (String.length suffix <=? String.length s)%nat
  && String.eqb (dropBytes (String.length s - String.length suffix) s) suffix.

(** [strings.TrimPrefix(s, prefix)] *)
Definition TrimPrefix (s prefix : string) : string :=
  if HasPrefix s prefix then dropBytes (String.length prefix) s else s.

(** [strings.TrimSuffix(s, suffix)] *)
Definition TrimSuffix (s suffix : string) : string :=
  if HasSuffix s suffix
  then String.substring 0 (String.length s - String.length suffix) s
  else s.

(** [strings.Split(s, sep)] for a separator of one byte, which is what
    every call in the package passes ([":"], [";"]). *)
Fixpoint splitByte (sep : ascii) (s : string) : list string :=
  match s with
  | EmptyString => [EmptyString]
  | String c rest =>
      if Ascii.eqb c sep then EmptyString :: splitByte sep rest
      else match splitByte sep rest with
           | [] => [String c EmptyString]
           | piece :: pieces => String c piece :: pieces
           end
  end.

(** [strings.SplitN(s, sep, 2)] for a separator of one byte: cut at the
    first occurrence only. *)
Fixpoint splitByte2 (sep : ascii) (s : string) : list string :=
  match s with
  | EmptyString => [EmptyString]
  | String c rest =>
      if Ascii.eqb c sep then [EmptyString; rest]
      else match splitByte2 sep rest with
           | [] => [String c EmptyString]
           | piece :: pieces => String c piece :: pieces
           end
  end.

Definition bytes (l : list nat) : string :=
  string_of_list_ascii (List.map ascii_of_nat l).

(** The UTF-8 encodings of the code points for which [unicode.IsSpace]
    holds: tab, LF, VT, FF, CR, space, U+0085, U+00A0, U+1680,
    U+2000..U+200A, U+2028, U+2029, U+202F, U+205F, U+3000. *)
Definition spaces : list string :=
  List.map bytes
    [ [9]; [10]; [11]; [12]; [13]; [32];
      [194; 133]; [194; 160]; [225; 154; 128];
      [226; 128; 128]; [226; 128; 129]; [226; 128; 130]; [226; 128; 131];
      [226; 128; 132]; [226; 128; 133]; [226; 128; 134]; [226; 128; 135];
      [226; 128; 136]; [226; 128; 137]; [226; 128; 138];
      [226; 128; 168]; [226; 128; 169]; [226; 128; 175];
      [226; 129; 159]; [227; 128; 128] ]%nat.

Fixpoint trimLeftSpaces (fuel : nat) (s : string) : string :=
  match fuel with
  | O => s
  | S fuel' =>
      match List.find (HasPrefix s) spaces with
      | Some sp => trimLeftSpaces fuel' (dropBytes (String.length sp) s)
      | None => s
      end
  end.

Fixpoint trimRightSpaces (fuel : nat) (s : string) : string :=
  match fuel with
  | O => s
  | S fuel' =>
      match List.find (HasSuffix s) spaces with
      | Some sp =>
          trimRightSpaces fuel'
            (String.substring 0 (String.length s - String.length sp) s)
      | None => s
      end
  end.

(** [strings.TrimSpace(s)]: all leading and trailing white space, as
    defined by Unicode, removed.  Each step removes at least one byte, so
    [length s] steps are enough. *)
Definition TrimSpace (s : string) : string :=
  let s1 := trimLeftSpaces (String.length s) s in
  trimRightSpaces (String.length s1) s1.


End GoStrings.

Import GoStrings.

(** Go's [(value, error)] results.  An [error] is a message, possibly
    wrapping a cause (the [%w] verb of [fmt.Errorf]). *)
Inductive error : Type :=
| ErrorString (msg : string)
| WrapError (msg : string) (cause : error).

Inductive res (A : Type) : Type :=
| OK (a : A)
| Err (e : error).
Arguments OK {A} a.
Arguments Err {A} e.

(** ** Package [net/url]: query escaping and [url.Values] *)

Module NetURL.

Definition isAlnum (c : ascii) : bool :=
  let n := nat_of_ascii c in
  ((97 <=? n) && (n <=? 122) || (65 <=? n) && (n <=? 90)
   || (48 <=? n) && (n <=? 57))%nat.

(** [shouldEscape(c, encodeQueryComponent)]: everything is escaped but
    letters, digits and the marks [-], [_], [.], [~]. *)
Definition shouldEscape (c : ascii) : bool :=
  negb (isAlnum c
        || Ascii.eqb c "-" || Ascii.eqb c "_"
        || Ascii.eqb c "." || Ascii.eqb c "~").

Definition upperhex (n : nat) : ascii :=
  match String.get n "0123456789ABCDEF" with
  | Some c => c
  | None => "0"%char
  end.

(** [url.QueryEscape]: a space becomes [+], any other escaped byte
    becomes [%XX]. *)
Fixpoint QueryEscape (s : string) : string :=
  match s with
  | EmptyString => EmptyString
  | String c rest =>
      if Ascii.eqb c " " then String "+" (QueryEscape rest)
      else if shouldEscape c then
        String "%" (String (upperhex (nat_of_ascii c / 16))
                      (String (upperhex (nat_of_ascii c mod 16))
                         (QueryEscape rest)))
      else String c (QueryEscape rest)
  end.





(** [url.Values] is [map[string][]string]. *)
Abbreviation Values := (gmap string (list string)).

(** [v.Set(key, value)]: [v[key] = []string{value}] *)
Definition Set_ (key value : string) (v : Values) : Values :=
  <[key := [value]]> v.

(** [v.Add(key, value)]: [v[key] = append(v[key], value)] *)
Definition Add (key value : string) (v : Values) : Values :=
  <[key := default [] (v !! key) ++ [value]]> v.

Definition key_le (a b : string) : Prop := Is_true (String.leb a b).

Definition sortedKeys (v : Values) : list string :=
  merge_sort key_le (fst <$> map_to_list v).

(** One step of the buffer loop of [Encode]: an ampersand when the
    buffer is not empty, then [key=value], both escaped. *)
Definition writePair (keyEscaped : string) (buf value : string) : string :=
  (if String.eqb buf "" then buf else buf +:+ "&")
    +:+ keyEscaped +:+ "=" +:+ QueryEscape value.

(** [v.Encode()]: the pairs in the order of the sorted keys. *)
Definition Encode (v : Values) : string :=
  foldl (λ buf k, foldl (writePair (QueryEscape k)) buf (default [] (v !! k)))
        "" (sortedKeys v).

(** The parts of a parsed [url.URL] the package reads. *)
Record URL : Type := mkURL {
  Scheme : string;
  Host : string;
  Path : string;
  RawQuery : string;
}.

End NetURL.

(** ** Package [net/http]: header maps and cookies *)

Module NetHTTP.

(** [validHeaderFieldByte]: the token characters of RFC 7230. *)
Definition validHeaderFieldByte (c : ascii) : bool :=
  NetURL.isAlnum c
  || existsb (Ascii.eqb c)
       (list_ascii_of_string "!#$%&'*+-.^_`|~").

Definition toUpper (c : ascii) : ascii :=
  let n := nat_of_ascii c in
  if ((97 <=? n) && (n <=? 122))%nat then ascii_of_nat (n - 32) else c.

Definition toLower (c : ascii) : ascii :=
  let n := nat_of_ascii c in
  if ((65 <=? n) && (n <=? 90))%nat then ascii_of_nat (n + 32) else c.

(** The canonicalising loop: upper case for the first letter and after
    each dash, lower case elsewhere. *)
Fixpoint canonical (upper : bool) (s : string) : string :=
  match s with
  | EmptyString => EmptyString
  | String c rest =>
      let c' := if upper then toUpper c else toLower c in
      String c' (canonical (Ascii.eqb c' "-") rest)
  end.

(** [textproto.CanonicalMIMEHeaderKey]: a key with a byte that is not a
    token character is returned unchanged. *)
Definition CanonicalMIMEHeaderKey (s : string) : string :=
  if forallb validHeaderFieldByte (list_ascii_of_string s)
  then canonical true s
  else s.

(** [http.Header] is [map[string][]string]. *)
Abbreviation Header := (gmap string (list string)).

Definition Set_ (key value : string) (h : Header) : Header :=
  <[CanonicalMIMEHeaderKey key := [value]]> h.

Definition Add (key value : string) (h : Header) : Header :=
  let k := CanonicalMIMEHeaderKey key in
  <[k := default [] (h !! k) ++ [value]]> h.

Definition Del (key : string) (h : Header) : Header :=
  delete (CanonicalMIMEHeaderKey key) h.

(** [h.Get(key)]: the first value, or the empty string. *)
Definition Get (key : string) (h : Header) : string :=
  match h !! CanonicalMIMEHeaderKey key with
  | Some (v :: _) => v
  | _ => ""
  end.

Record Cookie : Type := mkCookie { Name : string; Value : string }.

End NetHTTP.

(** ** Package [encoding/json]: [json.Valid] *)

Module EncodingJSON.

(** The double quote, byte 34. *)
Definition quote : ascii := "034"%char.

Definition isSpace (c : ascii) : bool :=
  Ascii.eqb c " " || Ascii.eqb c "009" || Ascii.eqb c "013"
  || Ascii.eqb c "010".

Definition isDigit (c : ascii) : bool :=
  let n := nat_of_ascii c in ((48 <=? n) && (n <=? 57))%nat.

Definition isHex (c : ascii) : bool :=
  let n := nat_of_ascii c in
  (isDigit c || (97 <=? n) && (n <=? 102) || (65 <=? n) && (n <=? 70))%nat.

Fixpoint skipSpace (s : list ascii) : list ascii :=
  match s with
  | c :: rest => if isSpace c then skipSpace rest else s
  | [] => []
  end.

(** The bytes of a string literal after its opening quote; the result
    is what follows the closing quote. *)
Fixpoint scanString (s : list ascii) : option (list ascii) :=
  match s with
  | [] => None
  | c :: rest =>
      if Ascii.eqb c quote then Some rest
      else if Ascii.eqb c "\" then
        match rest with
        | e :: rest' =>
            if existsb (Ascii.eqb e) (quote :: list_ascii_of_string "bfnrt\/")
            then scanString rest'
            else if Ascii.eqb e "u" then
              match rest' with
              | h1 :: h2 :: h3 :: h4 :: rest'' =>
                  if isHex h1 && isHex h2 && isHex h3 && isHex h4
                  then scanString rest'' else None
              | _ => None
              end
            else None
        | [] => None
        end
      else if (nat_of_ascii c <? 32)%nat then None
      else scanString rest
  end.

Fixpoint skipDigits (s : list ascii) : list ascii :=
  match s with
  | c :: rest => if isDigit c then skipDigits rest else s
  | [] => []
  end.

(** One or more digits. *)
Definition scanDigits (s : list ascii) : option (list ascii) :=
  match s with
  | c :: rest => if isDigit c then Some (skipDigits rest) else None
  | [] => None
  end.

Definition scanExponent (s : list ascii) : option (list ascii) :=
  match s with
  | c :: rest =>
      if Ascii.eqb c "e" || Ascii.eqb c "E" then
        match rest with
        | sg :: rest' =>
            if Ascii.eqb sg "+" || Ascii.eqb sg "-" then scanDigits rest'
            else scanDigits rest
        | [] => None
        end
      else Some s
  | [] => Some s
  end.

Definition scanFraction (s : list ascii) : option (list ascii) :=
  match s with
  | c :: rest =>
      if Ascii.eqb c "." then
        match scanDigits rest with
        | Some s' => scanExponent s'
        | None => None
        end
      else scanExponent s
  | [] => Some s
  end.

(** A number after its optional minus sign. *)
Definition scanUnsigned (s : list ascii) : option (list ascii) :=
  match s with
  | c :: rest =>
      if Ascii.eqb c "0" then scanFraction rest
      else if isDigit c then scanFraction (skipDigits rest)
      else None
  | [] => None
  end.

Fixpoint scanLiteral (lit s : list ascii) : option (list ascii) :=
  match lit, s with
  | [], _ => Some s
  | l :: lit', c :: rest =>
      if Ascii.eqb l c then scanLiteral lit' rest else None
  | _ :: _, [] => None
  end.

Definition maxNestingDepth : N := 10000.

(** [scanValue fuel depth s]: one JSON value at the head of [s] (white
    space before it allowed), [depth] composite values being open.
    [scanMembers] and [scanElements] continue after an opening brace or
    bracket that is not closed at once. *)
Fixpoint scanValue (fuel : nat) (depth : N) (s : list ascii)
  : option (list ascii) :=
  match fuel with
  | O => None
  | S fuel' =>
      match skipSpace s with
      | [] => None
      | c :: rest =>
          if Ascii.eqb c "{" then
            if (maxNestingDepth <? N.succ depth)%N then None
            else match skipSpace rest with
                 | c' :: rest' =>
                     if Ascii.eqb c' "}" then Some rest'
                     else scanMembers fuel' (N.succ depth) rest
                 | [] => None
                 end
          else if Ascii.eqb c "[" then
            if (maxNestingDepth <? N.succ depth)%N then None
            else match skipSpace rest with
                 | c' :: rest' =>
                     if Ascii.eqb c' "]" then Some rest'
                     else scanElements fuel' (N.succ depth) rest
                 | [] => None
                 end
          else if Ascii.eqb c quote then scanString rest
          else if Ascii.eqb c "-" then scanUnsigned rest
          else if isDigit c then scanUnsigned (c :: rest)
          else if Ascii.eqb c "t" then
            scanLiteral (list_ascii_of_string "rue") rest
          else if Ascii.eqb c "f" then
            scanLiteral (list_ascii_of_string "alse") rest
          else if Ascii.eqb c "n" then
            scanLiteral (list_ascii_of_string "ull") rest
          else None
      end
  end
with scanMembers (fuel : nat) (depth : N) (s : list ascii)
  : option (list ascii) :=
  match fuel with
  | O => None
  | S fuel' =>
      match skipSpace s with
      | q :: rest =>
          if Ascii.eqb q quote then
            match scanString rest with
            | Some s1 =>
                match skipSpace s1 with
                | colon :: s2 =>
                    if Ascii.eqb colon ":" then
                      match scanValue fuel' depth s2 with
                      | Some s3 =>
                          match skipSpace s3 with
                          | d :: s4 =>
                              if Ascii.eqb d "," then
                                scanMembers fuel' depth s4
                              else if Ascii.eqb d "}" then Some s4
                              else None
                          | [] => None
                          end
                      | None => None
                      end
                    else None
                | [] => None
                end
            | None => None
            end
          else None
      | [] => None
      end
  end
with scanElements (fuel : nat) (depth : N) (s : list ascii)
  : option (list ascii) :=
  match fuel with
  | O => None
  | S fuel' =>
      match scanValue fuel' depth s with
      | Some s1 =>
          match skipSpace s1 with
          | d :: s2 =>
              if Ascii.eqb d "," then scanElements fuel' depth s2
              else if Ascii.eqb d "]" then Some s2
              else None
          | [] => None
          end
      | None => None
      end
  end.

(** [json.Valid(data)]: exactly one value, white space around it. *)
Definition Valid (data : string) : bool :=
  let s := list_ascii_of_string data in
  match scanValue (2 * length s + 2) 0 s with
  | Some rest => match skipSpace rest with [] => true | _ => false end
  | None => false
  end.

End EncodingJSON.

(** ** Data model *)

(** Locations of the store. *)
Abbreviation loc := positive.

(** A Go slice of cookie pointers: nil, or a backing array and a length;
    the capacity is the length of the backing array.  The package never
    reslices from the front, so no offset is kept. *)
Inductive slice : Type :=
| NilSlice
| Slice (arr : loc) (len : nat).

(** [context.Context]: only its presence matters to the package. *)
Inductive Context : Type :=
| Background
| UserContext (id : nat).

(** A [GetBody] function value.  [OwnBody] is the closure [newRequest]
    installs: it captures the descriptor and returns a reader over the
    [body] the descriptor has when the closure is called.  [Supplied] is a
    function set from outside, given by its result. *)
Inductive BodySupplier : Type :=
| OwnBody
| Supplied (result : res string).

(** [http.Request], the wire request.  [Body] is the byte sequence the
    attached stream delivers. *)
Module http_Request.
Record t : Type := mk {
  Method : string;
  Header : NetHTTP.Header;
  URL : NetURL.URL;
  Host : string;
  Proto : string;
  ProtoMajor : Z;
  ProtoMinor : Z;
  ContentLength : Z;
  Body : string;
  GetBody : option BodySupplier;
  ctx : option Context;
}.

Definition set_Header (f : NetHTTP.Header → NetHTTP.Header) (r : t) : t :=
  mk (Method r) (f (Header r)) (URL r) (Host r) (Proto r) (ProtoMajor r)
     (ProtoMinor r) (ContentLength r) (Body r) (GetBody r) (ctx r).

Definition set_ctx (c : option Context) (r : t) : t :=
  mk (Method r) (Header r) (URL r) (Host r) (Proto r) (ProtoMajor r)
     (ProtoMinor r) (ContentLength r) (Body r) (GetBody r) c.
End http_Request.

(** An [io.ReadCloser] of a response: [outcomes k] is what the [k]-th
    [io.ReadAll] over it returns; [reads] and [closes] count the calls
    made so far. *)
Record Stream : Type := mkStream {
  outcomes : nat → res string;
  reads : nat;
  closes : nat;
}.

(** [http.Response] *)
Module http_Response.
Record t : Type := mk {
  StatusCode : Z;
  Status : string;
  Header : NetHTTP.Header;
  Body : option Stream;
}.

Definition set_Body (b : option Stream) (r : t) : t :=
  mk (StatusCode r) (Status r) (Header r) b.
End http_Response.

(** [Response], the envelope.  [Response_] is the embedded
    [*http.Response]; [body] is [None] for a nil byte slice. *)
Module Response.
Record t : Type := mk {
  Response_ : option http_Response.t;
  Err : option error;
  body : option string;
}.
End Response.

Record User : Type := mkUser { Username : string; Password : string }.

(** [Request], the descriptor.  [Request_] is the embedded
    [*http.Request]; the owning client ([rawClient]) is passed to the
    functions that read it. *)
Module Request.
Record t : Type := mk {
  Request_ : option http_Request.t;
  ctx : option Context;
  method : string;
  GetBody : option BodySupplier;
  body : string;
  urlPoint : string;
  Header : loc;
  cookies : slice;
  queryParams : loc;
  formParams : loc;
}.

Definition set_Request_ (x : option http_Request.t) (r : t) : t :=
  mk x (ctx r) (method r) (GetBody r) (body r) (urlPoint r) (Header r)
     (cookies r) (queryParams r) (formParams r).
Definition set_ctx (x : option Context) (r : t) : t :=
  mk (Request_ r) x (method r) (GetBody r) (body r) (urlPoint r) (Header r)
     (cookies r) (queryParams r) (formParams r).
Definition set_method (x : string) (r : t) : t :=
  mk (Request_ r) (ctx r) x (GetBody r) (body r) (urlPoint r) (Header r)
     (cookies r) (queryParams r) (formParams r).
Definition set_GetBody (x : option BodySupplier) (r : t) : t :=
  mk (Request_ r) (ctx r) (method r) x (body r) (urlPoint r) (Header r)
     (cookies r) (queryParams r) (formParams r).
Definition set_body (x : string) (r : t) : t :=
  mk (Request_ r) (ctx r) (method r) (GetBody r) x (urlPoint r) (Header r)
     (cookies r) (queryParams r) (formParams r).
Definition set_urlPoint (x : string) (r : t) : t :=
  mk (Request_ r) (ctx r) (method r) (GetBody r) (body r) x (Header r)
     (cookies r) (queryParams r) (formParams r).
Definition set_cookies (x : slice) (r : t) : t :=
  mk (Request_ r) (ctx r) (method r) (GetBody r) (body r) (urlPoint r)
     (Header r) x (queryParams r) (formParams r).
End Request.

(** [Client].  The embedded [*http.Client] is the transport of the
    platform below; the logger writes to the log of the state. *)
Module Client.
Record t : Type := mk {
  BasicAuthToken : string;
  HeaderAuthorizationKey : string;
  AuthScheme : string;
  Method : string;
  BaseURL : string;
  Timeout : Z;
  RetryMax : Z;
  Cookies : slice;
  Header : loc;
  QueryParams : loc;
  Body : string;
  FormParams : loc;
  Debug : bool;
  UserInfo : option User;
  handleRequestResultFunc :
    option (http_Request.t → option http_Request.t);
}.

Definition set_BasicAuthToken (x : string) (c : t) : t :=
  mk x (HeaderAuthorizationKey c) (AuthScheme c) (Method c) (BaseURL c)
     (Timeout c) (RetryMax c) (Cookies c) (Header c) (QueryParams c)
     (Body c) (FormParams c) (Debug c) (UserInfo c)
     (handleRequestResultFunc c).
Definition set_AuthScheme (x : string) (c : t) : t :=
  mk (BasicAuthToken c) (HeaderAuthorizationKey c) x (Method c) (BaseURL c)
     (Timeout c) (RetryMax c) (Cookies c) (Header c) (QueryParams c)
     (Body c) (FormParams c) (Debug c) (UserInfo c)
     (handleRequestResultFunc c).
Definition set_Method (x : string) (c : t) : t :=
  mk (BasicAuthToken c) (HeaderAuthorizationKey c) (AuthScheme c) x
     (BaseURL c) (Timeout c) (RetryMax c) (Cookies c) (Header c)
     (QueryParams c) (Body c) (FormParams c) (Debug c) (UserInfo c)
     (handleRequestResultFunc c).
Definition set_BaseURL (x : string) (c : t) : t :=
  mk (BasicAuthToken c) (HeaderAuthorizationKey c) (AuthScheme c) (Method c)
     x (Timeout c) (RetryMax c) (Cookies c) (Header c) (QueryParams c)
     (Body c) (FormParams c) (Debug c) (UserInfo c)
     (handleRequestResultFunc c).
Definition set_Timeout (x : Z) (c : t) : t :=
  mk (BasicAuthToken c) (HeaderAuthorizationKey c) (AuthScheme c) (Method c)
     (BaseURL c) x (RetryMax c) (Cookies c) (Header c) (QueryParams c)
     (Body c) (FormParams c) (Debug c) (UserInfo c)
     (handleRequestResultFunc c).
Definition set_RetryMax (x : Z) (c : t) : t :=
  mk (BasicAuthToken c) (HeaderAuthorizationKey c) (AuthScheme c) (Method c)
     (BaseURL c) (Timeout c) x (Cookies c) (Header c) (QueryParams c)
     (Body c) (FormParams c) (Debug c) (UserInfo c)
     (handleRequestResultFunc c).
Definition set_Cookies (x : slice) (c : t) : t :=
  mk (BasicAuthToken c) (HeaderAuthorizationKey c) (AuthScheme c) (Method c)
     (BaseURL c) (Timeout c) (RetryMax c) x (Header c) (QueryParams c)
     (Body c) (FormParams c) (Debug c) (UserInfo c)
     (handleRequestResultFunc c).
Definition set_Body (x : string) (c : t) : t :=
  mk (BasicAuthToken c) (HeaderAuthorizationKey c) (AuthScheme c) (Method c)
     (BaseURL c) (Timeout c) (RetryMax c) (Cookies c) (Header c)
     (QueryParams c) x (FormParams c) (Debug c) (UserInfo c)
     (handleRequestResultFunc c).
Definition set_Debug (x : bool) (c : t) : t :=
  mk (BasicAuthToken c) (HeaderAuthorizationKey c) (AuthScheme c) (Method c)
     (BaseURL c) (Timeout c) (RetryMax c) (Cookies c) (Header c)
     (QueryParams c) (Body c) (FormParams c) x (UserInfo c)
     (handleRequestResultFunc c).
Definition set_UserInfo (x : option User) (c : t) : t :=
  mk (BasicAuthToken c) (HeaderAuthorizationKey c) (AuthScheme c) (Method c)
     (BaseURL c) (Timeout c) (RetryMax c) (Cookies c) (Header c)
     (QueryParams c) (Body c) (FormParams c) (Debug c) x
     (handleRequestResultFunc c).
Definition set_handleRequestResultFunc
    (x : option (http_Request.t → option http_Request.t)) (c : t) : t :=
  mk (BasicAuthToken c) (HeaderAuthorizationKey c) (AuthScheme c) (Method c)
     (BaseURL c) (Timeout c) (RetryMax c) (Cookies c) (Header c)
     (QueryParams c) (Body c) (FormParams c) (Debug c) (UserInfo c) x.
End Client.

(** What the leveled logger receives: the level, the message and the
    key/value arguments, structured dumps abridged to their text fields. *)
Inductive Level : Type := LevelError | LevelInfo | LevelDebug | LevelWarn.

Inductive LogArg : Type :=
| ArgString (s : string)
| ArgError (e : error)
| ArgFields (fields : list (string * string)).

Record LogEntry : Type := mkLog {
  level : Level;
  msg : string;
  keysAndValues : list LogArg;
}.

(** A Go value passed as [any]: a string, or something else, which only
    the JSON encoder of the platform looks into. *)
Inductive any (Other : Type) : Type :=
| AnyString (s : string)
| AnyOther (v : Other).
Arguments AnyString {Other} s.
Arguments AnyOther {Other} v.

(** ** The platform: what the package calls and does not define *)

Class Platform : Type := {
  (** the network and whatever else the transport depends on *)
  World : Type;
  (** [http.Client.Do]: one dispatch of a wire request *)
  clientDo : World → http_Request.t → World * res (option http_Response.t);
  (** [url.Parse] *)
  url_Parse : string → res NetURL.URL;
  (** the Go values that are not strings, and [json.Marshal] on them *)
  Other : Type;
  json_Marshal : Other → res string;
  (** [basicAuth] of net/http: the base64 of [username:password] *)
  basicAuth : string → string → string;
  (** the name and value sanitizers of [http.Request.AddCookie] *)
  sanitizeCookieName : string → string;
  sanitizeCookieValue : string → string;
  (** the capacity the run time picks when [append] has to grow a slice
      of the given capacity to at least the given length *)
  growcap : nat → nat → nat;
}.

(** ** Functions of utils.go that need no state *)

(** [IsStringEmpty] *)
Definition IsStringEmpty (str : string) : bool :=
  (String.length (TrimSpace str) =? 0)%nat.

(** [parseCookies]: the pieces between semicolons, trimmed; a piece
    without [=] is dropped, the others are cut at their first [=].  The
    result lists the contents of the cookie objects to be made. *)
Definition parseCookies (cookies : string) : list NetHTTP.Cookie :=
  foldl (λ result cookie,
           let cookie := TrimSpace cookie in
           if String.eqb cookie "" then result
           else match splitByte2 "=" cookie with
                | [name; value] => result ++ [NetHTTP.mkCookie name value]
                | _ => result
                end)
        [] (splitByte ";" cookies).

(** [removeEmptyPort] *)
Definition removeEmptyPort (host : string) : string :=
  match splitByte ":" host with
  | hostname :: port :: _ => if String.eqb port "" then hostname else host
  | _ => host
  end.

(** [isJSON] *)
Definition isJSON (str : string) : bool :=
  let str := TrimSpace str in
  (HasPrefix str "{" && HasSuffix str "}")
  || (HasPrefix str "[" && HasSuffix str "]").

(** A string in which a given byte does not occur. *)
Definition without (c : ascii) (s : string) : bool :=
  forallb (λ x, negb (Ascii.eqb x c)) (list_ascii_of_string s).

(** The text [name=value] of a cookie, and a list of cookies written as
    one line, the pairs separated by a semicolon and a space. *)
Definition cookiePair (c : NetHTTP.Cookie) : string :=
  NetHTTP.Name c +:+ "=" +:+ NetHTTP.Value c.

Fixpoint cookieLine (cs : list NetHTTP.Cookie) : string :=
  match cs with
  | [] => ""
  | c :: rest =>
      match rest with
      | [] => cookiePair c
      | _ :: _ => cookiePair c +:+ "; " +:+ cookieLine rest
      end
  end.

(** A cookie whose name has no semicolon and no equals sign, whose value
    has no semicolon, and whose pair has no white space at either end. *)
Definition plainCookie (c : NetHTTP.Cookie) : bool :=
  without ";" (NetHTTP.Name c) && without "=" (NetHTTP.Name c)
  && without ";" (NetHTTP.Value c)
  && String.eqb (TrimSpace (cookiePair c)) (cookiePair c).


(** A host name without a colon. *)
Definition noColon (host : string) : bool :=
  forallb (λ c, negb (Ascii.eqb c ":")) (list_ascii_of_string host).

Definition ContentTypeJson : string := "application/json".
Definition ContentTypeForm : string := "application/x-www-form-urlencoded".
Definition defaultHeaderAuthorizationKey : string := "Authorization".
Definition defaultAuthScheme : string := "Bearer".
Definition retryMax : Z := 5.

(** ** Functions of response.go *)

(** [readBody]: [io.ReadAll], then the deferred [Close]. *)
Definition readBody (s : Stream) : res string * Stream :=
  (outcomes s (reads s), mkStream (outcomes s) (S (reads s)) (S (closes s))).

(** [Response.Body]: the stream is read when the envelope has a
    response with a stream and the cache is nil. *)
Definition Response_Body (r : Response.t) : option string * Response.t :=
  match Response.Response_ r with
  | None => (None, r)
  | Some resp =>
      match Response.body r, http_Response.Body resp with
      | None, Some stream =>
          let '(out, stream') := readBody stream in
          let resp' := http_Response.set_Body (Some stream') resp in
          match out with
          | Err err => (None, Response.mk (Some resp') (Some err) None)
          | OK content =>
              (Some content,
               Response.mk (Some resp') (Response.Err r) (Some content))
          end
      | _, _ => (Response.body r, r)
      end
  end.

(** [Response.String] *)
Definition Response_String (r : Response.t) : string * Response.t :=
  let '(body, r') := Response_Body r in
  (match body with None => "" | Some b => b end, r').

(** [Response.StatusCode] *)
Definition Response_StatusCode (r : Response.t) : Z :=
  match Response.Response_ r with
  | Some resp => http_Response.StatusCode resp
  | None => 0
  end.

(** [Response.Header] *)
Definition Response_Header (r : Response.t) : NetHTTP.Header :=
  match Response.Response_ r with
  | Some resp => http_Response.Header resp
  | None => ∅
  end.

(** [Response.IsSuccess] *)
Definition Response_IsSuccess (r : Response.t) : bool :=
  (200 <=? Response_StatusCode r)%Z && (Response_StatusCode r <? 300)%Z.

(** [Response.IsClientError] *)
Definition Response_IsClientError (r : Response.t) : bool :=
  (400 <=? Response_StatusCode r)%Z && (Response_StatusCode r <? 500)%Z.

(** [Response.IsServerError] *)
Definition Response_IsServerError (r : Response.t) : bool :=
  (500 <=? Response_StatusCode r)%Z && (Response_StatusCode r <? 600)%Z.

(** [Response.GetHeader]: the key is canonicalised by [Get]. *)
Definition Response_GetHeader (key : string) (r : Response.t) : string :=
  NetHTTP.Get key (Response_Header r).

(** [Response.HasHeader]: the map is indexed with the key as given. *)
Definition Response_HasHeader (key : string) (r : Response.t) : bool :=
  bool_decide (is_Some (Response_Header r !! key)).

(** [Response.GetHeaderValues]: the map is indexed with the key as
    given; a missing key gives a nil slice. *)
Definition Response_GetHeaderValues (key : string) (r : Response.t)
  : list string :=
  default [] (Response_Header r !! key).

(** [Response.ToBytesBuffer]: a buffer over the bytes [Body] returns,
    given by its contents; over nil it is empty. *)
Definition Response_ToBytesBuffer (r : Response.t) : string * Response.t :=
  let '(body, r') := Response_Body r in (default "" body, r').

(** [Response.GetCookies]: the method [Cookies] of the embedded
    response, which reads the header field of its receiver
    ([readSetCookies(r.Header)] in net/http); through a nil pointer
    that is a panic, here [None]. *)
Definition Response_GetCookies
    (readSetCookies : NetHTTP.Header → list NetHTTP.Cookie)
    (r : Response.t) : option (list NetHTTP.Cookie) :=
  match Response.Response_ r with
  | None => None
  | Some resp => Some (readSetCookies (http_Response.Header resp))
  end.

(** What a call of [SaveToFile] comes to: a panic, the error of the
    read, or the call [os.WriteFile(filepath, data, 0644)], whose result
    is returned. *)
Inductive SaveResult : Type :=
| SavePanic
| SaveReadError (err : error) (r : Response.t)
| SaveWrite (filepath : string) (data : string) (r : Response.t).

(** [Response.SaveToFile]: with a nil cache it dereferences the embedded
    response and closes the stream without a nil check. *)
Definition Response_SaveToFile (filepath : string) (r : Response.t)
  : SaveResult :=
  match Response.body r with
  | Some data => SaveWrite filepath data r
  | None =>
      match Response.Response_ r with
      | None => SavePanic
      | Some resp =>
          match http_Response.Body resp with
          | None => SavePanic
          | Some stream =>
              let '(out, stream') := readBody stream in
              let resp' := http_Response.set_Body (Some stream') resp in
              match out with
              | Err err =>
                  SaveReadError err
                    (Response.mk (Some resp') (Response.Err r) None)
              | OK content =>
                  SaveWrite filepath content
                    (Response.mk (Some resp') (Response.Err r) (Some content))
              end
          end
      end
  end.

(** [utf8.Valid] of the Go library. *)
Definition byteIn (lo hi : nat) (c : ascii) : bool :=
  ((lo <=? nat_of_ascii c) && (nat_of_ascii c <=? hi))%nat.

Fixpoint utf8_Valid (p : string) : bool :=
  match p with
  | EmptyString => true
  | String c rest =>
      if (nat_of_ascii c <? 128)%nat then utf8_Valid rest
      else if byteIn 194 223 c then
        match rest with
        | String c1 r1 => byteIn 128 191 c1 && utf8_Valid r1
        | _ => false
        end
      else if byteIn 224 239 c then
        match rest with
        | String c1 (String c2 r2) =>
            byteIn (if (nat_of_ascii c =? 224)%nat then 160 else 128)
                   (if (nat_of_ascii c =? 237)%nat then 159 else 191) c1
            && byteIn 128 191 c2 && utf8_Valid r2
        | _ => false
        end
      else if byteIn 240 244 c then
        match rest with
        | String c1 (String c2 (String c3 r3)) =>
            byteIn (if (nat_of_ascii c =? 240)%nat then 144 else 128)
                   (if (nat_of_ascii c =? 244)%nat then 143 else 191) c1
            && byteIn 128 191 c2 && byteIn 128 191 c3 && utf8_Valid r3
        | _ => false
        end
      else false
  end.

(** [ConvertGBKToUTF8], over the GBK decoder of golang.org/x/text. *)
Definition ConvertGBKToUTF8 (gbkDecode : string → res string)
    (gbkData : string) : res string :=
  match gbkDecode gbkData with
  | Err err => Err (WrapError "failed to convert GBK to UTF-8" err)
  | OK utf8Data => OK utf8Data
  end.

(** A call that takes the mutex of the envelope either returns or, when
    the calling goroutine holds the mutex already, blocks for good:
    [sync.Mutex] is not reentrant. *)
Inductive Progress (A : Type) : Type :=
| Returned (a : A)
| Blocked.
Arguments Returned {A} a.
Arguments Blocked {A}.

(** [Response.Body] with its mutex: the nil test comes first, then
    [Lock]; [held] tells whether the caller holds the mutex. *)
Definition Response_Body_locking (held : bool) (r : Response.t)
  : Progress (option string * Response.t) :=
  match Response.Response_ r with
  | None => Returned (None, r)
  | Some _ => if held then Blocked else Returned (Response_Body r)
  end.

(** [Response.DetectEncoding], entered with the mutex free: it locks the
    mutex and calls [Body] while holding it. *)
Definition Response_DetectEncoding (gbkDecode : string → res string)
    (r : Response.t) : Progress (option error * Response.t) :=
  match Response_Body_locking true r with
  | Blocked => Blocked
  | Returned (body, r) =>
      if negb (utf8_Valid (default "" body)) then
        match ConvertGBKToUTF8 gbkDecode (default "" body) with
        | Err err =>
            Returned
              (Some (WrapError "failed to convert body to UTF-8" err), r)
        | OK decodedBody =>
            Returned
              (None,
               Response.mk (Response.Response_ r) (Response.Err r)
                 (Some decodedBody))
        end
      else Returned (None, r)
  end.

(** [Client.SetRetryMax]: the negative branch assigns the parameter, not
    the field. *)
Definition Client_SetRetryMax (retryMax : Z) (c : Client.t) : Client.t :=
  if (retryMax <? 0)%Z then
    let retryMax := 1%Z in c
  else Client.set_RetryMax retryMax c.

(** [Client.SetBasicAuth] *)
Definition Client_SetBasicAuth (username password : string) (c : Client.t)
  : Client.t :=
  Client.set_UserInfo (Some (mkUser username password)) c.

(** [Client.SetBasicAuthToken] *)
Definition Client_SetBasicAuthToken (token : string) (c : Client.t) : Client.t :=
  Client.set_BasicAuthToken token c.

(** [Client.SetAuthScheme] *)
Definition Client_SetAuthScheme (scheme : string) (c : Client.t) : Client.t :=
  Client.set_AuthScheme scheme c.

(** [Client.ClearCookies] *)
Definition Client_ClearCookies (c : Client.t) : Client.t :=
  Client.set_Cookies NilSlice c.

(** [Client.SetHandleRequestResultFunc] *)
Definition Client_SetHandleRequestResultFunc
    (f : option (http_Request.t → option http_Request.t)) (c : Client.t)
  : Client.t :=
  match f with
  | Some _ => Client.set_handleRequestResultFunc f c
  | None => c
  end.

(** [Client.SetDebug] *)
Definition Client_SetDebug (debug : bool) (c : Client.t) : Client.t :=
  Client.set_Debug debug c.

(** [Client.SetBaseURL] *)
Definition Client_SetBaseURL (baseURL : string) (c : Client.t) : Client.t :=
  Client.set_BaseURL (TrimSuffix baseURL "/") c.

(** [Client.SetBody] *)
Definition Client_SetBody (body : string) (c : Client.t) : Client.t :=
  Client.set_Body body c.

(** [Client.SetMethod] *)
Definition Client_SetMethod (method : string) (c : Client.t) : Client.t :=
  Client.set_Method method c.

(** [Client.SetTimeout] *)
Definition Client_SetTimeout (timeout : Z) (c : Client.t) : Client.t :=
  Client.set_Timeout timeout c.

(** [Request.SetMethod] *)
Definition Request_SetMethod (method : string) (r : Request.t) : Request.t :=
  Request.set_method method r.

(** [Request.SetBody] *)
Definition Request_SetBody (body : string) (r : Request.t) : Request.t :=
  Request.set_body body r.

(** [Request.SetBodyBytes] *)
Definition Request_SetBodyBytes (body : string) (r : Request.t) : Request.t :=
  Request.set_body body r.

(** [Request.SetContext] *)
Definition Request_SetContext (ctx : option Context) (r : Request.t)
  : Request.t :=
  Request.set_ctx ctx r.

(** A call of a [GetBody] function value on behalf of descriptor [r]. *)
Definition callGetBody (r : Request.t) (g : BodySupplier) : res string :=
  match g with
  | OwnBody => OK (Request.body r)
  | Supplied result => result
  end.

(** ** The state and the monad of the stateful functions *)

Section QuicklyHttps.
Context `{P : Platform}.

(** The store ([http.Header] and [url.Values] objects, [map[string]string]
    objects, backing arrays of cookie slices, whose elements are pointers
    to cookie objects or nil, and the cookie objects), the output of the
    logger, the wire requests dispatched so far, and the world of the
    transport. *)
Record State : Type := mkState {
  st_maps : gmap loc (gmap string (list string));
  st_dicts : gmap loc (gmap string string);
  st_arrays : gmap loc (list (option loc));
  st_cookies : gmap loc NetHTTP.Cookie;
  st_logs : list LogEntry;
  st_sent : list http_Request.t;
  st_world : World;
}.

Inductive outcome (A : Type) : Type :=
| Done (a : A) (st : State)
| Panic (reason : string).
Arguments Done {A} a st.
Arguments Panic {A} reason.

Definition M (A : Type) : Type := State → outcome A.

Definition ret {A : Type} (a : A) : M A := λ st, Done a st.

Definition bind {A B : Type} (m : M A) (k : A → M B) : M B :=
  λ st, match m st with
        | Done a st' => k a st'
        | Panic reason => Panic reason
        end.

Definition panic {A : Type} (reason : string) : M A := λ _, Panic reason.

Notation "'let*' x ':=' m 'in' k" := (bind m (λ x, k))
  (at level 10, x pattern, m at level 100, k at level 200).

(** *** The store *)

Definition readMap (l : loc) : M (gmap string (list string)) :=
  λ st, Done (default ∅ (st_maps st !! l)) st.

Definition writeMap (l : loc) (m : gmap string (list string)) : M unit :=
  λ st, Done tt (mkState (<[l := m]> (st_maps st)) (st_dicts st)
                   (st_arrays st) (st_cookies st) (st_logs st) (st_sent st)
                   (st_world st)).

Definition newMap (m : gmap string (list string)) : M loc :=
  λ st, let l := fresh (dom (st_maps st)) in
        Done l (mkState (<[l := m]> (st_maps st)) (st_dicts st)
                  (st_arrays st) (st_cookies st) (st_logs st) (st_sent st)
                  (st_world st)).

Definition readDict (l : loc) : M (gmap string string) :=
  λ st, Done (default ∅ (st_dicts st !! l)) st.

Definition writeDict (l : loc) (m : gmap string string) : M unit :=
  λ st, Done tt (mkState (st_maps st) (<[l := m]> (st_dicts st))
                   (st_arrays st) (st_cookies st) (st_logs st) (st_sent st)
                   (st_world st)).

Definition newDict (m : gmap string string) : M loc :=
  λ st, let l := fresh (dom (st_dicts st)) in
        Done l (mkState (st_maps st) (<[l := m]> (st_dicts st))
                  (st_arrays st) (st_cookies st) (st_logs st) (st_sent st)
                  (st_world st)).

Definition readArray (l : loc) : M (list (option loc)) :=
  λ st, Done (default [] (st_arrays st !! l)) st.

Definition writeArray (l : loc) (a : list (option loc)) : M unit :=
  λ st, Done tt (mkState (st_maps st) (st_dicts st)
                   (<[l := a]> (st_arrays st)) (st_cookies st) (st_logs st)
                   (st_sent st) (st_world st)).

Definition newArray (a : list (option loc)) : M loc :=
  λ st, let l := fresh (dom (st_arrays st)) in
        Done l (mkState (st_maps st) (st_dicts st)
                  (<[l := a]> (st_arrays st)) (st_cookies st) (st_logs st)
                  (st_sent st) (st_world st)).

(** A new cookie object, and the object a pointer leads to. *)
Definition newCookie (c : NetHTTP.Cookie) : M loc :=
  λ st, let l := fresh (dom (st_cookies st)) in
        Done l (mkState (st_maps st) (st_dicts st) (st_arrays st)
                  (<[l := c]> (st_cookies st)) (st_logs st) (st_sent st)
                  (st_world st)).

Definition readCookie (l : loc) : M NetHTTP.Cookie :=
  λ st, match st_cookies st !! l with
        | Some c => Done c st
        | None => Panic "invalid pointer"
        end.

(** A write to the cookie object a pointer leads to. *)
Definition writeCookie (l : loc) (c : NetHTTP.Cookie) : M unit :=
  λ st, match st_cookies st !! l with
        | Some _ =>
            Done tt (mkState (st_maps st) (st_dicts st) (st_arrays st)
                       (<[l := c]> (st_cookies st)) (st_logs st) (st_sent st)
                       (st_world st))
        | None => Panic "invalid pointer"
        end.

(** A call of the leveled logger. *)
Definition logf (lv : Level) (m : string) (args : list LogArg) : M unit :=
  λ st, Done tt (mkState (st_maps st) (st_dicts st) (st_arrays st)
                   (st_cookies st) (st_logs st ++ [mkLog lv m args])
                   (st_sent st) (st_world st)).

(** *** Slices *)

Definition sliceLen (s : slice) : nat :=
  match s with NilSlice => 0 | Slice _ n => n end.

(** The backing array of a slice, if it has one. *)
Definition sliceArr (s : slice) : option loc :=
  match s with NilSlice => None | Slice a _ => Some a end.

(** The elements of a slice in a state. *)
Definition sliceView (s : slice) (st : State) : list (option loc) :=
  match s with
  | NilSlice => []
  | Slice a n => take n (default [] (st_arrays st !! a))
  end.

(** [cap(s)] *)
Definition sliceCap (s : slice) : M nat :=
  match s with
  | NilSlice => ret 0%nat
  | Slice a _ => let* arr := readArray a in ret (length arr)
  end.

(** The elements [s[0], ..., s[len(s)-1]]. *)
Definition sliceElems (s : slice) : M (list (option loc)) :=
  match s with
  | NilSlice => ret []
  | Slice a n => let* arr := readArray a in ret (take n arr)
  end.

(** [append(s, xs...)]: in place when the capacity allows, else into a
    new backing array. *)
Definition append (s : slice) (xs : list (option loc)) : M slice :=
  let n := (sliceLen s + length xs)%nat in
  let* c := sliceCap s in
  if (n <=? c)%nat then
    match s with
    | NilSlice => ret NilSlice
    | Slice a len =>
        let* arr := readArray a in
        let* _ := writeArray a (take len arr ++ xs ++ drop n arr) in
        ret (Slice a n)
    end
  else
    let* old := sliceElems s in
    let c' := Nat.max n (growcap c n) in
    let* a' := newArray (old ++ xs ++ replicate (c' - n) None) in
    ret (Slice a' n).

(** *** Header and parameter objects in the store *)

Definition Header_Set (h : loc) (key value : string) : M unit :=
  let* m := readMap h in writeMap h (NetHTTP.Set_ key value m).

Definition Header_Add (h : loc) (key value : string) : M unit :=
  let* m := readMap h in writeMap h (NetHTTP.Add key value m).

Definition Header_Del (h : loc) (key : string) : M unit :=
  let* m := readMap h in writeMap h (NetHTTP.Del key m).

Definition Header_Get (h : loc) (key : string) : M string :=
  let* m := readMap h in ret (NetHTTP.Get key m).

(** [h.Clone()]: a new object with copies of the value slices. *)
Definition Header_Clone (h : loc) : M loc :=
  let* m := readMap h in newMap m.

Definition Values_Set (v : loc) (key value : string) : M unit :=
  let* m := readMap v in writeMap v (NetURL.Set_ key value m).

(** A [range] loop over a Go map given as the list of its entries in
    the order the loop visits them. *)
Fixpoint forEach {A : Type} (l : list A) (body : A → M unit) : M unit :=
  match l with
  | [] => ret tt
  | x :: l' => let* _ := body x in forEach l' body
  end.

(** [copyMap] *)
Definition copyMap (original : loc) : M loc :=
  let* o := readDict original in
  let* c := newDict ∅ in
  let* _ := writeDict c (map_fold (λ key value acc, <[key := value]> acc) ∅ o) in
  ret c.

(** [copyValues]: each value slice is copied by [append] to nil. *)
Definition copyValues (original : loc) : M loc :=
  let* o := readMap original in
  let* c := newMap ∅ in
  let* _ := writeMap c
              (map_fold (λ key values acc, <[key := [] ++ values]> acc) ∅ o) in
  ret c.

(** *** client.go *)

(** [NewClient].  The token field receives the header-key constant and
    [HeaderAuthorizationKey] is left at its zero value, as in the
    source. *)
Definition NewClient : M Client.t :=
  let* header := newMap ∅ in
  let* cookies := newArray [] in
  let* query := newDict ∅ in
  let* form := newMap ∅ in
  ret (Client.mk defaultHeaderAuthorizationKey "" defaultAuthScheme "" ""
         30000000000 retryMax (Slice cookies 0) header query "" form
         false None None).

(** [Client.SetHeader] *)
Definition Client_SetHeader (key value : string) (c : Client.t) : M Client.t :=
  let* _ := Header_Set (Client.Header c) key value in ret c.

(** [Client.SetHeaders] *)
Definition Client_SetHeaders (headers : list (string * string)) (c : Client.t)
  : M Client.t :=
  let* _ := forEach headers
              (λ kv, let* _ := Client_SetHeader kv.1 kv.2 c in ret tt) in
  ret c.

(** [Client.SetUserAgent] *)
Definition Client_SetUserAgent (userAgent : string) (c : Client.t)
  : M Client.t :=
  Client_SetHeader "User-Agent" userAgent c.

(** The cookie objects [parseCookies] makes, as pointers. *)
Fixpoint newCookies (cookies : list NetHTTP.Cookie) : M (list (option loc)) :=
  match cookies with
  | [] => ret []
  | cookie :: rest =>
      let* l := newCookie cookie in
      let* ls := newCookies rest in
      ret (Some l :: ls)
  end.

(** [Client.SetCookie]: one [append] per parsed cookie. *)
Fixpoint Client_appendEach (cookies : list (option loc)) (c : Client.t)
  : M Client.t :=
  match cookies with
  | [] => ret c
  | cookie :: rest =>
      let* s := append (Client.Cookies c) [cookie] in
      Client_appendEach rest (Client.set_Cookies s c)
  end.

Definition Client_SetCookie (cookies : string) (c : Client.t) : M Client.t :=
  let* parsed := newCookies (parseCookies cookies) in
  Client_appendEach parsed c.

(** [Client.SetCookiesRaw] *)
Definition Client_SetCookiesRaw (cookies : list (option loc))
    (c : Client.t) : M Client.t :=
  let* s := append (Client.Cookies c) cookies in
  ret (Client.set_Cookies s c).

(** [Client.SetCookieRaw] *)
Definition Client_SetCookieRaw (cookie : option loc)
    (c : Client.t) : M Client.t :=
  let* s := append (Client.Cookies c) [cookie] in
  ret (Client.set_Cookies s c).

(** [Client.SetQueryParam] *)
Definition Client_SetQueryParam (key value : string) (c : Client.t)
  : M Client.t :=
  let* q := readDict (Client.QueryParams c) in
  let* _ := writeDict (Client.QueryParams c) (<[key := value]> q) in
  ret c.

(** [Client.SetQueryParams] *)
Definition Client_SetQueryParams (params : list (string * string))
    (c : Client.t) : M Client.t :=
  let* _ := forEach params
              (λ kv, let* _ := Client_SetQueryParam kv.1 kv.2 c in ret tt) in
  ret c.

(** [Client.SetFormParam] *)
Definition Client_SetFormParam (key value : string) (c : Client.t)
  : M Client.t :=
  let* _ := Values_Set (Client.FormParams c) key value in ret c.

(** [Client.SetFormParams] *)
Definition Client_SetFormParams (params : list (string * string))
    (c : Client.t) : M Client.t :=
  let* _ := forEach params
              (λ kv, let* _ := Client_SetFormParam kv.1 kv.2 c in ret tt) in
  ret c.

(** [Client.R]: the descriptor, from copies of the client's defaults. *)
Definition Client_R (c : Client.t) : M (Client.t * Request.t) :=
  let c := if String.eqb (Client.Method c) "" then Client.set_Method "GET" c
           else c in
  let* header := Header_Clone (Client.Header c) in
  let* query := copyMap (Client.QueryParams c) in
  let* form := copyValues (Client.FormParams c) in
  let* empty := newArray [] in
  let* elems := sliceElems (Client.Cookies c) in
  let* cookies := append (Slice empty 0) elems in
  ret (c, Request.mk None None (Client.Method c) None (Client.Body c) ""
            header cookies query form).

(** [marshalJSON] *)
Definition marshalJSON (data : any Other) : res string :=
  match data with
  | AnyString v =>
      if EncodingJSON.Valid v then OK v
      else Err (ErrorString "invalid JSON string")
  | AnyOther v => json_Marshal v
  end.

(** [Client.SetBodyJSON] *)
Definition Client_SetBodyJSON (data : any Other) (c : Client.t) : M Client.t :=
  match marshalJSON data with
  | Err err =>
      let* _ := logf LevelError "failed to marshal JSON"
                  [ArgString "error"; ArgError err] in
      ret c
  | OK jsonString =>
      Client_SetHeader "Content-Type" ContentTypeJson
        (Client.set_Body jsonString c)
  end.

(** *** The request file *)

(** [Request.SetHeader] *)
Definition Request_SetHeader (key value : string) (r : Request.t)
  : M Request.t :=
  let* _ := Header_Set (Request.Header r) key value in ret r.

(** [Request.SetHeaders] *)
Definition Request_SetHeaders (headers : list (string * string))
    (r : Request.t) : M Request.t :=
  let* _ := forEach headers
              (λ kv, Header_Set (Request.Header r) kv.1 kv.2) in
  ret r.

(** [Request.AddHeader] *)
Definition Request_AddHeader (key value : string) (r : Request.t)
  : M Request.t :=
  let* _ := Header_Add (Request.Header r) key value in ret r.

(** [Request.DelHeader] *)
Definition Request_DelHeader (key : string) (r : Request.t) : M Request.t :=
  let* _ := Header_Del (Request.Header r) key in ret r.

(** [Request.GetHeader] *)
Definition Request_GetHeader (key : string) (r : Request.t) : M string :=
  Header_Get (Request.Header r) key.

(** [Request.SetCookie] *)
Definition Request_SetCookie (cookies : string) (r : Request.t)
  : M Request.t :=
  let* parsed := newCookies (parseCookies cookies) in
  let* s := append (Request.cookies r) parsed in
  ret (Request.set_cookies s r).

(** [Request.SetCookiesRaw] *)
Definition Request_SetCookiesRaw (cookies : list (option loc))
    (r : Request.t) : M Request.t :=
  let* s := append (Request.cookies r) cookies in
  ret (Request.set_cookies s r).

(** [Request.SetCookieRaw] *)
Definition Request_SetCookieRaw (cookie : option loc)
    (r : Request.t) : M Request.t :=
  let* s := append (Request.cookies r) [cookie] in
  ret (Request.set_cookies s r).

(** [Request.SetFormParam] *)
Definition Request_SetFormParam (key value : string) (r : Request.t)
  : M Request.t :=
  let* _ := Values_Set (Request.formParams r) key value in ret r.

(** [Request.SetFormParams] *)
Definition Request_SetFormParams (params : list (string * string))
    (r : Request.t) : M Request.t :=
  let* _ := forEach params
              (λ kv, Values_Set (Request.formParams r) kv.1 kv.2) in
  ret r.

(** [Request.SetQueryParam] *)
Definition Request_SetQueryParam (key value : string) (r : Request.t)
  : M Request.t :=
  let* q := readDict (Request.queryParams r) in
  let* _ := writeDict (Request.queryParams r) (<[key := value]> q) in
  ret r.

(** [Request.SetQueryParams] *)
Definition Request_SetQueryParams (params : list (string * string))
    (r : Request.t) : M Request.t :=
  let* _ := forEach params
              (λ kv, let* _ := Request_SetQueryParam kv.1 kv.2 r in ret tt) in
  ret r.

(** [Request.DelQueryParam] *)
Definition Request_DelQueryParam (key : string) (r : Request.t)
  : M Request.t :=
  let* q := readDict (Request.queryParams r) in
  let* _ := writeDict (Request.queryParams r) (delete key q) in
  ret r.

(** [Request.SetBodyJSON] *)
Definition Request_SetBodyJSON (data : any Other) (r : Request.t)
  : M Request.t :=
  let* r :=
    match data with
    | AnyString body =>
        if isJSON body then ret (Request.set_body body r)
        else
          let* _ := logf LevelError "invalid JSON string"
                      [ArgString "body"; ArgString body] in
          ret r
    | AnyOther v =>
        match json_Marshal v with
        | Err err =>
            let* _ := logf LevelError "failed to marshal JSON"
                        [ArgString "error"; ArgError err] in
            ret r
        | OK jsonData => ret (Request.set_body jsonData r)
        end
    end in
  Request_SetHeader "Content-Type" ContentTypeJson r.

(** [Request.prepareRequestBody]: the bytes of the reader. *)
Definition Request_prepareRequestBody (r : Request.t) : M string :=
  let* form := readMap (Request.formParams r) in
  if (0 <? size form)%nat then ret (NetURL.Encode form)
  else ret (Request.body r).

(** [Request.prepareRequestURL] *)
Definition Request_prepareRequestURL (r : Request.t) : M string :=
  let urlPath := TrimPrefix (Request.urlPoint r) "/" in
  let* query := readDict (Request.queryParams r) in
  if (0 <? size query)%nat then
    let queryParams :=
      map_fold (λ key value acc, NetURL.Add key value acc) ∅ query in
    ret (urlPath +:+ "?" +:+ NetURL.Encode queryParams)
  else ret urlPath.

(** [http.Request.AddCookie] *)
Definition AddCookie (c : NetHTTP.Cookie) (req : http_Request.t)
  : http_Request.t :=
  let s := sanitizeCookieName (NetHTTP.Name c) +:+ "="
           +:+ sanitizeCookieValue (NetHTTP.Value c) in
  let old := NetHTTP.Get "Cookie" (http_Request.Header req) in
  http_Request.set_Header
    (NetHTTP.Set_ "Cookie"
       (if String.eqb old "" then s else old +:+ "; " +:+ s)) req.

(** The loop over [r.cookies]; a nil cookie pointer is dereferenced. *)
Fixpoint addCookies (cookies : list (option loc))
    (req : http_Request.t) : M http_Request.t :=
  match cookies with
  | [] => ret req
  | Some pointer :: rest =>
      let* cookie := readCookie pointer in
      addCookies rest (AddCookie cookie req)
  | None :: _ => panic "nil pointer dereference"
  end.

(** [http.Request.SetBasicAuth] *)
Definition SetBasicAuth (username password : string) (req : http_Request.t)
  : http_Request.t :=
  http_Request.set_Header
    (NetHTTP.Set_ "Authorization" ("Basic " +:+ basicAuth username password))
    req.

(** The argument of [url.Parse] in [newRequest]:
    [fmt.Sprintf("%s/%s", r.rawClient.BaseURL, r.prepareRequestURL())] *)
Definition Request_rawURL (c : Client.t) (r : Request.t) : M string :=
  let* path := Request_prepareRequestURL r in
  ret (Client.BaseURL c +:+ "/" +:+ path).

(** [Request.newRequest].  The header of the wire request is the clone
    made at that point, an object reachable from the wire request only,
    held in the record.  The authentication step then writes to the
    embedded request of the descriptor, respectively to the header
    object of the descriptor. *)
Definition Request_newRequest (c : Client.t) (r : Request.t)
  : M (Request.t * res http_Request.t) :=
  let* rawURL := Request_rawURL c r in
  match url_Parse rawURL with
  | Err err => ret (r, Err err)
  | OK u =>
      let u := NetURL.mkURL (NetURL.Scheme u) (removeEmptyPort (NetURL.Host u))
                 (NetURL.Path u) (NetURL.RawQuery u) in
      let* (r, opened) :=
        match Request.GetBody r with
        | Some getBody =>
            match callGetBody r getBody with
            | Err err => ret (r, Err err)
            | OK reqBody => ret (r, OK (reqBody, 0%Z))
            end
        | None =>
            let* prepareBody := Request_prepareRequestBody r in
            ret (Request.set_GetBody (Some OwnBody) r,
                 OK (prepareBody, Z.of_nat (String.length prepareBody)))
        end in
      match opened with
      | Err err => ret (r, Err err)
      | OK (reqBody, contentLength) =>
          if String.eqb (Request.method r) "" then
            ret (r, Err (ErrorString "HTTP method is not set"))
          else
            let r := match Request.ctx r with
                     | None => Request.set_ctx (Some Background) r
                     | Some _ => r
                     end in
            let* header := readMap (Request.Header r) in
            let req :=
              http_Request.mk (Request.method r) header u (NetURL.Host u)
                "HTTP/1.1" 1 1 contentLength reqBody (Request.GetBody r)
                (Request.ctx r) in
            let* cookies := sliceElems (Request.cookies r) in
            let* req := addCookies cookies req in
            match Client.UserInfo c with
            | Some user =>
                match Request.Request_ r with
                | None => panic "nil pointer dereference"
                | Some embedded =>
                    ret (Request.set_Request_
                           (Some (SetBasicAuth (Username user)
                                    (Password user) embedded)) r,
                         OK req)
                end
            | None =>
                if negb (IsStringEmpty (Client.BasicAuthToken c)) then
                  let* r := Request_SetHeader
                              (Client.HeaderAuthorizationKey c)
                              (Client.AuthScheme c +:+ " "
                               +:+ Client.BasicAuthToken c) r in
                  ret (r, OK req)
                else ret (r, OK req)
            end
      end
  end.

(** [Request.logRequest]; the dump is abridged to method and body. *)
Definition Request_logRequest (r : Request.t) : M unit :=
  match Request.Request_ r with
  | None => panic "nil pointer dereference"
  | Some req =>
      logf LevelError "Performing request"
        [ArgFields [("method", http_Request.Method req);
                    ("body", Request.body r)]]
  end.

(** [Response.logResponse]; it reads [Cookies()] and [Status] of the
    embedded response and the body through [String()]. *)
Definition Response_logResponse (resp : Response.t) : M Response.t :=
  match Response.Response_ resp with
  | None => panic "nil pointer dereference"
  | Some raw =>
      let '(text, resp') := Response_String resp in
      let* _ := logf LevelInfo "Received response"
                  [ArgFields [("status", http_Response.Status raw);
                              ("body", text)]] in
      ret resp'
  end.

(** One call of the transport, recorded in [st_sent]. *)
Definition dispatch (req : http_Request.t)
  : M (res (option http_Response.t)) :=
  λ st, let '(w, out) := clientDo (st_world st) req in
        Done out (mkState (st_maps st) (st_dicts st) (st_arrays st)
                    (st_cookies st) (st_logs st) (st_sent st ++ [req]) w).

(** [Request.Do] *)
Definition Request_Do (c : Client.t) (r : Request.t)
  : M (option Response.t * option error) :=
  match Request.Request_ r with
  | None => panic "nil pointer dereference"
  | Some req =>
      let* out := dispatch req in
      match out with
      | Err err =>
          let* _ := logf LevelError "request failed"
                      [ArgString "error"; ArgError err] in
          let* _ := Request_logRequest r in
          ret (None, Some err)
      | OK response =>
          let do := Response.mk response None None in
          if Client.Debug c then
            let* _ := Request_logRequest r in
            let* do := Response_logResponse do in
            ret (Some do, None)
          else ret (Some do, None)
      end
  end.

(** The loop of [Execute]: [n] iterations are left. *)
Fixpoint Request_attempts (c : Client.t) (r : Request.t) (n : nat)
  : M (option Response.t * option error) :=
  match n with
  | O => ret (None, Some (ErrorString "failed to execute request"))
  | S n' =>
      let* (response, ok) := Request_Do c r in
      match ok with
      | None =>
          match response with
          | None => panic "nil pointer dereference"
          | Some resp =>
              match Response.Response_ resp with
              | Some _ => ret (Some resp, None)
              | None => Request_attempts c r n'
              end
          end
      | Some _ => Request_attempts c r n'
      end
  end.

(** [Request.Execute].  The loop runs for [i = 0, ..., RetryMax - 1],
    that is [Z.to_nat RetryMax] times. *)
Definition Request_Execute (c : Client.t) (urlPath : string) (r : Request.t)
  : M (Request.t * (option Response.t * option error)) :=
  let r := Request.set_urlPoint (TrimPrefix urlPath "/") r in
  let* (r, built) := Request_newRequest c r in
  match built with
  | Err err =>
      let* _ := logf LevelError "failed to build HTTP request"
                  [ArgString "error"; ArgError err] in
      ret (r, (None, Some err))
  | OK request =>
      let request := match Client.handleRequestResultFunc c with
                     | Some f => f request
                     | None => Some request
                     end in
      let r := Request.set_Request_ request r in
      let* result := Request_attempts c r (Z.to_nat (Client.RetryMax c)) in
      ret (r, result)
  end.

(** *** The verb helpers *)

(** [Client.Get] *)
Definition Client_Get (url : string) (params headers : list (string * string))
    (c : Client.t)
  : M (Client.t * Request.t * (option Response.t * option error)) :=
  let* (c, r) := Client_R (Client_SetMethod "GET" c) in
  let* r := Request_SetQueryParams params r in
  let* r := Request_SetHeaders headers r in
  let* (r, result) := Request_Execute c url r in
  ret (c, r, result).

(** [Client.Head] *)
Definition Client_Head (url : string) (params headers : list (string * string))
    (c : Client.t)
  : M (Client.t * Request.t * (option Response.t * option error)) :=
  let* (c, r) := Client_R (Client_SetMethod "HEAD" c) in
  let* r := Request_SetQueryParams params r in
  let* r := Request_SetHeaders headers r in
  let* (r, result) := Request_Execute c url r in
  ret (c, r, result).

(** [Client.Post] *)
Definition Client_Post (url : string) (params headers : list (string * string))
    (c : Client.t)
  : M (Client.t * Request.t * (option Response.t * option error)) :=
  let* (c, r) := Client_R (Client_SetMethod "POST" c) in
  let* r := Request_SetQueryParams params r in
  let* r := Request_SetHeaders headers r in
  let* (r, result) := Request_Execute c url r in
  ret (c, r, result).

(** [Client.PostForm] *)
Definition Client_PostForm (url : string)
    (data headers : list (string * string)) (c : Client.t)
  : M (Client.t * Request.t * (option Response.t * option error)) :=
  let* (c, r) := Client_R (Client_SetMethod "POST" c) in
  let* r := Request_SetHeader "Content-Type" ContentTypeForm r in
  let* r := Request_SetFormParams data r in
  let* r := Request_SetHeaders headers r in
  let* (r, result) := Request_Execute c url r in
  ret (c, r, result).

(** [Client.PostJSON] *)
Definition Client_PostJSON (url : string) (data : any Other)
    (headers : list (string * string)) (c : Client.t)
  : M (Client.t * Request.t * (option Response.t * option error)) :=
  let* (c, r) := Client_R (Client_SetMethod "POST" c) in
  let* r := Request_SetBodyJSON data r in
  let* r := Request_SetHeaders headers r in
  let* (r, result) := Request_Execute c url r in
  ret (c, r, result).

(** The package-level [Get], [Head], [PostForm] and [PostJSON]: the
    same on a new client. *)
Definition Get (url : string) (params headers : list (string * string))
  : M (Client.t * Request.t * (option Response.t * option error)) :=
  let* c := NewClient in Client_Get url params headers c.

Definition Head (url : string) (params headers : list (string * string))
  : M (Client.t * Request.t * (option Response.t * option error)) :=
  let* c := NewClient in Client_Head url params headers c.

Definition PostForm (url : string) (data headers : list (string * string))
  : M (Client.t * Request.t * (option Response.t * option error)) :=
  let* c := NewClient in Client_PostForm url data headers c.

Definition PostJSON (url : string) (data : any Other)
    (headers : list (string * string))
  : M (Client.t * Request.t * (option Response.t * option error)) :=
  let* c := NewClient in Client_PostJSON url data headers c.

(** *** Notions used in the statements *)

Definition emptyState (w : World) : State := mkState ∅ ∅ ∅ ∅ [] [] w.

(** The world after [n] dispatches of [req] in a row that all return a
    transport error, if they all do. *)
Fixpoint afterFailures (n : nat) (w : World) (req : http_Request.t)
  : option World :=
  match n with
  | O => Some w
  | S n' =>
      match clientDo w req with
      | (w', Err _) => afterFailures n' w' req
      | (_, OK _) => None
      end
  end.

(** The request-transform hook of [Execute]. *)
Definition applyHook (c : Client.t) (request : http_Request.t)
  : option http_Request.t :=
  match Client.handleRequestResultFunc c with
  | Some f => f request
  | None => Some request
  end.

(** What a descriptor holds at a given moment: the contents of its
    header, query and form objects and the elements of its cookie slice,
    which are pointers to cookie objects. *)
Definition Request_view (r : Request.t) (st : State)
  : gmap string (list string) * gmap string string
    * gmap string (list string) * list (option loc) :=
  (default ∅ (st_maps st !! Request.Header r),
   default ∅ (st_dicts st !! Request.queryParams r),
   default ∅ (st_maps st !! Request.formParams r),
   sliceView (Request.cookies r) st).

(** The objects of a client are allocated. *)
Definition Client_allocated (c : Client.t) (st : State) : Prop :=
  Client.Header c ∈ dom (st_maps st)
  ∧ Client.FormParams c ∈ dom (st_maps st)
  ∧ Client.QueryParams c ∈ dom (st_dicts st)
  ∧ match Client.Cookies c with
    | NilSlice => True
    | Slice a _ => a ∈ dom (st_arrays st)
    end.

(** The ways a caller can change the headers, query parameters, form
    parameters and cookie list of a client: the setters of client.go,
    and direct writes through the exported fields (a new content for
    the header, query or form object, a new element in the cookie
    slice, a new content for the cookie object an element of the cookie
    slice points to, as in [c.Cookies[i].Value = v]). *)
Inductive ClientOp : Type :=
| OpSetHeader (key value : string)
| OpSetHeaders (headers : list (string * string))
| OpSetUserAgent (userAgent : string)
| OpSetBodyJSON (data : any Other)
| OpSetCookie (cookies : string)
| OpSetCookiesRaw (cookies : list (option loc))
| OpSetCookieRaw (cookie : option loc)
| OpClearCookies
| OpSetQueryParam (key value : string)
| OpSetQueryParams (params : list (string * string))
| OpSetFormParam (key value : string)
| OpSetFormParams (params : list (string * string))
| OpWriteHeader (content : gmap string (list string))
| OpWriteQueryParams (content : gmap string string)
| OpWriteFormParams (content : gmap string (list string))
| OpWriteCookie (i : nat) (cookie : option loc)
| OpWriteCookieObject (i : nat) (cookie : NetHTTP.Cookie).

Definition applyOp (op : ClientOp) (c : Client.t) : M Client.t :=
  match op with
  | OpSetHeader key value => Client_SetHeader key value c
  | OpSetHeaders headers => Client_SetHeaders headers c
  | OpSetUserAgent userAgent => Client_SetUserAgent userAgent c
  | OpSetBodyJSON data => Client_SetBodyJSON data c
  | OpSetCookie cookies => Client_SetCookie cookies c
  | OpSetCookiesRaw cookies => Client_SetCookiesRaw cookies c
  | OpSetCookieRaw cookie => Client_SetCookieRaw cookie c
  | OpClearCookies => ret (Client_ClearCookies c)
  | OpSetQueryParam key value => Client_SetQueryParam key value c
  | OpSetQueryParams params => Client_SetQueryParams params c
  | OpSetFormParam key value => Client_SetFormParam key value c
  | OpSetFormParams params => Client_SetFormParams params c
  | OpWriteHeader content =>
      let* _ := writeMap (Client.Header c) content in ret c
  | OpWriteQueryParams content =>
      let* _ := writeDict (Client.QueryParams c) content in ret c
  | OpWriteFormParams content =>
      let* _ := writeMap (Client.FormParams c) content in ret c
  | OpWriteCookie i cookie =>
      match Client.Cookies c with
      | NilSlice => panic "index out of range"
      | Slice a n =>
          if (i <? n)%nat then
            let* arr := readArray a in
            let* _ := writeArray a (<[i := cookie]> arr) in
            ret c
          else panic "index out of range"
      end
  | OpWriteCookieObject i cookie =>
      let* elems := sliceElems (Client.Cookies c) in
      match elems !! i with
      | None => panic "index out of range"
      | Some None => panic "nil pointer dereference"
      | Some (Some l) => let* _ := writeCookie l cookie in ret c
      end
  end.

(** The one way among them that writes to a cookie object. *)
Definition writesCookieObject (op : ClientOp) : bool :=
  match op with
  | OpWriteCookieObject _ _ => true
  | _ => false
  end.

Fixpoint applyOps (ops : list ClientOp) (c : Client.t) : M Client.t :=
  match ops with
  | [] => ret c
  | op :: ops' => let* c := applyOp op c in applyOps ops' c
  end.

(** The value a computation returns from a state ([d] if it panics). *)
Definition eval {A : Type} (m : M A) (st : State) (d : A) : A :=
  match m st with
  | Done a _ => a
  | Panic _ => d
  end.

(** What a client holds at a given moment, as [Request_view]. *)
Definition Client_view (c : Client.t) (st : State)
  : gmap string (list string) * gmap string string
    * gmap string (list string) * list (option loc) :=
  (default ∅ (st_maps st !! Client.Header c),
   default ∅ (st_dicts st !! Client.QueryParams c),
   default ∅ (st_maps st !! Client.FormParams c),
   sliceView (Client.Cookies c) st).

(** The objects of a descriptor are allocated. *)
Definition Request_allocated (r : Request.t) (st : State) : Prop :=
  Request.Header r ∈ dom (st_maps st)
  ∧ Request.formParams r ∈ dom (st_maps st)
  ∧ Request.queryParams r ∈ dom (st_dicts st)
  ∧ match Request.cookies r with
    | NilSlice => True
    | Slice a _ => a ∈ dom (st_arrays st)
    end.

(** A client and a descriptor share no map and no backing array. *)
Definition apart (c : Client.t) (r : Request.t) : Prop :=
  Client.Header c ≠ Request.Header r
  ∧ Client.Header c ≠ Request.formParams r
  ∧ Client.FormParams c ≠ Request.Header r
  ∧ Client.FormParams c ≠ Request.formParams r
  ∧ Client.QueryParams c ≠ Request.queryParams r
  ∧ match Client.Cookies c, Request.cookies r with
    | Slice a _, Slice b _ => a ≠ b
    | _, _ => True
    end.

(** A client and a descriptor, both allocated, with maps and backing
    arrays of their own. *)
Definition separated (c : Client.t) (r : Request.t) (st : State) : Prop :=
  Client_allocated c st ∧ Request_allocated r st ∧ apart c r.

(** The setters of the request file that change the headers, query
    parameters, form parameters or cookie list of a descriptor. *)
Inductive RequestOp : Type :=
| RopSetHeader (key value : string)
| RopSetHeaders (headers : list (string * string))
| RopAddHeader (key value : string)
| RopDelHeader (key : string)
| RopSetBodyJSON (data : any Other)
| RopSetCookie (cookies : string)
| RopSetCookiesRaw (cookies : list (option loc))
| RopSetCookieRaw (cookie : option loc)
| RopSetQueryParam (key value : string)
| RopSetQueryParams (params : list (string * string))
| RopDelQueryParam (key : string)
| RopSetFormParam (key value : string)
| RopSetFormParams (params : list (string * string)).

Definition applyRequestOp (op : RequestOp) (r : Request.t) : M Request.t :=
  match op with
  | RopSetHeader key value => Request_SetHeader key value r
  | RopSetHeaders headers => Request_SetHeaders headers r
  | RopAddHeader key value => Request_AddHeader key value r
  | RopDelHeader key => Request_DelHeader key r
  | RopSetBodyJSON data => Request_SetBodyJSON data r
  | RopSetCookie cookies => Request_SetCookie cookies r
  | RopSetCookiesRaw cookies => Request_SetCookiesRaw cookies r
  | RopSetCookieRaw cookie => Request_SetCookieRaw cookie r
  | RopSetQueryParam key value => Request_SetQueryParam key value r
  | RopSetQueryParams params => Request_SetQueryParams params r
  | RopDelQueryParam key => Request_DelQueryParam key r
  | RopSetFormParam key value => Request_SetFormParam key value r
  | RopSetFormParams params => Request_SetFormParams params r
  end.

Fixpoint applyRequestOps (ops : list RequestOp) (r : Request.t)
  : M Request.t :=
  match ops with
  | [] => ret r
  | op :: ops' => let* r := applyRequestOp op r in applyRequestOps ops' r
  end.

(** The length of a slice is within the length of its backing array. *)
Definition sliceFits (s : slice) (st : State) : Prop :=
  match s with
  | NilSlice => True
  | Slice a n => (n ≤ length (default [] (st_arrays st !! a)))%nat
  end.

(** The text [AddCookie] renders for a cookie. *)
Definition cookieText (c : NetHTTP.Cookie) : string :=
  sanitizeCookieName (NetHTTP.Name c) +:+ "="
  +:+ sanitizeCookieValue (NetHTTP.Value c).

(** The Cookie header after one more [AddCookie]. *)
Definition joinCookie (old : string) (c : NetHTTP.Cookie) : string :=
  if String.eqb old "" then cookieText c else old +:+ "; " +:+ cookieText c.

(** A client record over the objects of a descriptor: with it, what is
    known of a client and a descriptor applies to two descriptors. *)
Definition holder (r : Request.t) : Client.t :=
  Client.mk "" "" "" "" "" 0 0 (Request.cookies r) (Request.Header r)
    (Request.queryParams r) "" (Request.formParams r) false None None.

(** The cookie objects a list of cookie pointers leads to, if none of
    the pointers is nil or dangling. *)
Definition pointees (pointers : list (option loc)) (st : State)
  : option (list NetHTTP.Cookie) :=
  mapM (λ pointer, pointer ≫= λ l, st_cookies st !! l) pointers.

(** The cookies a descriptor holds at a given moment: the objects the
    elements of its cookie slice point to. *)
Definition Request_cookieObjects (r : Request.t) (st : State)
  : option (list NetHTTP.Cookie) :=
  pointees (sliceView (Request.cookies r) st) st.

End QuicklyHttps.

Arguments Done {P A} a st.
Arguments Panic {P A} reason.

(** ** A platform for closed examples *)

(** A parser that cuts [scheme://host/path?query] and knows no escapes;
    it stands in for [url.Parse] in the examples only. *)
Definition cutAt (sep : string) (s : string) : string * option string :=
  match String.index 0 sep s with
  | Some i => (String.substring 0 i s,
               Some (dropBytes (i + String.length sep) s))
  | None => (s, None)
  end.

Definition parseSimple (rawURL : string) : res NetURL.URL :=
  let '(beforeQuery, query) := cutAt "?" rawURL in
  match cutAt "://" beforeQuery with
  | (scheme, Some rest) =>
      let '(host, path) := cutAt "/" rest in
      OK (NetURL.mkURL scheme host
            (match path with Some p => "/" +:+ p | None => "" end)
            (default "" query))
  | (_, None) => OK (NetURL.mkURL "" "" beforeQuery (default "" query))
  end.

(** The transport replays a script of dispatch results and refuses the
    connection once the script is used up. *)
Definition scripted : Platform := {|
  World := list (res (option http_Response.t));
  clientDo w _ :=
    match w with
    | [] => ([], Err (ErrorString "connection refused"))
    | out :: w' => (w', out)
    end;
  url_Parse := parseSimple;
  Other := unit;
  json_Marshal _ := OK "null";
  basicAuth username password := username +:+ ":" +:+ password;
  sanitizeCookieName := id;
  sanitizeCookieValue := id;
  growcap old _ := (2 * old)%nat;
|}.

(** Scenarios for the closed examples: a new client with a base URL,
    changed by [configure], and a descriptor made from it and changed by
    [prepare]. *)
Definition scenario
    (configure : Client.t → M (P := scripted) Client.t)
    (prepare : Request.t → M (P := scripted) Request.t)
  : M (P := scripted) (Client.t * Request.t) :=
  bind NewClient (λ c,
  bind (configure (Client_SetBaseURL "http://example.com/api/" c)) (λ c,
  bind (Client_R c) (λ cr,
  bind (prepare cr.2) (λ r, ret (cr.1, r))))).

(** The state at the start of an example: an empty store and a script
    for the transport. *)
Definition startWith (script : list (res (option http_Response.t)))
  : State (P := scripted) :=
  emptyState (P := scripted) script.

(** A response with a status code and no body stream. *)
Definition statusOnly (code : Z) : http_Response.t :=
  http_Response.mk code "" ∅ None.

(** A stream whose first read fails and whose later reads deliver
    [late]. *)
Definition flakyStream : Stream :=
  mkStream (λ k, match k with
                 | O => Err (ErrorString "unexpected EOF")
                 | S _ => OK "late"
                 end) 0 0.

(** A stream that delivers [hello] at every read. *)
Definition helloStream : Stream := mkStream (λ _, OK "hello") 0 0.

(** A wire request, for the examples that start after assembly. *)
Definition sampleRequest : http_Request.t :=
  http_Request.mk "GET" ∅ (NetURL.mkURL "http" "example.com" "/" "")
    "example.com" "HTTP/1.1" 1 1 0 "" None None.

(** ** Properties *)

Section Properties.
Context `{P : Platform}.

Local Arguments fresh : simpl never.

Ltac run :=
  repeat (progress (unfold bind, ret, panic, readMap, writeMap, newMap,
                    readDict, writeDict, newDict, readArray, writeArray,
                    newArray, newCookie, logf in *; simpl in *)).

(** *** The envelope *)

Lemma Response_Body_cached (r : Response.t) (raw : http_Response.t)
    (b : string) :
  Response.Response_ r = Some raw → Response.body r = Some b →
  Response_Body r = (Some b, r).
Proof.
  intros Hraw Hb. unfold Response_Body. rewrite Hraw, Hb. reflexivity.
Qed.

Lemma Response_Body_StatusCode (r : Response.t) :
  Response_StatusCode (Response_Body r).2 = Response_StatusCode r.
Proof.
  unfold Response_Body, Response_StatusCode.
  destruct (Response.Response_ r) as [raw|] eqn:Hraw; simpl.
  - destruct (Response.body r) as [b|],
      (http_Response.Body raw) as [stream|];
      simpl; rewrite ?Hraw; try reflexivity.
    destruct (outcomes stream (reads stream)); reflexivity.
  - rewrite Hraw. reflexivity.
Qed.

Lemma Response_Body_keeps_response (r : Response.t) :
  is_Some (Response.Response_ r) →
  is_Some (Response.Response_ (Response_Body r).2).
Proof.
  intros [raw Hraw]. unfold Response_Body. rewrite Hraw.
  destruct (Response.body r) as [b|],
    (http_Response.Body raw) as [stream|];
    simpl; rewrite ?Hraw; eauto.
  destruct (outcomes stream (reads stream)); simpl; eauto.
Qed.

(** The first successful read fills the cache, and a filled cache is
    returned without touching the stream. *)
Lemma Response_Body_reads_once (raw : http_Response.t) (s : Stream)
    (err : option error) (content : string) :
  http_Response.Body raw = Some s →
  outcomes s (reads s) = OK content →
  let r0 := Response.mk (Some raw) err None in
  let r1 := (Response_Body r0).2 in
  (Response_Body r0).1 = Some content
  ∧ Response_Body r1 = (Some content, r1)
  ∧ (http_Response.Body <$> Response.Response_ r1)
    = Some (Some (mkStream (outcomes s) (S (reads s)) (S (closes s)))).
Proof.
  intros Hs Hout. unfold Response_Body. simpl. rewrite Hs. simpl.
  rewrite Hout. simpl. auto.
Qed.

(** C10, as the code has it: on an envelope whose embedded response is
    nil, [Body] returns nil and leaves the envelope as it is,
    [StatusCode] returns 0, [Header] returns an empty header map,
    [String] returns the empty string, the three status classes are
    false, [GetHeader] returns the empty string, [HasHeader] false and
    [GetHeaderValues] nil for every key, [ToBytesBuffer] returns an
    empty buffer and [DetectEncoding] returns nil; [GetCookies] reads
    the header field through the nil pointer and panics, and so does
    [SaveToFile], which reads the body stream through it, unless the
    envelope has cached bytes, which it then writes. *)
Theorem C10_nil_response_accessors (r : Response.t) :
  Response.Response_ r = None →
  Response_Body r = (None, r)
  ∧ Response_String r = ("", r)
  ∧ Response_StatusCode r = 0%Z
  ∧ Response_Header r = ∅
  ∧ Response_IsSuccess r = false
  ∧ Response_IsClientError r = false
  ∧ Response_IsServerError r = false
  ∧ (∀ key, Response_GetHeader key r = ""
            ∧ Response_HasHeader key r = false
            ∧ Response_GetHeaderValues key r = [])
  ∧ Response_ToBytesBuffer r = ("", r)
  ∧ (∀ gbkDecode, Response_DetectEncoding gbkDecode r = Returned (None, r))
  ∧ (∀ readSetCookies, Response_GetCookies readSetCookies r = None)
  ∧ (Response.body r = None →
     ∀ filepath, Response_SaveToFile filepath r = SavePanic)
  ∧ (∀ data filepath,
       Response.body r = Some data →
       Response_SaveToFile filepath r = SaveWrite filepath data r).
Proof.
  intros Hnil.
  unfold Response_String, Response_ToBytesBuffer, Response_IsSuccess,
    Response_IsClientError, Response_IsServerError, Response_StatusCode,
    Response_GetHeader, Response_HasHeader, Response_GetHeaderValues,
    Response_Header, Response_DetectEncoding, Response_Body_locking,
    Response_GetCookies, Response_SaveToFile, Response_Body.
  rewrite Hnil.
  do 11 (split; [done|]).
  split; [by intros ->|]. by intros data filepath ->.
Qed.

(** C5 (the code departs from it): when the read of a call of [Body]
    fails, the error is recorded and nil is returned, but nothing
    marks the stream as consumed: the next call reads and closes the
    stream again and returns whatever that second read delivers. *)
Theorem C5_failed_read_is_repeated (raw : http_Response.t) (s : Stream)
    (e : error) :
  http_Response.Body raw = Some s →
  outcomes s (reads s) = Err e →
  let r0 := Response.mk (Some raw) None None in
  let r1 := (Response_Body r0).2 in
  let r2 := (Response_Body r1).2 in
  (Response_Body r0).1 = None
  ∧ Response.Err r1 = Some e
  ∧ (Response_Body r1).1
    = match outcomes s (S (reads s)) with
      | OK content => Some content
      | Err _ => None
      end
  ∧ (http_Response.Body <$> Response.Response_ r2)
    = Some (Some (mkStream (outcomes s) (S (S (reads s))) (S (S (closes s))))).
Proof.
  intros Hs Hout. unfold Response_Body. simpl. rewrite Hs. simpl.
  rewrite Hout. simpl.
  destruct (outcomes s (S (reads s))); simpl; auto.
Qed.

(** *** The retry loop *)

Lemma Request_Do_failure (c : Client.t) (r : Request.t)
    (req : http_Request.t) (st : State) (w : World) (e : error) :
  Request.Request_ r = Some req →
  clientDo (st_world st) req = (w, Err e) →
  ∃ st', Request_Do c r st = Done (None, Some e) st'
         ∧ st_sent st' = st_sent st ++ [req]
         ∧ st_world st' = w.
Proof.
  intros Hreq Hdo. unfold Request_Do, Request_logRequest, dispatch.
  rewrite Hreq. run. rewrite Hdo. run. eauto.
Qed.

Lemma Request_Do_response (c : Client.t) (r : Request.t)
    (req : http_Request.t) (st : State) (w : World)
    (raw : http_Response.t) :
  Request.Request_ r = Some req →
  clientDo (st_world st) req = (w, OK (Some raw)) →
  ∃ env st', Request_Do c r st = Done (Some env, None) st'
             ∧ st_sent st' = st_sent st ++ [req]
             ∧ st_world st' = w
             ∧ is_Some (Response.Response_ env)
             ∧ Response_StatusCode env = http_Response.StatusCode raw
             ∧ (Client.Debug c = false →
                env = Response.mk (Some raw) None None).
Proof.
  intros Hreq Hdo.
  unfold Request_Do, Request_logRequest, Response_logResponse, dispatch.
  rewrite Hreq. run. rewrite Hdo. run.
  destruct (Client.Debug c); run.
  - unfold Response_String.
    pose proof (Response_Body_StatusCode (Response.mk (Some raw) None None)) as Hsc.
    pose proof (Response_Body_keeps_response
                  (Response.mk (Some raw) None None)) as Hsome.
    destruct (Response_Body (Response.mk (Some raw) None None))
      as [b env] eqn:Hbody. run.
    eexists _, _. repeat split; eauto. discriminate.
  - eexists _, _. repeat split; eauto.
Qed.

Lemma Request_attempts_exhausted (c : Client.t) (r : Request.t)
    (req : http_Request.t) (n : nat) :
  Request.Request_ r = Some req →
  ∀ (st : State) (w : World),
    afterFailures n (st_world st) req = Some w →
    ∃ st', Request_attempts c r n st
           = Done (None, Some (ErrorString "failed to execute request")) st'
           ∧ st_sent st' = st_sent st ++ replicate n req
           ∧ st_world st' = w.
Proof.
  intros Hreq. induction n as [|n IH]; intros st w Hrun; simpl in Hrun.
  - simplify_eq. exists st. run. rewrite app_nil_r. auto.
  - destruct (clientDo (st_world st) req) as [w1 [out|e]] eqn:Hdo;
      [discriminate|].
    destruct (Request_Do_failure c r req st w1 e Hreq Hdo)
      as (st1 & HDo & Hsent & Hworld).
    destruct (IH st1 w) as (st2 & Hloop & Hsent2 & Hworld2);
      [by rewrite Hworld|].
    exists st2. simpl. unfold bind at 1. rewrite HDo. simpl.
    rewrite Hloop, Hsent2, Hsent, <- app_assoc. auto.
Qed.

Lemma Request_attempts_first_response (c : Client.t) (r : Request.t)
    (req : http_Request.t) (raw : http_Response.t) (k : nat) :
  Request.Request_ r = Some req →
  ∀ (n : nat) (st : State) (wk w : World),
    (k < n)%nat →
    afterFailures k (st_world st) req = Some wk →
    clientDo wk req = (w, OK (Some raw)) →
    ∃ env st', Request_attempts c r n st = Done (Some env, None) st'
               ∧ st_sent st' = st_sent st ++ replicate (S k) req
               ∧ st_world st' = w
               ∧ Response_StatusCode env = http_Response.StatusCode raw
               ∧ (Client.Debug c = false →
                  env = Response.mk (Some raw) None None).
Proof.
  intros Hreq. induction k as [|k IH]; intros n st wk w Hlt Hrun Hok;
    (destruct n as [|n]; [lia|]); simpl in Hrun.
  - simplify_eq.
    destruct (Request_Do_response c r req st w raw Hreq Hok)
      as (env & st1 & HDo & Hsent & Hworld & [raw' Hsome] & Hsc & Hdbg).
    exists env, st1. simpl. unfold bind at 1. rewrite HDo. simpl.
    rewrite Hsome. auto.
  - destruct (clientDo (st_world st) req) as [w1 [out|e]] eqn:Hdo;
      [discriminate|].
    destruct (Request_Do_failure c r req st w1 e Hreq Hdo)
      as (st1 & HDo & Hsent & Hworld).
    destruct (IH n st1 wk w) as (env & st2 & Hloop & Hsent2 & Hrest);
      [lia | by rewrite Hworld | done |].
    exists env, st2. simpl. unfold bind at 1. rewrite HDo. simpl.
    rewrite Hloop, Hsent2, Hsent, <- app_assoc. auto.
Qed.

(** *** Assembly *)

Lemma addCookies_run (cs : list (option loc)) :
  ∀ (req : http_Request.t) (st : State) (req' : http_Request.t)
    (st' : State),
    addCookies cs req st = Done req' st' →
    st' = st
    ∧ (∀ k, k ≠ "Cookie" →
         http_Request.Header req' !! k = http_Request.Header req !! k)
    ∧ http_Request.Body req' = http_Request.Body req
    ∧ http_Request.GetBody req' = http_Request.GetBody req
    ∧ http_Request.URL req' = http_Request.URL req
    ∧ http_Request.Host req' = http_Request.Host req
    ∧ http_Request.ContentLength req' = http_Request.ContentLength req.
Proof.
  induction cs as [|[cookie|] cs IH]; intros req st req' st' Hrun;
    simpl in Hrun.
  - run. simplify_eq. repeat split; auto.
  - unfold bind, readCookie in Hrun.
    destruct (st_cookies st !! cookie) as [object|]; [|done].
    apply IH in Hrun as (-> & Hhdr & Hrest).
    split; [done|]. split; [|exact Hrest].
    intros k Hk. rewrite Hhdr by done.
    unfold AddCookie, NetHTTP.Set_. simpl.
    apply lookup_insert_ne.
    change (NetHTTP.CanonicalMIMEHeaderKey "Cookie") with "Cookie".
    congruence.
  - discriminate.
Qed.

Lemma Request_rawURL_run (c : Client.t) (r : Request.t) (st : State) :
  Request_rawURL c r st = Done (eval (Request_rawURL c r) st "") st.
Proof.
  unfold eval, Request_rawURL, Request_prepareRequestURL. run.
  by destruct (0 <? size _)%nat.
Qed.

Lemma Request_prepareRequestBody_run (r : Request.t) (st : State) :
  Request_prepareRequestBody r st
  = Done (eval (Request_prepareRequestBody r) st "") st.
Proof.
  unfold eval, Request_prepareRequestBody. run.
  by destruct (0 <? size _)%nat.
Qed.

(** What a successful assembly has done. *)
Lemma Request_newRequest_OK (c : Client.t) (r : Request.t) (st : State)
    (r' : Request.t) (req : http_Request.t) (st' : State) :
  Request_newRequest c r st = Done (r', OK req) st' →
  ∃ u : NetURL.URL,
    url_Parse (eval (Request_rawURL c r) st "") = OK u
    ∧ http_Request.URL req
      = NetURL.mkURL (NetURL.Scheme u) (removeEmptyPort (NetURL.Host u))
          (NetURL.Path u) (NetURL.RawQuery u)
    ∧ http_Request.Host req = removeEmptyPort (NetURL.Host u)
    ∧ match Request.GetBody r with
      | Some g => callGetBody r g = OK (http_Request.Body req)
                  ∧ http_Request.ContentLength req = 0%Z
      | None => http_Request.Body req
                = eval (Request_prepareRequestBody r) st ""
                ∧ http_Request.ContentLength req
                  = Z.of_nat (String.length (http_Request.Body req))
      end
    ∧ http_Request.GetBody req = Some (default OwnBody (Request.GetBody r))
    ∧ Request.GetBody r' = Some (default OwnBody (Request.GetBody r))
    ∧ Request.body r' = Request.body r
    ∧ Request.method r ≠ ""
    ∧ (∀ k, k ≠ "Cookie" →
         http_Request.Header req !! k
         = default ∅ (st_maps st !! Request.Header r) !! k)
    ∧ st_sent st' = st_sent st ∧ st_world st' = st_world st
    ∧ match Client.UserInfo c with
      | Some user =>
          ∃ embedded, Request.Request_ r = Some embedded
            ∧ Request.Request_ r'
              = Some (SetBasicAuth (Username user) (Password user) embedded)
            ∧ st' = st
      | None =>
          Request.Request_ r' = Request.Request_ r
          ∧ Request.Header r' = Request.Header r
          ∧ st' = if negb (IsStringEmpty (Client.BasicAuthToken c))
                  then match Header_Set (Request.Header r)
                               (Client.HeaderAuthorizationKey c)
                               (Client.AuthScheme c +:+ " "
                                +:+ Client.BasicAuthToken c) st with
                       | Done _ st1 => st1
                       | Panic _ => st
                       end
                  else st
      end.
Proof.
  unfold Request_newRequest. intros H.
  unfold bind at 1 in H. rewrite Request_rawURL_run in H.
  destruct (url_Parse _) as [u|e] eqn:Hparse; [|run; simplify_eq].
  exists u. split; [done|].
  unfold bind at 1 in H.
  destruct (Request.GetBody r) as [g|] eqn:Hg.
  - destruct (callGetBody r g) as [reqBody|e] eqn:Hcall; run; [|simplify_eq].
    destruct (Request.method r =? "") eqn:Hm; [simplify_eq|].
    apply String.eqb_neq in Hm.
    unfold sliceElems, Request_SetHeader, Header_Set in H.
    repeat (case_match; run; simplify_eq);
      repeat match goal with
        | H : addCookies _ _ _ = Done _ _ |- _ =>
            apply addCookies_run in H as (-> & Hh & -> & -> & -> & -> & ->)
        end; simpl; rewrite ?Hg; simpl; repeat split; eauto.
  - unfold bind at 1 in H. rewrite Request_prepareRequestBody_run in H.
    run.
    destruct (Request.method r =? "") eqn:Hm; [simplify_eq|].
    apply String.eqb_neq in Hm.
    unfold sliceElems, Request_SetHeader, Header_Set in H.
    repeat (case_match; run; simplify_eq);
      repeat match goal with
        | H : addCookies _ _ _ = Done _ _ |- _ =>
            apply addCookies_run in H as (-> & Hh & -> & -> & -> & -> & ->)
        end; simpl; rewrite ?Hg; simpl; repeat split; eauto.
Qed.

(** C1: with a ceiling of at least 1, an assembled request and a
    transport that fails at every dispatch, [Execute] dispatches the
    wire request exactly ceiling-many times and returns no response and
    the error [failed to execute request], a plain message that is the
    same whatever the transport errors were. *)
Theorem C1_retries_exhausted (c : Client.t) (urlPath : string)
    (r r1 : Request.t) (req req' : http_Request.t) (st st1 : State)
    (w : World) :
  (1 ≤ Client.RetryMax c)%Z →
  Request_newRequest c (Request.set_urlPoint (TrimPrefix urlPath "/") r) st
  = Done (r1, OK req) st1 →
  applyHook c req = Some req' →
  afterFailures (Z.to_nat (Client.RetryMax c)) (st_world st) req' = Some w →
  ∃ st2,
    Request_Execute c urlPath r st
    = Done (Request.set_Request_ (Some req') r1,
            (None, Some (ErrorString "failed to execute request"))) st2
    ∧ st_sent st2
      = st_sent st ++ replicate (Z.to_nat (Client.RetryMax c)) req'
    ∧ length (st_sent st2)
      = (length (st_sent st) + Z.to_nat (Client.RetryMax c))%nat.
Proof.
  intros _ Hbuild Hhook Hfail.
  destruct (Request_newRequest_OK _ _ _ _ _ _ Hbuild)
    as (u & _ & _ & _ & _ & _ & _ & _ & _ & _ & Hsent & Hworld & _).
  destruct (Request_attempts_exhausted c
              (Request.set_Request_ (Some req') r1) req'
              (Z.to_nat (Client.RetryMax c)) eq_refl st1 w)
    as (st2 & Hloop & Hsent2 & _); [by rewrite Hworld|].
  exists st2. unfold Request_Execute, bind at 1. rewrite Hbuild. simpl.
  unfold applyHook in Hhook. rewrite Hhook.
  unfold bind, ret. rewrite Hloop, Hsent2, Hsent.
  repeat split. rewrite length_app, length_replicate. reflexivity.
Qed.

(** C3: when, after [k] failed dispatches with [k] below the ceiling,
    a dispatch returns a response, [Execute] returns an envelope of
    that response and no error, whatever the status code, and makes no
    further dispatch; the envelope is a server error exactly when the
    status code is in [500,600), so it is one for status 500. *)
Theorem C3_first_response_is_returned (c : Client.t) (urlPath : string)
    (r r1 : Request.t) (req req' : http_Request.t) (st st1 : State)
    (k : nat) (wk w : World) (raw : http_Response.t) :
  Request_newRequest c (Request.set_urlPoint (TrimPrefix urlPath "/") r) st
  = Done (r1, OK req) st1 →
  applyHook c req = Some req' →
  (k < Z.to_nat (Client.RetryMax c))%nat →
  afterFailures k (st_world st) req' = Some wk →
  clientDo wk req' = (w, OK (Some raw)) →
  ∃ env st2,
    Request_Execute c urlPath r st
    = Done (Request.set_Request_ (Some req') r1, (Some env, None)) st2
    ∧ st_sent st2 = st_sent st ++ replicate (S k) req'
    ∧ st_world st2 = w
    ∧ Response_StatusCode env = http_Response.StatusCode raw
    ∧ (Client.Debug c = false → env = Response.mk (Some raw) None None)
    ∧ (Response_IsServerError env = true
       ↔ (500 ≤ http_Response.StatusCode raw < 600)%Z)
    ∧ (http_Response.StatusCode raw = 500%Z →
       Response_IsServerError env = true).
Proof.
  intros Hbuild Hhook Hlt Hfail Hok.
  destruct (Request_newRequest_OK _ _ _ _ _ _ Hbuild)
    as (u & _ & _ & _ & _ & _ & _ & _ & _ & _ & Hsent & Hworld & _).
  destruct (Request_attempts_first_response c
              (Request.set_Request_ (Some req') r1) req' raw k eq_refl
              (Z.to_nat (Client.RetryMax c)) st1 wk w)
    as (env & st2 & Hloop & Hsent2 & Hworld2 & Hsc & Hdbg);
    [done | by rewrite Hworld | done |].
  exists env, st2. unfold Request_Execute, bind at 1. rewrite Hbuild. simpl.
  unfold applyHook in Hhook. rewrite Hhook.
  unfold bind, ret. rewrite Hloop, Hsent2, Hsent.
  assert (Hiff : Response_IsServerError env = true
                 ↔ (500 ≤ http_Response.StatusCode raw < 600)%Z).
  { unfold Response_IsServerError. rewrite Hsc, andb_true_iff.
    rewrite Z.leb_le, Z.ltb_lt. reflexivity. }
  split; [reflexivity|]. do 4 (split; [done|]).
  split; [exact Hiff|]. intros H500. apply Hiff. lia.
Qed.

(** C2 (the code departs from it): [SetRetryMax] with a negative
    argument leaves the client as it was, whatever ceiling it had; an
    argument of 0 is stored; and with a ceiling of 0 or less [Execute],
    once the request is assembled, returns the generic error without any
    dispatch. *)
Theorem C2_negative_ceiling_is_not_clamped (n : Z) (c : Client.t) :
  (n < 0)%Z →
  Client_SetRetryMax n c = c
  ∧ Client.RetryMax (Client_SetRetryMax 0 c) = 0%Z
  ∧ ∀ (c0 : Client.t) (urlPath : string) (r r1 : Request.t)
      (req : http_Request.t) (st st1 : State),
      (Client.RetryMax c0 ≤ 0)%Z →
      Request_newRequest c0
        (Request.set_urlPoint (TrimPrefix urlPath "/") r) st
      = Done (r1, OK req) st1 →
      Request_Execute c0 urlPath r st
      = Done (Request.set_Request_ (applyHook c0 req) r1,
              (None, Some (ErrorString "failed to execute request"))) st1
      ∧ st_sent st1 = st_sent st.
Proof.
  intros Hn. unfold Client_SetRetryMax.
  split; [destruct (Z.ltb_spec n 0); [reflexivity | lia]|].
  split; [reflexivity|].
  intros c0 urlPath r r1 req st st1 Hle Hbuild. split.
  - unfold Request_Execute, bind at 1. rewrite Hbuild. simpl.
    replace (Z.to_nat (Client.RetryMax c0)) with 0%nat by lia.
    reflexivity.
  - by destruct (Request_newRequest_OK _ _ _ _ _ _ Hbuild)
      as (u & _ & _ & _ & _ & _ & _ & _ & _ & _ & Hsent & _).
Qed.

(** C7 (the code departs from it): when assembly installs the body
    supplier itself, the supplier returns the raw [body] of the
    descriptor, while the stream attached to the wire request carries
    the encoded form whenever form parameters are present. *)
Theorem C7_supplier_returns_raw_body (c : Client.t) (r : Request.t)
    (st : State) (r' : Request.t) (req : http_Request.t) (st' : State) :
  Request.GetBody r = None →
  Request_newRequest c r st = Done (r', OK req) st' →
  let form := default ∅ (st_maps st !! Request.formParams r) in
  http_Request.GetBody req = Some OwnBody
  ∧ Request.GetBody r' = Some OwnBody
  ∧ callGetBody r' OwnBody = OK (Request.body r)
  ∧ http_Request.Body req
    = (if (0 <? size form)%nat then NetURL.Encode form else Request.body r).
Proof.
  intros Hnone Hbuild.
  destruct (Request_newRequest_OK _ _ _ _ _ _ Hbuild)
    as (u & _ & _ & _ & Hbody & Hget & Hget' & Hraw & _).
  rewrite Hnone in Hbody, Hget, Hget'. destruct Hbody as [Hbody _].
  simpl in *. rewrite Hraw, Hbody. repeat split; try done.
  unfold eval, Request_prepareRequestBody. run.
  by destruct (0 <? size _)%nat.
Qed.

(** C4 (the code departs from it): the Authorization header of an
    assembled wire request is the one the header object of the
    descriptor held before assembly, whatever credentials or token the
    client has; and with user credentials on the client, assembly
    yields a wire request only for a descriptor that already embeds an
    earlier wire request, which is the one that receives the Basic
    header. *)
Theorem C4_credentials_miss_the_wire_request (c : Client.t) (r : Request.t)
    (st : State) (r' : Request.t) (req : http_Request.t) (st' : State) :
  Request_newRequest c r st = Done (r', OK req) st' →
  http_Request.Header req !! "Authorization"
  = default ∅ (st_maps st !! Request.Header r) !! "Authorization"
  ∧ ∀ user, Client.UserInfo c = Some user →
      ∃ embedded,
        Request.Request_ r = Some embedded
        ∧ Request.Request_ r'
          = Some (SetBasicAuth (Username user) (Password user) embedded).
Proof.
  intros Hbuild.
  destruct (Request_newRequest_OK _ _ _ _ _ _ Hbuild)
    as (u & _ & _ & _ & _ & _ & _ & _ & _ & Hhdr & _ & _ & Hauth).
  split; [by apply Hhdr|].
  intros user Huser. rewrite Huser in Hauth.
  destruct Hauth as (embedded & ? & ? & _). eauto.
Qed.

(** *** URL assembly *)

Lemma map_fold_Add_singletons (query : gmap string string) :
  map_fold (λ key value acc, NetURL.Add key value acc) ∅ query
  = (λ value, [value]) <$> query.
Proof.
  apply (map_fold_weak_ind
           (λ acc (m : gmap string string), acc = (λ value, [value]) <$> m)).
  - by rewrite fmap_empty.
  - intros key value m acc Hfresh ->.
    unfold NetURL.Add. rewrite lookup_fmap, Hfresh. simpl.
    by rewrite fmap_insert.
Qed.

Lemma substring_all (s : string) : String.substring 0 (String.length s) s = s.
Proof. induction s as [|a s IH]; simpl; [done|]. by rewrite IH. Qed.

Lemma TrimPrefix_slash (p : string) : TrimPrefix ("/" +:+ p) "/" = p.
Proof.
  unfold TrimPrefix, HasPrefix. simpl.
  destruct p; simpl; [done|].
  unfold dropBytes. simpl. by rewrite substring_all.
Qed.

Lemma TrimPrefix_no_slash (p : string) :
  HasPrefix p "/" = false → TrimPrefix p "/" = p.
Proof. unfold TrimPrefix. by intros ->. Qed.














(** *** The JSON body setters *)

(** C6, as the code has it: the setter of the descriptor takes a
    string as the body exactly when [isJSON] holds of it (after
    trimming, it starts with an opening brace and ends with a closing
    one, or the same with brackets), logs the string and keeps the body
    otherwise, and sets Content-Type to application/json in both cases;
    the setter of the client takes a string as the body exactly when
    [json.Valid] holds of it and then sets Content-Type, and otherwise
    logs the failure and changes neither body nor headers. *)
Theorem C6_json_body_setters (s : string) :
  (∀ (r : Request.t) (st : State),
     ∃ st',
       Request_SetBodyJSON (AnyString s) r st
       = Done (if isJSON s then Request.set_body s r else r) st'
       ∧ default ∅ (st_maps st' !! Request.Header r) !! "Content-Type"
         = Some [ContentTypeJson]
       ∧ st_logs st'
         = if isJSON s then st_logs st
           else st_logs st
                ++ [mkLog LevelError "invalid JSON string"
                      [ArgString "body"; ArgString s]])
  ∧ (∀ (c : Client.t) (st : State),
       ∃ st',
         Client_SetBodyJSON (AnyString s) c st
         = Done (if EncodingJSON.Valid s then Client.set_Body s c else c) st'
         ∧ if EncodingJSON.Valid s
           then default ∅ (st_maps st' !! Client.Header c) !! "Content-Type"
                = Some [ContentTypeJson]
                ∧ st_logs st' = st_logs st
           else st_maps st' = st_maps st
                ∧ st_logs st'
                  = st_logs st
                    ++ [mkLog LevelError "failed to marshal JSON"
                          [ArgString "error";
                           ArgError (ErrorString "invalid JSON string")]]).
Proof.
  split.
  - intros r st.
    unfold Request_SetBodyJSON, Request_SetHeader, Header_Set, NetHTTP.Set_.
    change (NetHTTP.CanonicalMIMEHeaderKey "Content-Type")
      with "Content-Type".
    destruct (isJSON s); run; eexists; (split; [reflexivity|]); simpl;
      rewrite lookup_insert_eq; simpl; by rewrite lookup_insert_eq.
  - intros c st.
    unfold Client_SetBodyJSON, marshalJSON, Client_SetHeader, Header_Set,
      NetHTTP.Set_.
    change (NetHTTP.CanonicalMIMEHeaderKey "Content-Type")
      with "Content-Type".
    destruct (EncodingJSON.Valid s); run; eexists;
      (split; [reflexivity|]); simpl; [|done].
    rewrite lookup_insert_eq; simpl; by rewrite lookup_insert_eq.
Qed.

(** *** The descriptor as a snapshot of the client *)

Ltac dom_solve :=
  first [ by apply elem_of_union_r
        | by apply union_subseteq_r
        | by apply elem_of_union_l, elem_of_singleton
        | by (intros ?; apply elem_of_union_r)
        | set_solver ].

Lemma append_run (s : slice) (xs : list (option loc)) (st : State) :
  (∀ a, sliceArr s = Some a → a ∈ dom (st_arrays st)) →
  ∃ s' st',
    append s xs st = Done s' st'
    ∧ st_maps st' = st_maps st
    ∧ st_dicts st' = st_dicts st
    ∧ dom (st_arrays st) ⊆ dom (st_arrays st')
    ∧ (∀ a, sliceArr s' = Some a → a ∈ dom (st_arrays st'))
    ∧ (∀ b, b ∈ dom (st_arrays st) → sliceArr s ≠ Some b →
         st_arrays st' !! b = st_arrays st !! b ∧ sliceArr s' ≠ Some b).
Proof.
  intros Halloc. unfold append, sliceCap, sliceElems.
  destruct s as [|a len]; run.
  - destruct (length xs) as [|n] eqn:Hlen; run.
    + eexists _, _. split; [done|]. repeat split; try done.
    + eexists _, _. split; [done|]. simpl.
      pose proof (is_fresh (dom (st_arrays st))) as Hfresh.
      repeat split; try done.
      * rewrite dom_insert_L. dom_solve.
      * intros a [= <-]. rewrite dom_insert_L. dom_solve.
      * rewrite lookup_insert_ne; [done|]. by intros <-.
      * by intros [= <-].
  - destruct (len + length xs <=? _)%nat eqn:Hcap; run.
    + eexists _, _. split; [done|]. simpl.
      specialize (Halloc a eq_refl).
      repeat split; try done.
      * rewrite dom_insert_L. dom_solve.
      * intros a' [= <-]. rewrite dom_insert_L. dom_solve.
      * rewrite lookup_insert_ne; [done|]. congruence.
    + eexists _, _. split; [done|]. simpl.
      pose proof (is_fresh (dom (st_arrays st))) as Hfresh.
      repeat split; try done.
      * rewrite dom_insert_L. dom_solve.
      * intros a' [= <-]. rewrite dom_insert_L. dom_solve.
      * rewrite lookup_insert_ne; [done|]. by intros <-.
      * by intros [= <-].
Qed.

Lemma cookies_alloc_iff (s : slice) (st : State) :
  match s with NilSlice => True | Slice a _ => a ∈ dom (st_arrays st) end
  ↔ ∀ a, sliceArr s = Some a → a ∈ dom (st_arrays st).
Proof. destruct s; simpl; split; intros; simplify_eq; auto. Qed.

Lemma separated_maps_write c r st st' l m :
  separated c r st →
  l = Client.Header c ∨ l = Client.FormParams c →
  st_maps st' = <[l := m]> (st_maps st) →
  st_dicts st' = st_dicts st →
  st_arrays st' = st_arrays st →
  separated c r st' ∧ Request_view r st' = Request_view r st.
Proof.
  intros ((Hc1 & Hc2 & Hc3 & Hc4) & (Hr1 & Hr2 & Hr3 & Hr4)
          & (Ha1 & Ha2 & Ha3 & Ha4 & Ha5 & Ha6)) Hl Hm Hd Ha.
  unfold separated, Client_allocated, Request_allocated, Request_view,
    sliceView.
  rewrite Hm, Hd, Ha, dom_insert_L.
  destruct Hl as [-> | ->]; rewrite !lookup_insert_ne by congruence;
    repeat split; try done; dom_solve.
Qed.

Lemma separated_dicts_write c r st st' m :
  separated c r st →
  st_maps st' = st_maps st →
  st_dicts st' = <[Client.QueryParams c := m]> (st_dicts st) →
  st_arrays st' = st_arrays st →
  separated c r st' ∧ Request_view r st' = Request_view r st.
Proof.
  intros ((Hc1 & Hc2 & Hc3 & Hc4) & (Hr1 & Hr2 & Hr3 & Hr4)
          & (Ha1 & Ha2 & Ha3 & Ha4 & Ha5 & Ha6)) Hm Hd Ha.
  unfold separated, Client_allocated, Request_allocated, Request_view,
    sliceView.
  rewrite Hm, Hd, Ha, dom_insert_L.
  rewrite !lookup_insert_ne by congruence.
  repeat split; try done; dom_solve.
Qed.

Lemma separated_same_store c r st st' :
  separated c r st →
  st_maps st' = st_maps st →
  st_dicts st' = st_dicts st →
  st_arrays st' = st_arrays st →
  separated c r st' ∧ Request_view r st' = Request_view r st.
Proof.
  intros Hsep Hm Hd Ha.
  unfold separated, Client_allocated, Request_allocated, Request_view,
    sliceView in *.
  by rewrite Hm, Hd, Ha.
Qed.

Lemma separated_append c r st xs :
  separated c r st →
  ∃ s' st', append (Client.Cookies c) xs st = Done s' st'
    ∧ separated (Client.set_Cookies s' c) r st'
    ∧ Request_view r st' = Request_view r st.
Proof.
  intros ((Hc1 & Hc2 & Hc3 & Hc4) & (Hr1 & Hr2 & Hr3 & Hr4)
          & (Ha1 & Ha2 & Ha3 & Ha4 & Ha5 & Ha6)).
  destruct (append_run (Client.Cookies c) xs st)
    as (s' & st' & Hrun & Hm & Hd & Hdom & Halloc & Hframe).
  { by apply cookies_alloc_iff. }
  exists s', st'. split; [done|].
  unfold separated, Client_allocated, Request_allocated, apart,
    Request_view, sliceView.
  rewrite Hm, Hd. simpl.
  destruct (Request.cookies r) as [|b n] eqn:Hrc.
  - repeat split; try done. by apply cookies_alloc_iff.
    by destruct s'.
  - destruct (Hframe b) as [Hb Hne]; [done| |].
    { destruct (Client.Cookies c); simpl; congruence. }
    rewrite Hb. repeat split; try done.
    + by apply cookies_alloc_iff.
    + by apply Hdom.
    + destruct s'; [done|]. simpl in Hne. congruence.
Qed.

Lemma forEach_preserves {A : Type} (I : State → Prop) (body : A → M unit)
    (l : list A) :
  (∀ x st, I st → ∃ st', body x st = Done tt st' ∧ I st') →
  ∀ st, I st → ∃ st', forEach l body st = Done tt st' ∧ I st'.
Proof.
  intros Hbody. induction l as [|x l IH]; intros st HI; simpl.
  - exists st. done.
  - destruct (Hbody x st HI) as (st1 & Hx & HI1).
    destruct (IH st1 HI1) as (st2 & Hl & HI2).
    exists st2. unfold bind. rewrite Hx. done.
Qed.

Lemma Client_SetHeader_separated c r st key value v :
  separated c r st ∧ Request_view r st = v →
  ∃ st', Client_SetHeader key value c st = Done c st'
         ∧ separated c r st' ∧ Request_view r st' = v.
Proof.
  intros [Hsep <-]. unfold Client_SetHeader, Header_Set. run.
  eexists. split; [done|].
  eapply separated_maps_write; [done | by left | done..].
Qed.

Lemma Client_SetQueryParam_separated c r st key value v :
  separated c r st ∧ Request_view r st = v →
  ∃ st', Client_SetQueryParam key value c st = Done c st'
         ∧ separated c r st' ∧ Request_view r st' = v.
Proof.
  intros [Hsep <-]. unfold Client_SetQueryParam. run.
  eexists. split; [done|].
  eapply separated_dicts_write; [done..].
Qed.

Lemma Client_SetFormParam_separated c r st key value v :
  separated c r st ∧ Request_view r st = v →
  ∃ st', Client_SetFormParam key value c st = Done c st'
         ∧ separated c r st' ∧ Request_view r st' = v.
Proof.
  intros [Hsep <-]. unfold Client_SetFormParam, Values_Set. run.
  eexists. split; [done|].
  eapply separated_maps_write; [done | by right | done..].
Qed.

Lemma Client_appendEach_separated r cookies : ∀ c st v,
  separated c r st ∧ Request_view r st = v →
  ∃ c' st', Client_appendEach cookies c st = Done c' st'
            ∧ separated c' r st' ∧ Request_view r st' = v.
Proof.
  induction cookies as [|cookie cookies IH]; intros c st v [Hsep <-]; simpl.
  - exists c, st. done.
  - destruct (separated_append c r st [cookie] Hsep)
      as (s' & st1 & Hrun & Hinv1 & Hview1).
    destruct (IH (Client.set_Cookies s' c) st1 (Request_view r st))
      as (c' & st2 & Hrest & Hinv2 & Hview2); [done|].
    exists c', st2. unfold bind. rewrite Hrun. done.
Qed.

Lemma newCookies_run (cookies : list NetHTTP.Cookie) :
  ∀ st, ∃ pointers st',
    newCookies cookies st = Done pointers st'
    ∧ st_maps st' = st_maps st
    ∧ st_dicts st' = st_dicts st
    ∧ st_arrays st' = st_arrays st.
Proof.
  induction cookies as [|cookie cookies IH]; intros st; simpl.
  - by exists [], st.
  - run.
    match goal with
    | |- context [newCookies cookies ?st1] =>
        destruct (IH st1) as (pointers & st' & -> & Hm & Hd & Ha)
    end.
    eexists _, _. split; [done|]. by rewrite Hm, Hd, Ha.
Qed.

Lemma sliceElems_run (s : slice) (st : State) :
  sliceElems s st = Done (sliceView s st) st.
Proof. by destruct s. Qed.

Ltac same_run :=
  match goal with
  | H1 : ?m = Done ?a _, H2 : ?m = Done ?b _ |- _ =>
      assert_fails (constr_eq a b); rewrite H1 in H2; simplify_eq
  end.

Lemma applyOp_separated op c r st c' st' :
  separated c r st →
  applyOp op c st = Done c' st' →
  separated c' r st' ∧ Request_view r st' = Request_view r st.
Proof.
  intros Hsep Hop.
  assert (HI : separated c r st ∧ Request_view r st = Request_view r st) by done.
  destruct op; simpl in Hop.
  - destruct (Client_SetHeader_separated c r st key value _ HI) as (? & ? & ?).
    by same_run.
  - unfold Client_SetHeaders, bind at 1 in Hop.
    destruct (forEach_preserves
                (λ s, separated c r s ∧ Request_view r s = Request_view r st)
                (λ kv, bind (Client_SetHeader kv.1 kv.2 c) (λ _, ret tt))
                headers) with (st := st) as (st1 & Hrun & HI1); [|done|].
    { intros kv s HIs.
      destruct (Client_SetHeader_separated c r s kv.1 kv.2 _ HIs) as (s' & Hs & ?).
      exists s'. unfold bind. rewrite Hs. done. }
    rewrite Hrun in Hop. run. by simplify_eq.
  - destruct (Client_SetHeader_separated c r st "User-Agent" userAgent _ HI)
      as (? & ? & ?).
    unfold Client_SetUserAgent in Hop. by same_run.
  - unfold Client_SetBodyJSON in Hop.
    destruct (marshalJSON data) as [jsonString|e].
    + destruct (Client_SetHeader_separated (Client.set_Body jsonString c) r st
                  "Content-Type" ContentTypeJson (Request_view r st))
        as (? & ? & ?); [done|]. by same_run.
    + run. simplify_eq. by eapply separated_same_store.
  - unfold Client_SetCookie, bind in Hop.
    destruct (newCookies_run (parseCookies cookies) st)
      as (pointers & st1 & Hnew & Hm & Hd & Ha).
    rewrite Hnew in Hop.
    destruct (separated_same_store c r st st1 Hsep Hm Hd Ha) as [Hsep1 Hview1].
    destruct (Client_appendEach_separated r pointers c st1
                (Request_view r st) (conj Hsep1 Hview1))
      as (c2 & st2 & Hrun2 & Hsep2 & Hview2).
    rewrite Hrun2 in Hop. by injection Hop as <- <-.
  - destruct (separated_append c r st cookies Hsep) as (s' & st1 & Hrun & ? & ?).
    unfold Client_SetCookiesRaw, bind in Hop. rewrite Hrun in Hop.
    run. injection Hop as <- <-. done.
  - destruct (separated_append c r st [cookie] Hsep) as (s' & st1 & Hrun & ? & ?).
    unfold Client_SetCookieRaw, bind in Hop. rewrite Hrun in Hop.
    run. injection Hop as <- <-. done.
  - run. simplify_eq. split; [|done].
    destruct Hsep as ((? & ? & ? & ?) & ? & (? & ? & ? & ? & ? & ?)).
    unfold separated, Client_allocated, apart. simpl. done.
  - destruct (Client_SetQueryParam_separated c r st key value _ HI) as (? & ? & ?).
    by same_run.
  - unfold Client_SetQueryParams, bind at 1 in Hop.
    destruct (forEach_preserves
                (λ s, separated c r s ∧ Request_view r s = Request_view r st)
                (λ kv, bind (Client_SetQueryParam kv.1 kv.2 c) (λ _, ret tt))
                params) with (st := st) as (st1 & Hrun & HI1); [|done|].
    { intros kv s HIs.
      destruct (Client_SetQueryParam_separated c r s kv.1 kv.2 _ HIs)
        as (s' & Hs & ?).
      exists s'. unfold bind. rewrite Hs. done. }
    rewrite Hrun in Hop. run. by simplify_eq.
  - destruct (Client_SetFormParam_separated c r st key value _ HI) as (? & ? & ?).
    by same_run.
  - unfold Client_SetFormParams, bind at 1 in Hop.
    destruct (forEach_preserves
                (λ s, separated c r s ∧ Request_view r s = Request_view r st)
                (λ kv, bind (Client_SetFormParam kv.1 kv.2 c) (λ _, ret tt))
                params) with (st := st) as (st1 & Hrun & HI1); [|done|].
    { intros kv s HIs.
      destruct (Client_SetFormParam_separated c r s kv.1 kv.2 _ HIs)
        as (s' & Hs & ?).
      exists s'. unfold bind. rewrite Hs. done. }
    rewrite Hrun in Hop. run. by simplify_eq.
  - run. simplify_eq. eapply separated_maps_write; [done | by left | done..].
  - run. simplify_eq. eapply separated_dicts_write; [done..].
  - run. simplify_eq. eapply separated_maps_write; [done | by right | done..].
  - destruct (Client.Cookies c) as [|a n] eqn:Hcs; [done|].
    destruct (i <? n)%nat; [|done]. run. simplify_eq.
    destruct Hsep as ((Hc1 & Hc2 & Hc3 & Hc4) & (Hr1 & Hr2 & Hr3 & Hr4)
                      & (Ha1 & Ha2 & Ha3 & Ha4 & Ha5 & Ha6)).
    rewrite Hcs in Hc4, Ha6.
    unfold separated, Client_allocated, Request_allocated, apart,
    Request_view, sliceView.
    simpl. rewrite Hcs, dom_insert_L.
    destruct (Request.cookies r) as [|b m].
    + repeat split; try done; dom_solve.
    + rewrite lookup_insert_ne by done. repeat split; try done; dom_solve.
  - unfold bind in Hop. rewrite sliceElems_run in Hop.
    destruct (sliceView (Client.Cookies c) st !! i) as [[l|]|]; [|done..].
    unfold writeCookie, ret in Hop.
    destruct (st_cookies st !! l); [|done].
    injection Hop as <- <-. by eapply separated_same_store.
Qed.

Lemma applyOps_separated ops : ∀ c r st c' st',
  separated c r st →
  applyOps ops c st = Done c' st' →
  separated c' r st' ∧ Request_view r st' = Request_view r st.
Proof.
  induction ops as [|op ops IH]; intros c r st c' st' Hsep Hrun;
    simpl in Hrun.
  - run. by simplify_eq.
  - unfold bind in Hrun.
    destruct (applyOp op c st) as [c1 st1|] eqn:Hop; [|done].
    destruct (applyOp_separated op c r st c1 st1 Hsep Hop) as [Hinv1 Hview1].
    destruct (IH c1 r st1 c' st' Hinv1 Hrun) as [Hinv2 Hview2].
    split; [done|]. congruence.
Qed.

Lemma append_elems s xs st s' st' :
  append s xs st = Done s' st' →
  (∀ a n, s = Slice a n → (n ≤ length (default [] (st_arrays st !! a)))%nat) →
  sliceView s' st' = sliceView s st ++ xs.
Proof.
  unfold append, sliceCap, sliceElems, sliceView.
  intros Hrun Hlen. destruct s as [|a len]; run.
  - destruct (length xs) as [|n] eqn:Hxs; run; simplify_eq.
    + by destruct xs.
    + simpl. rewrite lookup_insert_eq. simpl.
      rewrite take_app_length'; [done|]. done.
  - specialize (Hlen a len eq_refl).
    destruct (len + length xs <=? _)%nat eqn:Hcap; run; simplify_eq.
    + simpl. rewrite lookup_insert_eq. simpl. rewrite app_assoc.
      rewrite take_app_length'; [done|].
      rewrite length_app, length_take. lia.
    + simpl. rewrite lookup_insert_eq. simpl. rewrite app_assoc.
      rewrite take_app_length'; [done|].
      rewrite length_app, length_take. lia.
Qed.

Lemma map_fold_insert_id {V : Type} (m : gmap string V) :
  map_fold (λ key value acc, <[key := value]> acc) ∅ m = m.
Proof.
  apply (map_fold_weak_ind (λ acc (m : gmap string V), acc = m)).
  - done.
  - by intros key value m' acc _ ->.
Qed.

Lemma Client_R_separated (c : Client.t) (st : State) :
  Client_allocated c st →
  ∃ c1 r st1,
    Client_R c st = Done (c1, r) st1
    ∧ separated c1 r st1
    ∧ Request_view r st1 = Client_view c st
    ∧ Client_view c1 st1 = Client_view c st.
Proof.
  intros (Hc1 & Hc2 & Hc3 & Hc4).
  unfold Client_R, Header_Clone, copyMap, copyValues.
  set (c1 := if Client.Method c =? "" then Client.set_Method "GET" c else c).
  assert (Hh : Client.Header c1 = Client.Header c)
    by (subst c1; destruct (Client.Method c =? ""); reflexivity).
  assert (Hf : Client.FormParams c1 = Client.FormParams c)
    by (subst c1; destruct (Client.Method c =? ""); reflexivity).
  assert (Hq : Client.QueryParams c1 = Client.QueryParams c)
    by (subst c1; destruct (Client.Method c =? ""); reflexivity).
  assert (Hk : Client.Cookies c1 = Client.Cookies c)
    by (subst c1; destruct (Client.Method c =? ""); reflexivity).
  clearbody c1. rewrite Hh, Hf, Hq, Hk.
  run.
  pose proof (is_fresh (dom (st_maps st))) as Fh.
  pose proof (is_fresh (dom (st_dicts st))) as Fq.
  pose proof (is_fresh (dom (st_arrays st))) as Fe.
  set (h := fresh (dom (st_maps st))) in *.
  set (q := fresh (dom (st_dicts st))) in *.
  set (e := fresh (dom (st_arrays st))) in *.
  set (cloned := default ∅ (st_maps st !! Client.Header c)) in *.
  pose proof (is_fresh (dom (<[h := cloned]> (st_maps st)))) as Ff.
  set (f := fresh (dom (<[h := cloned]> (st_maps st)))) in *.
  rewrite dom_insert_L in Ff.
  apply not_elem_of_union in Ff as [Ffh Ff].
  apply not_elem_of_singleton in Ffh.
  assert (N1 : Client.Header c ≠ h) by (by intros E; rewrite E in Hc1).
  assert (N2 : Client.Header c ≠ f) by (by intros E; rewrite E in Hc1).
  assert (N3 : Client.FormParams c ≠ h) by (by intros E; rewrite E in Hc2).
  assert (N4 : Client.FormParams c ≠ f) by (by intros E; rewrite E in Hc2).
  assert (N5 : Client.QueryParams c ≠ q) by (by intros E; rewrite E in Hc3).
  assert (N6 : h ≠ f) by done.
  match goal with
  | |- context [ mkState ?m ?d ?a ?k ?l ?s ?w ] =>
      set (st4 := mkState m d a k l s w)
  end.
  assert (Hsame : ∀ b, b ∈ dom (st_arrays st) →
                       st_arrays st4 !! b = st_arrays st !! b).
  { intros b Hb. simpl. apply lookup_insert_ne. dom_solve. }
  assert (Helems : sliceView (Client.Cookies c) st4
                   = sliceView (Client.Cookies c) st).
  { unfold sliceView. destruct (Client.Cookies c) as [|a n]; [done|].
    by rewrite Hsame. }
  rewrite sliceElems_run, Helems.
  destruct (append_run (Slice e 0) (sliceView (Client.Cookies c) st) st4)
    as (s' & st' & Hrun & Hm & Hd & Hdom & Halloc & Hframe).
  { intros a [= <-]. simpl. rewrite dom_insert_L. dom_solve. }
  pose proof (append_elems _ _ _ _ _ Hrun) as Hview.
  rewrite Hrun. eexists _, _, _. split; [reflexivity|].
  assert (Hcook : sliceView s' st' = sliceView (Client.Cookies c) st).
  { rewrite Hview; [done|]. intros a n [= <- <-]. lia. }
  assert (Hcl : ∀ a n, Client.Cookies c = Slice a n →
                       a ∈ dom (st_arrays st)
                       ∧ st_arrays st' !! a = st_arrays st !! a
                       ∧ sliceArr s' ≠ Some a).
  { intros a n Hcs. rewrite Hcs in Hc4. split; [done|].
    destruct (Hframe a) as [Ha Hs'].
    - simpl. rewrite dom_insert_L. dom_solve.
    - simpl. intros [= ->]. done.
    - rewrite Ha, Hsame by done. done. }
  assert (Hmaps : ∀ l, l ≠ h → l ≠ f → st_maps st' !! l = st_maps st !! l).
  { intros l ? ?. rewrite Hm. simpl. by rewrite !lookup_insert_ne. }
  assert (Hmh : st_maps st' !! h
                = Some (default ∅ (st_maps st !! Client.Header c))).
  { rewrite Hm. simpl. rewrite !lookup_insert_ne by done.
    by rewrite lookup_insert_eq. }
  assert (Hmf : st_maps st' !! f
                = Some (default ∅ (st_maps st !! Client.FormParams c))).
  { rewrite Hm. simpl. rewrite lookup_insert_eq.
    rewrite lookup_insert_ne by done. by rewrite map_fold_insert_id. }
  assert (Hdq : st_dicts st' !! q
                = Some (default ∅ (st_dicts st !! Client.QueryParams c))).
  { rewrite Hd. simpl. rewrite lookup_insert_eq.
    by rewrite map_fold_insert_id. }
  assert (Hdc : st_dicts st' !! Client.QueryParams c
                = st_dicts st !! Client.QueryParams c).
  { rewrite Hd. simpl. by rewrite !lookup_insert_ne. }
  split; [|split].
  - unfold separated, Client_allocated, Request_allocated, apart. simpl.
    rewrite Hh, Hf, Hq, Hk.
    rewrite !elem_of_dom, Hmh, Hmf, Hdq, Hdc, !Hmaps by done.
    rewrite <- !elem_of_dom.
    repeat split; eauto.
    + destruct (Client.Cookies c) as [|a n] eqn:Hcs; [done|].
      destruct (Hcl a n eq_refl) as (Ha & Heq & _).
      apply elem_of_dom. rewrite Heq. by apply elem_of_dom.
    + by apply cookies_alloc_iff.
    + destruct (Client.Cookies c) as [|a n] eqn:Hcs; [done|].
      destruct (Hcl a n eq_refl) as (_ & _ & Hs').
      destruct s'; [done|]. simpl in Hs'. congruence.
  - unfold Request_view, Client_view. simpl.
    rewrite Hmh, Hmf, Hdq. simpl. f_equal. exact Hcook.
  - unfold Client_view, sliceView. rewrite Hh, Hf, Hq, Hk.
    rewrite !Hmaps, Hdc by done. f_equal.
    destruct (Client.Cookies c) as [|a n] eqn:Hcs; [done|].
    destruct (Hcl a n eq_refl) as (_ & -> & _). done.
Qed.

(** *** Cookie strings *)

Lemma splitByte_cons (sep : ascii) (s : string) :
  ∃ piece pieces, splitByte sep s = piece :: pieces.
Proof.
  induction s as [|c s (piece & pieces & IH)]; simpl; [by eauto|].
  destruct (Ascii.eqb c sep); [by eauto|]. rewrite IH. eauto.
Qed.

Lemma splitByte_app (sep : ascii) (a b : string) :
  splitByte sep (a +:+ String sep b) = splitByte sep a ++ splitByte sep b.
Proof.
  induction a as [|c a IH]; simpl.
  - by rewrite Ascii.eqb_refl.
  - destruct (Ascii.eqb c sep); [by rewrite IH|].
    rewrite IH. by destruct (splitByte_cons sep a) as (? & ? & ->).
Qed.

Lemma splitByte_without (sep : ascii) (s : string) :
  without sep s = true → splitByte sep s = [s].
Proof.
  unfold without. induction s as [|c s IH]; simpl; [done|].
  intros [Hc Hs]%andb_prop. apply negb_true_iff in Hc. rewrite Hc.
  by rewrite IH.
Qed.

Lemma splitByte_head_without (sep : ascii) (s : string) :
  ∀ piece pieces, splitByte sep s = piece :: pieces →
                  without sep piece = true.
Proof.
  unfold without. induction s as [|c s IH]; simpl; intros piece pieces Hs.
  - by simplify_eq.
  - destruct (Ascii.eqb c sep) eqn:Hc; [by simplify_eq|].
    destruct (splitByte sep s) as [|p ps]; simplify_eq; simpl.
    + by rewrite Hc.
    + rewrite Hc. simpl. by eapply IH.
Qed.

Lemma without_app (sep : ascii) (a b : string) :
  without sep (a +:+ b) = without sep a && without sep b.
Proof.
  unfold without. induction a as [|c a IH]; simpl; [done|].
  by rewrite IH, andb_assoc.
Qed.

Lemma splitByte2_cut (sep : ascii) (a b : string) :
  without sep a = true →
  splitByte2 sep (a +:+ String sep b) = [a; b].
Proof.
  unfold without. induction a as [|c a IH]; simpl.
  - by rewrite Ascii.eqb_refl.
  - intros [Hc Hs]%andb_prop. apply negb_true_iff in Hc. rewrite Hc.
    by rewrite IH.
Qed.

Lemma TrimSpace_space (s : string) :
  TrimSpace (String " " s) = TrimSpace s.
Proof.
  unfold TrimSpace.
  assert (Hleft : trimLeftSpaces (String.length (String " " s)) (String " " s)
                  = trimLeftSpaces (String.length s) s).
  { simpl String.length. cbn [trimLeftSpaces].
    assert (Hfind : List.find (HasPrefix (String " " s)) spaces = Some " ")
      by (destruct s; vm_compute; reflexivity).
    rewrite Hfind. unfold dropBytes. simpl.
    by rewrite Nat.sub_0_r, substring_all. }
  by rewrite Hleft.
Qed.

(** The loop of [parseCookies] only ever appends to its result. *)
Lemma parseCookies_foldl (pieces : list string) :
  ∀ acc,
    foldl (λ result cookie,
             let cookie := TrimSpace cookie in
             if String.eqb cookie "" then result
             else match splitByte2 "=" cookie with
                  | [name; value] => result ++ [NetHTTP.mkCookie name value]
                  | _ => result
                  end) acc pieces
    = acc ++ foldl (λ result cookie,
             let cookie := TrimSpace cookie in
             if String.eqb cookie "" then result
             else match splitByte2 "=" cookie with
                  | [name; value] => result ++ [NetHTTP.mkCookie name value]
                  | _ => result
                  end) [] pieces.
Proof.
  induction pieces as [|p pieces IH]; intros acc; simpl.
  - by rewrite app_nil_r.
  - rewrite IH. symmetry. rewrite IH. symmetry.
    destruct (TrimSpace p =? ""); [done|].
    destruct (splitByte2 "=" (TrimSpace p)) as [|n [|v [|? ?]]]; try done.
    by rewrite <- app_assoc.
Qed.

Lemma parseCookies_append (a b : string) :
  parseCookies (a +:+ String ";" b) = parseCookies a ++ parseCookies b.
Proof.
  unfold parseCookies.
  rewrite splitByte_app, foldl_app. apply parseCookies_foldl.
Qed.

Lemma parseCookies_space (s : string) :
  parseCookies (String " " s) = parseCookies s.
Proof.
  unfold parseCookies. simpl.
  destruct (splitByte_cons ";" s) as (piece & pieces & ->). simpl.
  by rewrite TrimSpace_space.
Qed.

Lemma parseCookies_pair (c : NetHTTP.Cookie) :
  plainCookie c = true → parseCookies (cookiePair c) = [c].
Proof.
  unfold plainCookie.
  intros [[[Hn1 Hn2]%andb_prop Hv]%andb_prop Htrim%String.eqb_eq]%andb_prop.
  unfold parseCookies. rewrite splitByte_without.
  2:{ unfold cookiePair. rewrite !without_app, Hn1, Hv. done. }
  simpl. rewrite Htrim. unfold cookiePair at 1.
  destruct (NetHTTP.Name c +:+ "=" +:+ NetHTTP.Value c =? "") eqn:Hempty.
  { apply String.eqb_eq in Hempty. by destruct (NetHTTP.Name c). }
  unfold cookiePair.
  change ("=" +:+ NetHTTP.Value c) with (String "=" (NetHTTP.Value c)).
  rewrite splitByte2_cut by done. by destruct c.
Qed.

(** X1: [parseCookies] distributes over a semicolon: the cookies of
    [a;b] are the cookies of [a] followed by the cookies of [b], for
    any two strings. *)
Theorem X1_parseCookies_distributes (a b : string) :
  parseCookies (a +:+ ";" +:+ b) = parseCookies a ++ parseCookies b.
Proof. apply parseCookies_append. Qed.

(** X2: [parseCookies] reads back a cookie line: for cookies whose
    names have no semicolon and no equals sign, whose values have no
    semicolon and whose [name=value] text has no white space at either
    end, parsing the pairs joined by a semicolon and a space gives the
    cookies back, in order. *)
Theorem X2_parseCookies_reads_back (cs : list NetHTTP.Cookie) :
  forallb plainCookie cs = true →
  parseCookies (cookieLine cs) = cs.
Proof.
  induction cs as [|c [|c' rest] IH]; intros Hplain.
  - reflexivity.
  - simpl in *. apply parseCookies_pair. by destruct (plainCookie c).
  - apply andb_prop in Hplain as [Hc Hrest].
    change (cookieLine (c :: c' :: rest))
      with (cookiePair c +:+ String ";" (String " " (cookieLine (c' :: rest)))).
    rewrite parseCookies_append, parseCookies_space, IH by done.
    by rewrite parseCookies_pair.
Qed.

(** *** Host names *)

(** X3: what [removeEmptyPort] does to a host name without a colon
    that is followed by a colon and anything: when nothing or another
    colon comes right after the first colon, everything from the first
    colon on is dropped (so the host of an address in brackets such as
    [[::1]:8080] is cut down to the opening bracket); otherwise the
    host is returned as it is. *)
Theorem X3_removeEmptyPort_cases (h tail : string) :
  noColon h = true →
  removeEmptyPort (h +:+ ":" +:+ tail)
  = match tail with
    | "" => h
    | String d _ => if Ascii.eqb d ":" then h else h +:+ ":" +:+ tail
    end.
Proof.
  intros Hh. unfold removeEmptyPort.
  change (h +:+ ":" +:+ tail) with (h +:+ String ":" tail).
  rewrite splitByte_app, (splitByte_without ":" h Hh). simpl.
  destruct tail as [|d tail]; simpl; [done|].
  destruct (Ascii.eqb d ":") eqn:Hd; [done|].
  by destruct (splitByte_cons ":" tail) as (? & ? & ->).
Qed.

(** X4: [removeEmptyPort] is idempotent: applying it to its own result
    changes nothing, for every host string. *)
Theorem X4_removeEmptyPort_idempotent (host : string) :
  removeEmptyPort (removeEmptyPort host) = removeEmptyPort host.
Proof.
  unfold removeEmptyPort at 2 3.
  destruct (splitByte ":" host) as [|hostname [|port rest]] eqn:Hsplit.
  - unfold removeEmptyPort. by rewrite Hsplit.
  - unfold removeEmptyPort. by rewrite Hsplit.
  - destruct (port =? "") eqn:Hport.
    + unfold removeEmptyPort.
      by rewrite (splitByte_without ":" hostname
                    (splitByte_head_without _ _ _ _ Hsplit)).
    + unfold removeEmptyPort. by rewrite Hsplit, Hport.
Qed.

(** *** The envelope: status classes, headers, files, encoding *)

(** X5: the three status classes exclude one another, and none of them
    holds for a status code below 200, from 300 to 399, or from 600
    on. *)
Theorem X5_status_classes_exclusive (r : Response.t) :
  (Response_IsSuccess r = true → Response_IsClientError r = false
                                 ∧ Response_IsServerError r = false)
  ∧ (Response_IsClientError r = true → Response_IsServerError r = false)
  ∧ ((Response_StatusCode r < 200 ∨ 300 ≤ Response_StatusCode r < 400
      ∨ 600 ≤ Response_StatusCode r)%Z →
     Response_IsSuccess r = false ∧ Response_IsClientError r = false
     ∧ Response_IsServerError r = false).
Proof.
  unfold Response_IsSuccess, Response_IsClientError, Response_IsServerError.
  repeat split; intros; lia.
Qed.

(** X6: [GetHeader] canonicalises the key it is given, [HasHeader] and
    [GetHeaderValues] do not: on a response whose header map has
    canonical keys only, a key that is not in canonical form is reported
    as absent by [HasHeader] and gets no values from [GetHeaderValues],
    while [GetHeader] returns the first value stored under the
    canonical form of the key. *)
Theorem X6_header_lookup_case (r : Response.t) (key : string) :
  map_Forall (λ k _, NetHTTP.CanonicalMIMEHeaderKey k = k)
    (Response_Header r) →
  NetHTTP.CanonicalMIMEHeaderKey key ≠ key →
  Response_HasHeader key r = false
  ∧ Response_GetHeaderValues key r = []
  ∧ Response_GetHeader key r
    = default ""
        (head (Response_GetHeaderValues (NetHTTP.CanonicalMIMEHeaderKey key) r)).
Proof.
  intros Hcanon Hkey.
  assert (Hnone : Response_Header r !! key = None).
  { destruct (Response_Header r !! key) as [v|] eqn:Hv; [|done].
    by specialize (Hcanon key v Hv). }
  unfold Response_HasHeader, Response_GetHeaderValues, Response_GetHeader,
    NetHTTP.Get.
  rewrite Hnone. repeat split.
  by destruct (Response_Header r !! NetHTTP.CanonicalMIMEHeaderKey key)
    as [[|? ?]|].
Qed.

(** X7: [Body] and [SaveToFile] share one cache: once [Body] has
    returned bytes, [SaveToFile] writes exactly those bytes and leaves
    the envelope, and so the stream, as it is; and after a [SaveToFile]
    that came to the write, on an envelope with a response, [Body]
    returns the bytes written without a read, as does every later
    [SaveToFile]. *)
Theorem X7_SaveToFile_shares_the_cache (r : Response.t) :
  (∀ b r1 path,
     Response_Body r = (Some b, r1) →
     Response_SaveToFile path r1 = SaveWrite path b r1)
  ∧ (∀ data r1 path,
       is_Some (Response.Response_ r) →
       Response_SaveToFile path r = SaveWrite path data r1 →
       Response_Body r1 = (Some data, r1)
       ∧ ∀ path', Response_SaveToFile path' r1 = SaveWrite path' data r1).
Proof.
  split.
  - intros b r1 path. unfold Response_Body, Response_SaveToFile.
    destruct (Response.Response_ r) as [raw|] eqn:Hraw; [|done].
    destruct (Response.body r) as [b0|] eqn:Hb.
    + intros [= <- <-]. by rewrite Hb.
    + destruct (http_Response.Body raw) as [s|] eqn:Hs.
      * simpl. destruct (outcomes s (reads s)); [|done].
        by intros [= <- <-].
      * done.
  - intros data r1 path [raw Hraw]. unfold Response_Body, Response_SaveToFile.
    rewrite Hraw.
    destruct (Response.body r) as [b0|] eqn:Hb.
    + intros [= <- <-]. by rewrite Hraw, Hb.
    + destruct (http_Response.Body raw) as [s|] eqn:Hs; [|done].
      simpl. destruct (outcomes s (reads s)); [|done].
      by intros [= <- <-].
Qed.

(** X8: with a nil cache, [SaveToFile] panics where [Body] returns nil:
    on an envelope without a response, and on a response without a
    stream; and when the read fails it returns the error of the read
    without recording it in [Err] (which [Body] does), leaving the
    cache nil and the stream read and closed once more. *)
Theorem X8_SaveToFile_failures (r : Response.t) (path : string) :
  Response.body r = None →
  match Response.Response_ r with
  | None => Response_SaveToFile path r = SavePanic
            ∧ Response_Body r = (None, r)
  | Some raw =>
      match http_Response.Body raw with
      | None => Response_SaveToFile path r = SavePanic
                ∧ Response_Body r = (None, r)
      | Some s =>
          ∀ e, outcomes s (reads s) = Err e →
               ∃ r1, Response_SaveToFile path r = SaveReadError e r1
                     ∧ Response.Err r1 = Response.Err r
                     ∧ Response.body r1 = None
                     ∧ Response.Err (Response_Body r).2 = Some e
                     ∧ (http_Response.Body <$> Response.Response_ r1)
                       = Some (Some (mkStream (outcomes s) (S (reads s))
                                       (S (closes s))))
      end
  end.
Proof.
  intros Hb. unfold Response_SaveToFile, Response_Body. rewrite Hb.
  destruct (Response.Response_ r) as [raw|]; [|done].
  destruct (http_Response.Body raw) as [s|]; [|done].
  intros e He. simpl. rewrite He. simpl. eauto 10.
Qed.

(** X9: [DetectEncoding] never converts a body: on an envelope with a
    response it takes the mutex and then calls [Body], which waits for
    the same mutex, so the call does not return; on an envelope without
    a response it returns nil and leaves the envelope as it is;
    whatever the decoder would do. *)
Theorem X9_DetectEncoding_never_converts
    (gbkDecode : string → res string) (r : Response.t) :
  Response_DetectEncoding gbkDecode r
  = match Response.Response_ r with
    | Some _ => Blocked
    | None => Returned (None, r)
    end.
Proof.
  unfold Response_DetectEncoding, Response_Body_locking.
  by destruct (Response.Response_ r).
Qed.

(** *** The headers of a descriptor *)

(** X10: a header set on a descriptor is read back under every
    spelling of the key with the same canonical form, and deleting it
    under any such spelling removes it: [GetHeader] then returns the
    empty string. *)
Theorem X10_header_round_trip (r : Request.t) (st : State)
    (key key' value : string) :
  NetHTTP.CanonicalMIMEHeaderKey key' = NetHTTP.CanonicalMIMEHeaderKey key →
  ∃ st1 st2,
    Request_SetHeader key value r st = Done r st1
    ∧ Request_GetHeader key' r st1 = Done value st1
    ∧ Request_DelHeader key' r st1 = Done r st2
    ∧ Request_GetHeader key r st2 = Done "" st2.
Proof.
  intros Hkey.
  unfold Request_SetHeader, Request_GetHeader, Request_DelHeader, Header_Set,
    Header_Get, Header_Del, NetHTTP.Set_, NetHTTP.Get, NetHTTP.Del.
  run. eexists _, _. split; [reflexivity|]. simpl.
  rewrite !lookup_insert_eq. simpl. rewrite Hkey, !lookup_insert_eq.
  split; [reflexivity|]. split; [reflexivity|]. simpl.
  by rewrite lookup_insert_eq; simpl; rewrite lookup_delete_eq.
Qed.

(** X11: [AddHeader] appends the value to the values the descriptor
    has under the canonical key; [GetHeader] keeps returning the first
    value (the new one only if there was none); a later [SetHeader]
    replaces them all by its one value. *)
Theorem X11_AddHeader_appends (r : Request.t) (st : State)
    (key value : string) :
  let k := NetHTTP.CanonicalMIMEHeaderKey key in
  let old := default [] (default ∅ (st_maps st !! Request.Header r) !! k) in
  ∃ st1,
    Request_AddHeader key value r st = Done r st1
    ∧ default ∅ (st_maps st1 !! Request.Header r) !! k = Some (old ++ [value])
    ∧ Request_GetHeader key r st1 = Done (default value (head old)) st1
    ∧ ∀ st2, Request_SetHeader key value r st1 = Done r st2 →
             default ∅ (st_maps st2 !! Request.Header r) !! k = Some [value].
Proof.
  intros k old.
  unfold Request_AddHeader, Request_GetHeader, Request_SetHeader, Header_Add,
    Header_Get, Header_Set, NetHTTP.Add, NetHTTP.Get, NetHTTP.Set_.
  run. eexists. split; [reflexivity|]. simpl.
  rewrite !lookup_insert_eq. simpl. rewrite !lookup_insert_eq.
  fold k. fold old. split; [done|]. split.
  - by destruct old.
  - intros st2 [= <-]. simpl. rewrite lookup_insert_eq. simpl.
    by rewrite lookup_insert_eq.
Qed.

(** *** New clients *)

(** X12: from any state, [NewClient] returns a client with a ceiling
    of 5, no method and no base URL, whose header, query and form
    objects and cookie array are new (none of them existed before, and
    the header and form objects differ) and empty, and it leaves every
    object that existed, the cookies, the log and the dispatched
    requests as they were. *)
Theorem X12_NewClient_fresh (st : State) :
  ∃ c st',
    NewClient st = Done c st'
    ∧ Client_allocated c st'
    ∧ Client_view c st' = (∅, ∅, ∅, [])
    ∧ Client.RetryMax c = 5%Z ∧ Client.Method c = "" ∧ Client.BaseURL c = ""
    ∧ (Client.Header c ∉ dom (st_maps st))
    ∧ (Client.FormParams c ∉ dom (st_maps st))
    ∧ Client.Header c ≠ Client.FormParams c
    ∧ (Client.QueryParams c ∉ dom (st_dicts st))
    ∧ (∀ a, sliceArr (Client.Cookies c) = Some a → a ∉ dom (st_arrays st))
    ∧ (∀ l, l ∈ dom (st_maps st) → st_maps st' !! l = st_maps st !! l)
    ∧ (∀ l, l ∈ dom (st_dicts st) → st_dicts st' !! l = st_dicts st !! l)
    ∧ (∀ l, l ∈ dom (st_arrays st) → st_arrays st' !! l = st_arrays st !! l)
    ∧ st_cookies st' = st_cookies st
    ∧ st_sent st' = st_sent st ∧ st_logs st' = st_logs st.
Proof.
  unfold NewClient. run. eexists _, _. split; [reflexivity|]. simpl.
  pose proof (is_fresh (dom (st_maps st))) as Hm.
  pose proof (is_fresh (dom (st_dicts st))) as Hd.
  pose proof (is_fresh (dom (st_arrays st))) as Ha.
  pose proof (is_fresh (dom (<[fresh (dom (st_maps st)) := ∅]> (st_maps st))))
    as Hm2.
  rewrite dom_insert_L in Hm2.
  apply not_elem_of_union in Hm2 as [Hm2 Hm3].
  apply not_elem_of_singleton in Hm2.
  unfold Client_allocated, Client_view, sliceView. simpl.
  rewrite !dom_insert_L.
  rewrite !lookup_insert_eq. simpl.
  rewrite (lookup_insert_ne (<[_ := _]> (st_maps st))) by done.
  rewrite lookup_insert_eq. simpl.
  repeat split; try done.
  - apply elem_of_union_r, elem_of_union_l. by apply elem_of_singleton.
  - apply elem_of_union_l. by apply elem_of_singleton.
  - apply elem_of_union_l. by apply elem_of_singleton.
  - apply elem_of_union_l. by apply elem_of_singleton.
  - intros a [= <-]. done.
  - intros l Hl. rewrite !lookup_insert_ne; [done|..]; by intros <-.
  - intros l Hl. rewrite lookup_insert_ne; [done|]. by intros <-.
  - intros l Hl. rewrite lookup_insert_ne; [done|]. by intros <-.
Qed.

(** *** Debug mode *)

(** X13: in debug mode [Do] reads the body before the caller sees the
    envelope: when the dispatch returns a response whose stream
    delivers its content, the envelope returned has that content in its
    cache, [Body] returns it without a read, the stream has been read
    and closed once, and the log has received the request dump, at
    error level, and the response dump with the content. *)
Theorem X13_debug_reads_the_body (c : Client.t) (r : Request.t)
    (req : http_Request.t) (st : State) (w : World) (raw : http_Response.t)
    (s : Stream) (content : string) :
  Client.Debug c = true →
  Request.Request_ r = Some req →
  clientDo (st_world st) req = (w, OK (Some raw)) →
  http_Response.Body raw = Some s →
  outcomes s (reads s) = OK content →
  ∃ env st',
    Request_Do c r st = Done (Some env, None) st'
    ∧ Response.body env = Some content
    ∧ Response_Body env = (Some content, env)
    ∧ (http_Response.Body <$> Response.Response_ env)
      = Some (Some (mkStream (outcomes s) (S (reads s)) (S (closes s))))
    ∧ st_logs st'
      = st_logs st
        ++ [mkLog LevelError "Performing request"
              [ArgFields [("method", http_Request.Method req);
                          ("body", Request.body r)]];
            mkLog LevelInfo "Received response"
              [ArgFields [("status", http_Response.Status raw);
                          ("body", content)]]].
Proof.
  intros Hdebug Hreq Hdo Hs Hout.
  unfold Request_Do, Request_logRequest, Response_logResponse, dispatch,
    Response_String, Response_Body.
  rewrite Hreq, Hdebug. run. rewrite Hdo. run. rewrite Hs. simpl.
  rewrite Hout. run. eexists _, _. split; [reflexivity|]. simpl.
  rewrite <- app_assoc. done.
Qed.

(** *** The outcomes of [Execute] *)

Lemma bind_Done {A B : Type} (m : M A) (k : A → M B) (st : State) (b : B)
    (st' : State) :
  bind m k st = Done b st' →
  ∃ a st1, m st = Done a st1 ∧ k a st1 = Done b st'.
Proof. unfold bind. destruct (m st) as [a st1|]; [eauto|done]. Qed.

Ltac step H :=
  unfold bind at 1 in H;
  match type of H with
  | match ?m ?s with _ => _ end = _ =>
      let E := fresh "Hstep" in
      destruct (m s) as [? ?|] eqn:E; [|discriminate H]
  end.

Lemma addCookies_state (cs : list (option loc)) :
  ∀ (req req' : http_Request.t) (st st' : State),
    addCookies cs req st = Done req' st' →
    st' = st ∧ http_Request.Method req' = http_Request.Method req.
Proof.
  induction cs as [|[cookie|] cs IH]; intros req req' st st' Hrun;
    simpl in Hrun.
  - run. by simplify_eq.
  - unfold bind, readCookie in Hrun.
    destruct (st_cookies st !! cookie) as [object|]; [|done].
    by apply IH in Hrun as [-> ->].
  - discriminate.
Qed.

(** Assembly dispatches nothing, logs nothing and leaves the method,
    the target and the objects of the descriptor in place. *)
Lemma Request_newRequest_frame (c : Client.t) (r : Request.t) (st : State)
    (r' : Request.t) (built : res http_Request.t) (st' : State) :
  Request_newRequest c r st = Done (r', built) st' →
  st_sent st' = st_sent st ∧ st_world st' = st_world st
  ∧ st_logs st' = st_logs st ∧ st_dicts st' = st_dicts st
  ∧ st_arrays st' = st_arrays st ∧ st_cookies st' = st_cookies st
  ∧ Request.method r' = Request.method r
  ∧ Request.urlPoint r' = Request.urlPoint r
  ∧ Request.queryParams r' = Request.queryParams r
  ∧ Request.cookies r' = Request.cookies r
  ∧ match built with
    | OK req => http_Request.Method req = Request.method r
    | Err _ => st' = st ∧ Request.Request_ r' = Request.Request_ r
    end.
Proof.
  unfold Request_newRequest, Request_rawURL, Request_prepareRequestURL,
    Request_prepareRequestBody, sliceElems, Request_SetHeader, Header_Set.
  intros H. run.
  repeat (case_match; run; simplify_eq);
    repeat match goal with
      | H : addCookies _ _ _ = Done _ _ |- _ =>
          apply addCookies_state in H as [-> ->]
      end; simpl; repeat split; eauto.
Qed.

Lemma Request_Do_outcome (c : Client.t) (r : Request.t) (st : State)
    (result : option Response.t * option error) (st' : State) :
  Request_Do c r st = Done result st' →
  ∃ req, Request.Request_ r = Some req
         ∧ st_sent st' = st_sent st ++ [req]
         ∧ st_dicts st' = st_dicts st
         ∧ ((∃ e, result = (None, Some e))
            ∨ (∃ env, result = (Some env, None))).
Proof.
  unfold Request_Do, Request_logRequest, Response_logResponse, dispatch.
  intros H. destruct (Request.Request_ r) as [req|]; [|done].
  exists req. split; [done|]. run.
  destruct (clientDo (st_world st) req) as [w [response|e]]; run.
  - destruct (Client.Debug c); run.
    + destruct response as [raw|]; run; [|done].
      destruct (Response_String _) as [text env]. run. simplify_eq. eauto 10.
    + simplify_eq. eauto 10.
  - simplify_eq. eauto 10.
Qed.

Lemma Request_attempts_outcome (c : Client.t) (r : Request.t) (n : nat) :
  ∀ (st : State) (result : option Response.t * option error) (st' : State),
    Request_attempts c r n st = Done result st' →
    st_dicts st' = st_dicts st
    ∧ ∃ sent,
        st_sent st' = st_sent st ++ sent
        ∧ (length sent ≤ n)%nat
        ∧ (∀ x, x ∈ sent → Request.Request_ r = Some x)
        ∧ ((result = (None, Some (ErrorString "failed to execute request"))
            ∧ length sent = n)
           ∨ (∃ env, result = (Some env, None)
                     ∧ is_Some (Response.Response_ env) ∧ sent ≠ [])).
Proof.
  induction n as [|n IH]; intros st result st' Hrun; simpl in Hrun.
  - run. simplify_eq. split; [done|]. exists []. rewrite app_nil_r.
    repeat split; auto. intros x Hx. by apply elem_of_nil in Hx.
  - apply bind_Done in Hrun as ([response ok] & st1 & HDo & Hrun).
    destruct (Request_Do_outcome c r st _ st1 HDo)
      as (req & Hreq & Hsent & Hdicts & Hshape).
    assert (Hnext :
      Request_attempts c r n st1 = Done result st' →
      st_dicts st' = st_dicts st
      ∧ ∃ sent,
          st_sent st' = st_sent st ++ sent
          ∧ (length sent ≤ S n)%nat
          ∧ (∀ x, x ∈ sent → Request.Request_ r = Some x)
          ∧ ((result = (None, Some (ErrorString "failed to execute request"))
              ∧ length sent = S n)
             ∨ (∃ env, result = (Some env, None)
                       ∧ is_Some (Response.Response_ env) ∧ sent ≠ []))).
    { intros Hloop.
      destruct (IH st1 result st' Hloop)
        as (Hd & sent & Hs & Hlen & Hall & Hres).
      split; [congruence|].
      exists (req :: sent). rewrite Hs, Hsent, <- app_assoc. simpl.
      repeat split; [lia| |].
      - intros x [->|Hx]%elem_of_cons; auto.
      - destruct Hres as [[-> <-]|(env & -> & Hsome & _)]; [by left|].
        right. eauto. }
    destruct ok as [e|]; [by apply Hnext|].
    destruct response as [resp|]; [|done].
    destruct (Response.Response_ resp) as [raw|] eqn:Hraw;
      [|by apply Hnext].
    run. simplify_eq. split; [done|]. exists [req]. rewrite Hsent. simpl.
    repeat split; [lia| |].
    + intros x Hx. apply elem_of_cons in Hx as [->|Hx]; [done|].
      by apply elem_of_nil in Hx.
    + right. exists resp. rewrite Hraw. eauto.
Qed.

(** What a returning [Execute] has done. *)
Lemma Request_Execute_run (c : Client.t) (urlPath : string)
    (r : Request.t) (st : State) (r' : Request.t)
    (result : option Response.t * option error) (st' : State) :
  Request_Execute c urlPath r st = Done (r', result) st' →
  Request.method r' = Request.method r
  ∧ Request.urlPoint r' = TrimPrefix urlPath "/"
  ∧ Request.queryParams r' = Request.queryParams r
  ∧ st_dicts st' = st_dicts st
  ∧ ∃ sent,
      st_sent st' = st_sent st ++ sent
      ∧ (length sent ≤ Z.to_nat (Client.RetryMax c))%nat
      ∧ (∀ x, x ∈ sent → Request.Request_ r' = Some x)
      ∧ (Client.handleRequestResultFunc c = None →
         ∀ x, x ∈ sent → http_Request.Method x = Request.method r)
      ∧ ((∃ env, result = (Some env, None)
                 ∧ is_Some (Response.Response_ env) ∧ sent ≠ [])
         ∨ (result = (None, Some (ErrorString "failed to execute request"))
            ∧ length sent = Z.to_nat (Client.RetryMax c))
         ∨ (∃ e, result = (None, Some e) ∧ sent = []
                 ∧ st_logs st'
                   = st_logs st
                     ++ [mkLog LevelError "failed to build HTTP request"
                           [ArgString "error"; ArgError e]])).
Proof.
  unfold Request_Execute. intros H.
  apply bind_Done in H as ([r1 built] & st1 & Hbuild & H).
  destruct (Request_newRequest_frame _ _ _ _ _ _ Hbuild)
    as (Hsent & _ & Hlogs & Hdicts & _ & _ & Hm & Hu & Hq & _ & Hbuilt).
  simpl in Hm, Hu, Hq.
  destruct built as [request|e].
  - apply bind_Done in H as (result1 & st2 & Hloop & H).
    run. simplify_eq.
    destruct (Request_attempts_outcome _ _ _ _ _ _ Hloop)
      as (Hd & sent & Hs & Hlen & Hall & Hres).
    repeat split; [done..|congruence|].
    exists sent. rewrite Hs, Hsent. repeat split; [done..| |].
    + intros Hhook x Hx. specialize (Hall x Hx). simpl in Hall.
      rewrite Hhook in Hall. by simplify_eq.
    + destruct Hres as [[-> <-]|(env & -> & Hsome & Hne)]; eauto 10.
  - run. simplify_eq. repeat split; [done..|].
    exists []. simpl. rewrite app_nil_r, Hsent, Hlogs.
    repeat split; [lia| | |eauto 10];
      intros; by match goal with H : _ ∈ [] |- _ => apply elem_of_nil in H end.
Qed.

(** X14: whenever [Execute] returns, it returns either an envelope
    with a response in it and no error, after at least one dispatch, or
    no envelope and the error [failed to execute request], after
    exactly ceiling-many dispatches, or no envelope and the error of a
    failed assembly, logged once, after no dispatch at all; never both
    an envelope and an error, never neither.  The dispatches never
    exceed the ceiling, and each of them sent the one wire request that
    is left embedded in the descriptor. *)
Theorem X14_Execute_outcomes (c : Client.t) (urlPath : string)
    (r : Request.t) (st : State) (r' : Request.t)
    (result : option Response.t * option error) (st' : State) :
  Request_Execute c urlPath r st = Done (r', result) st' →
  ∃ sent,
    st_sent st' = st_sent st ++ sent
    ∧ (length sent ≤ Z.to_nat (Client.RetryMax c))%nat
    ∧ (∀ x, x ∈ sent → Request.Request_ r' = Some x)
    ∧ ((∃ env, result = (Some env, None)
               ∧ is_Some (Response.Response_ env) ∧ sent ≠ [])
       ∨ (result = (None, Some (ErrorString "failed to execute request"))
          ∧ length sent = Z.to_nat (Client.RetryMax c))
       ∨ (∃ e, result = (None, Some e) ∧ sent = []
               ∧ st_logs st'
                 = st_logs st
                   ++ [mkLog LevelError "failed to build HTTP request"
                         [ArgString "error"; ArgError e]])).
Proof.
  intros H.
  destruct (Request_Execute_run _ _ _ _ _ _ _ H)
    as (_ & _ & _ & _ & sent & Hsent & Hlen & Hall & _ & Hres).
  exists sent. auto.
Qed.

(** X15: an assembly that returns an error has changed nothing in the
    state, and the error has one of three causes: [url.Parse] rejected
    the assembled string (the descriptor is as before), the body
    supplier of the descriptor returned the error (the descriptor is as
    before), or the method of the descriptor is empty, in which case
    the error is [HTTP method is not set] and a descriptor that had no
    body supplier has been given one all the same. *)
Theorem X15_assembly_errors (c : Client.t) (r : Request.t) (st : State)
    (r' : Request.t) (e : error) (st' : State) :
  Request_newRequest c r st = Done (r', Err e) st' →
  st' = st
  ∧ (url_Parse (eval (Request_rawURL c r) st "") = Err e ∧ r' = r
     ∨ (∃ g, Request.GetBody r = Some g ∧ callGetBody r g = Err e ∧ r' = r)
     ∨ (e = ErrorString "HTTP method is not set"
        ∧ Request.method r = ""
        ∧ r' = match Request.GetBody r with
               | Some _ => r
               | None => Request.set_GetBody (Some OwnBody) r
               end)).
Proof.
  unfold eval, Request_newRequest, Request_rawURL, Request_prepareRequestURL,
    Request_prepareRequestBody, sliceElems, Request_SetHeader, Header_Set.
  intros H. run.
  repeat (case_match; run; simplify_eq);
    repeat match goal with
      | H : addCookies _ _ _ = Done _ _ |- _ =>
          apply addCookies_state in H as [-> ->]
      | H : (_ =? _) = true |- _ => apply String.eqb_eq in H
      end;
    repeat match goal with H : Request.GetBody _ = _ |- _ => rewrite H end;
    split; eauto 10.
Qed.

(** X16: a descriptor that has been assembled once is assembled
    differently the next time: the first wire request of a descriptor
    without a body supplier announces the length of its body, the form
    encoding included; the wire request of any later assembly of the
    descriptor (after [Execute] has stored a request and a target in
    it) carries the raw body the descriptor had, whatever its form
    parameters, with a content length of 0. *)
Theorem X16_second_assembly_sends_raw_body (c : Client.t)
    (r r1 r2 : Request.t) (req1 req2 : http_Request.t)
    (st st1 st1' st2 : State) (x : option http_Request.t) (u : string) :
  Request.GetBody r = None →
  Request_newRequest c r st = Done (r1, OK req1) st1 →
  Request_newRequest c (Request.set_urlPoint u (Request.set_Request_ x r1))
    st1' = Done (r2, OK req2) st2 →
  http_Request.ContentLength req1
  = Z.of_nat (String.length (http_Request.Body req1))
  ∧ http_Request.Body req2 = Request.body r
  ∧ http_Request.ContentLength req2 = 0%Z.
Proof.
  intros Hnone H1 H2.
  destruct (Request_newRequest_OK _ _ _ _ _ _ H1)
    as (u1 & _ & _ & _ & Hbody1 & _ & Hget1 & Hraw1 & _).
  destruct (Request_newRequest_OK _ _ _ _ _ _ H2)
    as (u2 & _ & _ & _ & Hbody2 & _).
  rewrite Hnone in Hbody1, Hget1. simpl in Hget1, Hbody2.
  rewrite Hget1 in Hbody2. simpl in Hbody2.
  destruct Hbody1 as [_ Hlen1]. destruct Hbody2 as [Hcall Hlen2].
  injection Hcall as Hcall. repeat split; [done| |done]. congruence.
Qed.

(** *** The cookies of a descriptor and of a client *)

Lemma pointees_cons (pointer : option loc) (pointers : list (option loc))
    (st : State) :
  pointees (pointer :: pointers) st
  = match pointer with
    | Some l =>
        match st_cookies st !! l, pointees pointers st with
        | Some c, Some cs => Some (c :: cs)
        | _, _ => None
        end
    | None => None
    end.
Proof.
  unfold pointees. simpl. destruct pointer as [l|]; simpl; [|done].
  destruct (st_cookies st !! l); simpl; [|done].
  by destruct (mapM _ pointers).
Qed.

Lemma pointees_app (a b : list (option loc)) (st : State) :
  pointees (a ++ b) st
  = match pointees a st, pointees b st with
    | Some xs, Some ys => Some (xs ++ ys)
    | _, _ => None
    end.
Proof.
  induction a as [|p a IH].
  - change (pointees [] st) with (Some (@nil NetHTTP.Cookie)). simpl.
    by destruct (pointees b st).
  - rewrite <- app_comm_cons, !pointees_cons, IH. destruct p as [l|]; [|done].
    destruct (st_cookies st !! l); [|done].
    by destruct (pointees a st), (pointees b st).
Qed.

Lemma pointees_mono (pointers : list (option loc)) (st st' : State) :
  st_cookies st ⊆ st_cookies st' →
  ∀ cs, pointees pointers st = Some cs → pointees pointers st' = Some cs.
Proof.
  intros Hsub. induction pointers as [|p pointers IH]; intros cs; [done|].
  rewrite !pointees_cons. destruct p as [l|]; [|done].
  destruct (st_cookies st !! l) as [c|] eqn:Hl; [|done].
  rewrite (lookup_weaken _ _ _ _ Hl Hsub).
  destruct (pointees pointers st) as [cs0|]; [|done].
  by rewrite (IH cs0 eq_refl).
Qed.

Lemma addCookies_nil (cs : list (option loc)) :
  None ∈ cs →
  ∀ (req req' : http_Request.t) (st st' : State),
    addCookies cs req st ≠ Done req' st'.
Proof.
  induction cs as [|[cookie|] cs IH]; intros Hin req req' st st'; simpl.
  - by apply elem_of_nil in Hin.
  - apply elem_of_cons in Hin as [?|Hin]; [done|].
    unfold bind, readCookie.
    destruct (st_cookies st !! cookie); [by apply IH|done].
  - done.
Qed.

Lemma addCookies_header (pointers : list (option loc)) (st : State) :
  ∀ (cs : list NetHTTP.Cookie) (req : http_Request.t),
    pointees pointers st = Some cs →
    ∃ req',
      addCookies pointers req st = Done req' st
      ∧ NetHTTP.Get "Cookie" (http_Request.Header req')
        = foldl joinCookie (NetHTTP.Get "Cookie" (http_Request.Header req)) cs.
Proof.
  induction pointers as [|p pointers IH]; intros cs req Hcs.
  - injection Hcs as <-. by exists req.
  - rewrite pointees_cons in Hcs. destruct p as [l|]; [|done].
    destruct (st_cookies st !! l) as [c|] eqn:Hl; [|done].
    destruct (pointees pointers st) as [cs0|] eqn:Hcs0; [|done].
    injection Hcs as <-.
    destruct (IH cs0 (AddCookie c req) eq_refl) as (req' & Hrun & Hget).
    exists req'. simpl. unfold bind, readCookie. rewrite Hl.
    split; [done|]. rewrite Hget. f_equal.
    unfold AddCookie, NetHTTP.Get, NetHTTP.Set_. simpl.
    by rewrite lookup_insert_eq.
Qed.

Lemma append_view (s : slice) (xs : list (option loc)) (st : State) :
  sliceFits s st →
  ∃ s' st',
    append s xs st = Done s' st'
    ∧ sliceView s' st' = sliceView s st ++ xs
    ∧ sliceFits s' st'
    ∧ st_cookies st' = st_cookies st
    ∧ st_maps st' = st_maps st
    ∧ st_sent st' = st_sent st.
Proof.
  unfold append, sliceCap, sliceElems, sliceView, sliceFits.
  intros Hfit. destruct s as [|a len]; run.
  - destruct (length xs) as [|n] eqn:Hxs; run.
    + eexists _, _. split; [done|]. by destruct xs.
    + eexists _, _. split; [done|]. simpl. rewrite lookup_insert_eq. simpl.
      rewrite take_app_length' by done.
      repeat split; try done. rewrite length_app. lia.
  - destruct (len + length xs <=? _)%nat eqn:Hcap; run.
    + eexists _, _. split; [done|]. simpl. rewrite lookup_insert_eq. simpl.
      rewrite app_assoc.
      rewrite take_app_length' by (rewrite length_app, length_take; lia).
      repeat split; try done. rewrite !length_app, length_take. lia.
    + eexists _, _. split; [done|]. simpl. rewrite lookup_insert_eq. simpl.
      rewrite app_assoc.
      rewrite take_app_length' by (rewrite length_app, length_take; lia).
      repeat split; try done. rewrite !length_app, length_take. lia.
Qed.

Lemma newCookies_objects (cookies : list NetHTTP.Cookie) :
  ∀ st, ∃ pointers st',
    newCookies cookies st = Done pointers st'
    ∧ pointees pointers st' = Some cookies
    ∧ st_cookies st ⊆ st_cookies st'
    ∧ st_arrays st' = st_arrays st
    ∧ st_maps st' = st_maps st
    ∧ st_sent st' = st_sent st.
Proof.
  induction cookies as [|cookie cookies IH]; intros st; simpl.
  - by exists [], st.
  - run.
    match goal with
    | |- context [newCookies cookies ?st1] =>
        destruct (IH st1) as (pointers & st' & -> & Hobj & Hsub & Ha & Hm & Hs)
    end.
    simpl in *. eexists _, _. split; [done|].
    pose proof (is_fresh (dom (st_cookies st))) as Hfresh.
    apply not_elem_of_dom in Hfresh.
    assert (Hl : st_cookies st' !! fresh (dom (st_cookies st)) = Some cookie).
    { eapply lookup_weaken; [|exact Hsub]. by rewrite lookup_insert_eq. }
    rewrite pointees_cons, Hl, Hobj. repeat split; try done.
    etrans; [|exact Hsub]. by apply insert_subseteq.
Qed.

Lemma Client_appendEach_view (pointers : list (option loc)) :
  ∀ (c : Client.t) (st : State),
    sliceFits (Client.Cookies c) st →
    ∃ c' st',
      Client_appendEach pointers c st = Done c' st'
      ∧ sliceView (Client.Cookies c') st'
        = sliceView (Client.Cookies c) st ++ pointers
      ∧ sliceFits (Client.Cookies c') st'
      ∧ st_cookies st' = st_cookies st.
Proof.
  induction pointers as [|p pointers IH]; intros c st Hfit; simpl.
  - exists c, st. by rewrite app_nil_r.
  - destruct (append_view (Client.Cookies c) [p] st Hfit)
      as (s' & st1 & Happ & Hview & Hfit1 & Hck & _).
    destruct (IH (Client.set_Cookies s' c) st1 Hfit1)
      as (c' & st' & Hrun & Hview' & Hfit' & Hck').
    exists c', st'. unfold bind. rewrite Happ.
    split; [done|]. simpl in *. rewrite Hview', Hview, <- app_assoc.
    repeat split; [done|]. congruence.
Qed.

Lemma Request_newRequest_cookies (c : Client.t) (r : Request.t) (st : State)
    (r' : Request.t) (req : http_Request.t) (st' : State) :
  Request_newRequest c r st = Done (r', OK req) st' →
  ∃ req0,
    http_Request.Header req0 = default ∅ (st_maps st !! Request.Header r)
    ∧ addCookies (sliceView (Request.cookies r) st) req0 st = Done req st.
Proof.
  unfold Request_newRequest, Request_rawURL, Request_prepareRequestURL,
    Request_prepareRequestBody, Request_SetHeader, Header_Set.
  intros H. run.
  repeat (case_match; run; simplify_eq;
          repeat match goal with
            | H : sliceElems _ _ = Done _ _ |- _ =>
                rewrite sliceElems_run in H; simplify_eq
            end);
    repeat match goal with
      | H : addCookies _ _ _ = Done _ ?s |- _ =>
          pose proof (proj1 (addCookies_run _ _ _ _ _ H)); subst s
      end;
    eexists; (split; [|eassumption]); reflexivity.
Qed.

(** X17: [SetCookie] on a descriptor appends the cookies parsed from
    the string, in order, after the cookies the descriptor has, each as
    a new cookie object; the cookie objects that existed are left as
    they were. *)
Theorem X17_Request_SetCookie_appends (cookies : string) (r : Request.t)
    (st : State) (old : list NetHTTP.Cookie) :
  sliceFits (Request.cookies r) st →
  pointees (sliceView (Request.cookies r) st) st = Some old →
  ∃ r1 st1,
    Request_SetCookie cookies r st = Done r1 st1
    ∧ pointees (sliceView (Request.cookies r1) st1) st1
      = Some (old ++ parseCookies cookies)
    ∧ sliceFits (Request.cookies r1) st1
    ∧ st_cookies st ⊆ st_cookies st1.
Proof.
  intros Hfit Hold. unfold Request_SetCookie.
  destruct (newCookies_objects (parseCookies cookies) st)
    as (pointers & st0 & Hnew & Hobj & Hsub & Ha & _).
  destruct (append_view (Request.cookies r) pointers st0)
    as (s' & st1 & Happ & Hview & Hfit1 & Hck & _).
  { unfold sliceFits in *. by rewrite Ha. }
  exists (Request.set_cookies s' r), st1.
  unfold bind. rewrite Hnew, Happ. split; [done|]. simpl.
  rewrite Hview, pointees_app.
  assert (Hsame : sliceView (Request.cookies r) st0
                  = sliceView (Request.cookies r) st).
  { unfold sliceView. by rewrite Ha. }
  rewrite Hsame.
  rewrite (pointees_mono _ st st1) with (cs := old); [|by rewrite Hck|done].
  rewrite (pointees_mono _ st0 st1) with (cs := parseCookies cookies);
    [|by rewrite Hck|done].
  repeat split; [done|]. by rewrite Hck.
Qed.

(** X18: [SetCookie] on a client, which appends the parsed cookies one
    by one, has the same result as the setter of the descriptor: the
    cookies parsed from the string, in order, after the cookies the
    client has. *)
Theorem X18_Client_SetCookie_appends (cookies : string) (c : Client.t)
    (st : State) (old : list NetHTTP.Cookie) :
  sliceFits (Client.Cookies c) st →
  pointees (sliceView (Client.Cookies c) st) st = Some old →
  ∃ c1 st1,
    Client_SetCookie cookies c st = Done c1 st1
    ∧ pointees (sliceView (Client.Cookies c1) st1) st1
      = Some (old ++ parseCookies cookies)
    ∧ sliceFits (Client.Cookies c1) st1.
Proof.
  intros Hfit Hold. unfold Client_SetCookie.
  destruct (newCookies_objects (parseCookies cookies) st)
    as (pointers & st0 & Hnew & Hobj & Hsub & Ha & _).
  destruct (Client_appendEach_view pointers c st0)
    as (c1 & st1 & Happ & Hview & Hfit1 & Hck).
  { unfold sliceFits in *. by rewrite Ha. }
  exists c1, st1.
  unfold bind. rewrite Hnew, Happ. split; [done|].
  rewrite Hview, pointees_app.
  assert (Hsame : sliceView (Client.Cookies c) st0
                  = sliceView (Client.Cookies c) st).
  { unfold sliceView. by rewrite Ha. }
  rewrite Hsame.
  rewrite (pointees_mono _ st st1) with (cs := old); [|by rewrite Hck|done].
  rewrite (pointees_mono _ st0 st1) with (cs := parseCookies cookies);
    [|by rewrite Hck|done].
  done.
Qed.

(** X19: [SetCookieRaw] accepts a nil cookie, and the descriptor is
    then of no use: no assembly of it yields a wire request, and an
    [Execute] that returns at all returns an error without a single
    dispatch. *)
Theorem X19_nil_cookie_blocks_assembly (c : Client.t) (urlPath : string)
    (r : Request.t) (st : State) :
  sliceFits (Request.cookies r) st →
  ∃ r1 st1,
    Request_SetCookieRaw None r st = Done r1 st1
    ∧ (∀ r' req st', Request_newRequest c r1 st1 ≠ Done (r', OK req) st')
    ∧ ∀ r' result st',
        Request_Execute c urlPath r1 st1 = Done (r', result) st' →
        (∃ e, result = (None, Some e)) ∧ st_sent st' = st_sent st.
Proof.
  intros Hfit. unfold Request_SetCookieRaw.
  destruct (append_view (Request.cookies r) [None] st Hfit)
    as (s' & st1 & Happ & Hview & Hfit1 & _ & _ & Hsent).
  exists (Request.set_cookies s' r), st1. unfold bind. rewrite Happ.
  split; [done|].
  assert (Hnil : ∀ r0 r' req st',
            Request.cookies r0 = s' →
            Request_newRequest c r0 st1 ≠ Done (r', OK req) st').
  { intros r0 r' req st' Hr0 Hbuild.
    destruct (Request_newRequest_cookies _ _ _ _ _ _ Hbuild)
      as (req0 & _ & Hadd).
    eapply addCookies_nil; [|exact Hadd].
    rewrite Hr0, Hview. apply elem_of_app. right.
    apply elem_of_cons. by left. }
  split; [by intros r' req st'; apply Hnil|].
  intros r' result st' H. unfold Request_Execute in H.
  apply bind_Done in H as ([r2 [request|e]] & st2 & Hbuild & H);
    [by apply Hnil in Hbuild|].
  destruct (Request_newRequest_frame _ _ _ _ _ _ Hbuild) as (Hs & _).
  run. injection H as <- <- <-. simpl. split; [eauto|]. congruence.
Qed.

(** X20: the Cookie header of a wire request is the Cookie header the
    descriptor had, followed by the cookies of the descriptor in order,
    each as [name=value] with name and value sanitized, joined by a
    semicolon and a space. *)
Theorem X20_Cookie_header (c : Client.t) (r : Request.t)
    (st : State) (cs : list NetHTTP.Cookie) (r' : Request.t)
    (req : http_Request.t) (st' : State) :
  pointees (sliceView (Request.cookies r) st) st = Some cs →
  Request_newRequest c r st = Done (r', OK req) st' →
  NetHTTP.Get "Cookie" (http_Request.Header req)
  = foldl joinCookie
      (NetHTTP.Get "Cookie" (default ∅ (st_maps st !! Request.Header r))) cs.
Proof.
  intros Hcs Hbuild.
  destruct (Request_newRequest_cookies _ _ _ _ _ _ Hbuild)
    as (req0 & Hhdr & Hadd).
  destruct (addCookies_header _ st cs req0 Hcs) as (req1 & Hadd1 & Hget).
  rewrite Hadd in Hadd1. injection Hadd1 as <-. by rewrite Hget, Hhdr.
Qed.

(** *** The verb helpers *)

Lemma append_sent (s : slice) (xs : list (option loc)) (st : State) :
  ∃ s' st', append s xs st = Done s' st' ∧ st_sent st' = st_sent st
            ∧ st_logs st' = st_logs st ∧ st_world st' = st_world st.
Proof.
  unfold append, sliceCap, sliceElems.
  destruct s as [|a len]; run; case_match; run; eauto 10.
Qed.

Lemma Client_R_method (c : Client.t) (st : State) (c1 : Client.t)
    (r : Request.t) (st1 : State) :
  Client_R c st = Done (c1, r) st1 →
  c1 = (if String.eqb (Client.Method c) "" then Client.set_Method "GET" c
        else c)
  ∧ Request.method r = Client.Method c1
  ∧ Request.GetBody r = None
  ∧ st_sent st1 = st_sent st.
Proof.
  unfold Client_R, Header_Clone, copyMap, copyValues.
  remember (if Client.Method c =? "" then Client.set_Method "GET" c else c)
    as c0 eqn:Hc0.
  clear Hc0.
  cbv [bind ret readMap writeMap newMap readDict writeDict newDict
         readArray writeArray newArray st_maps st_dicts st_arrays
         st_cookies st_logs st_sent st_world].
  rewrite sliceElems_run.
  match goal with
  | |- context [append ?s ?xs ?st0] =>
      destruct (append_sent s xs st0) as (s' & st' & -> & Hs & _)
  end.
  intros [= <- <- <-]. repeat split; try done.
Qed.

Lemma forEach_sent {A : Type} (body : A → M unit) (l : list A) :
  (∀ x s s', body x s = Done tt s' → st_sent s' = st_sent s) →
  ∀ s s', forEach l body s = Done tt s' → st_sent s' = st_sent s.
Proof.
  intros Hbody. induction l as [|x l IH]; intros s s' Hrun; simpl in Hrun.
  - run. by simplify_eq.
  - unfold bind in Hrun. destruct (body x s) as [[] s1|] eqn:Hx; [|done].
    rewrite (IH s1 s' Hrun). by eapply Hbody.
Qed.

Lemma Request_SetHeader_frame key value r s r1 s1 :
  Request_SetHeader key value r s = Done r1 s1 →
  r1 = r ∧ st_sent s1 = st_sent s.
Proof.
  unfold Request_SetHeader, Header_Set. run. by intros [= <- <-].
Qed.

Lemma Request_SetHeaders_frame headers r s r1 s1 :
  Request_SetHeaders headers r s = Done r1 s1 →
  r1 = r ∧ st_sent s1 = st_sent s.
Proof.
  unfold Request_SetHeaders. intros H. unfold bind in H.
  destruct (forEach _ _ s) as [[] s2|] eqn:Hloop; [|done].
  run. simplify_eq. split; [done|].
  eapply forEach_sent; [|exact Hloop].
  intros x s0 s0'. unfold Header_Set. run. by intros [= <-].
Qed.

Lemma Request_SetQueryParams_frame params r s r1 s1 :
  Request_SetQueryParams params r s = Done r1 s1 →
  r1 = r ∧ st_sent s1 = st_sent s.
Proof.
  unfold Request_SetQueryParams. intros H. unfold bind in H.
  destruct (forEach _ _ s) as [[] s2|] eqn:Hloop; [|done].
  run. simplify_eq. split; [done|].
  eapply forEach_sent; [|exact Hloop].
  intros x s0 s0'. unfold Request_SetQueryParam. run. by intros [= <-].
Qed.

Lemma Request_SetFormParams_frame params r s r1 s1 :
  Request_SetFormParams params r s = Done r1 s1 →
  r1 = r ∧ st_sent s1 = st_sent s.
Proof.
  unfold Request_SetFormParams. intros H. unfold bind in H.
  destruct (forEach _ _ s) as [[] s2|] eqn:Hloop; [|done].
  run. simplify_eq. split; [done|].
  eapply forEach_sent; [|exact Hloop].
  intros x s0 s0'. unfold Values_Set. run. by intros [= <-].
Qed.

Lemma Request_SetBodyJSON_frame data r s r1 s1 :
  Request_SetBodyJSON data r s = Done r1 s1 →
  Request.method r1 = Request.method r
  ∧ Request.GetBody r1 = Request.GetBody r
  ∧ st_sent s1 = st_sent s.
Proof.
  unfold Request_SetBodyJSON, Request_SetHeader, Header_Set. intros H. run.
  repeat (case_match; run; simplify_eq); done.
Qed.

(** What the verb helpers of the client do. *)
Lemma verb_helpers_run (url : string)
    (params headers : list (string * string)) (data : any Other) :
  let spec (helper : Client.t → M (Client.t * Request.t
                                    * (option Response.t * option error)))
           (verb : string) :=
    ∀ c st c' r result st',
      helper c st = Done (c', r, result) st' →
      c' = Client.set_Method verb c
      ∧ Request.method r = verb
      ∧ Request.urlPoint r = TrimPrefix url "/"
      ∧ ∃ sent,
          st_sent st' = st_sent st ++ sent
          ∧ (length sent ≤ Z.to_nat (Client.RetryMax c))%nat
          ∧ (Client.handleRequestResultFunc c = None →
             ∀ x, x ∈ sent → http_Request.Method x = verb) in
  spec (Client_Get url params headers) "GET"
  ∧ spec (Client_Head url params headers) "HEAD"
  ∧ spec (Client_Post url params headers) "POST"
  ∧ spec (Client_PostForm url params headers) "POST"
  ∧ spec (Client_PostJSON url data headers) "POST".
Proof.
  intros spec. unfold spec.
  split; [|split; [|split; [|split]]]; intros c st c' r result st' H.
  all: unfold Client_Get, Client_Head, Client_Post, Client_PostForm,
         Client_PostJSON in H.
  all: step H; match goal with
               | p : (Client.t * Request.t)%type |- _ => destruct p as [c1 r1]
               end;
       apply Client_R_method in Hstep as (-> & Hm & _ & Hs); simpl in *.
  all: repeat (step H;
         first [ apply Request_SetHeader_frame in Hstep as [-> Hs1]
               | apply Request_SetHeaders_frame in Hstep as [-> Hs1]
               | apply Request_SetQueryParams_frame in Hstep as [-> Hs1]
               | apply Request_SetFormParams_frame in Hstep as [-> Hs1]
               | apply Request_SetBodyJSON_frame in Hstep as (Hm1 & _ & Hs1) ];
         rewrite Hs in Hs1; clear Hs; rename Hs1 into Hs).
  all: step H; match goal with
               | p : (Request.t * _)%type |- _ => destruct p as [r2 result2]
               end;
       apply Request_Execute_run in Hstep
         as (Hm2 & Hu & _ & _ & sent & Hsent & Hlen & _ & Hhook & _);
       run; simplify_eq; simpl in *.
  all: split; [done|]; split; [congruence|]; split; [done|];
       exists sent; rewrite Hsent, Hs; repeat split; [done|];
       intros Hnone x Hx; rewrite (Hhook Hnone x Hx); congruence.
Qed.

(** X21: the verb helpers of a client ([Get], [Head], [Post],
    [PostForm], [PostJSON]) store their verb in the method of the
    client, where it stays as the default of later descriptors; the
    descriptor they execute has that method, they dispatch at most
    ceiling-many times, and, when the client has no request hook,
    every wire request they dispatch has that method. *)
Theorem X21_verb_helpers_set_the_method (url : string)
    (params headers : list (string * string)) (data : any Other) :
  let spec (helper : Client.t → M (Client.t * Request.t
                                    * (option Response.t * option error)))
           (verb : string) :=
    ∀ c st c' r result st',
      helper c st = Done (c', r, result) st' →
      c' = Client.set_Method verb c
      ∧ Request.method r = verb
      ∧ ∃ sent,
          st_sent st' = st_sent st ++ sent
          ∧ (length sent ≤ Z.to_nat (Client.RetryMax c))%nat
          ∧ (Client.handleRequestResultFunc c = None →
             ∀ x, x ∈ sent → http_Request.Method x = verb) in
  spec (Client_Get url params headers) "GET"
  ∧ spec (Client_Head url params headers) "HEAD"
  ∧ spec (Client_Post url params headers) "POST"
  ∧ spec (Client_PostForm url params headers) "POST"
  ∧ spec (Client_PostJSON url data headers) "POST".
Proof.
  intros spec. unfold spec.
  destruct (verb_helpers_run url params headers data)
    as (H1 & H2 & H3 & H4 & H5).
  split; [|split; [|split; [|split]]]; intros c st c' r result st' H;
    [apply H1 in H | apply H2 in H | apply H3 in H | apply H4 in H
    | apply H5 in H];
    destruct H as (? & ? & _ & ?); eauto.
Qed.

Lemma append_empty_r (s : string) : s +:+ "" = s.
Proof.
  induction s as [|c s IH]; [done|].
  change (String c s +:+ "") with (String c (s +:+ "")). by rewrite IH.
Qed.

Lemma NewClient_BaseURL (st : State) (c : Client.t) (st1 : State) :
  NewClient st = Done c st1 → Client.BaseURL c = "".
Proof.
  unfold NewClient. cbv [bind ret newMap newArray newDict].
  by intros [= <- <-].
Qed.

Lemma rawURL_of_package_helper (url : string) (c : Client.t) (r : Request.t)
    (st : State) :
  Client.BaseURL c = "" →
  Request.urlPoint r = TrimPrefix url "/" →
  ∃ tail,
    Request_rawURL c r st
    = Done ("/" +:+ TrimPrefix (TrimPrefix url "/") "/" +:+ tail) st.
Proof.
  intros Hbase Hu.
  unfold Request_rawURL, Request_prepareRequestURL.
  cbv [bind ret readDict]. rewrite Hu, Hbase.
  destruct (0 <? size _)%nat.
  - eexists. reflexivity.
  - exists "". rewrite append_empty_r. reflexivity.
Qed.

Lemma package_helper_run (url verb : string)
    (helper : Client.t → M (Client.t * Request.t
                           * (option Response.t * option error)))
    (st : State) (c : Client.t) (r : Request.t)
    (result : option Response.t * option error) (st' : State) :
  (∀ c0 st0, helper c0 st0 = Done (c, r, result) st' →
             c = Client.set_Method verb c0
             ∧ Request.urlPoint r = TrimPrefix url "/") →
  bind NewClient helper st = Done (c, r, result) st' →
  Client.BaseURL c = ""
  ∧ ∃ tail,
      Request_rawURL c r st'
      = Done ("/" +:+ TrimPrefix (TrimPrefix url "/") "/" +:+ tail) st'.
Proof.
  intros Hspec H.
  apply bind_Done in H as (c0 & st0 & HN & H).
  apply NewClient_BaseURL in HN.
  apply Hspec in H as [-> Hu].
  split; [exact HN|].
  apply rawURL_of_package_helper; [exact HN|exact Hu].
Qed.

(** X22: the package-level helpers ([Get], [Head], [PostForm],
    [PostJSON]) run on a new client, whose base URL is empty: the
    string assembled for [url.Parse] is a slash followed by the URL
    argument without its leading slashes (two at most), so an absolute
    URL is handed over as a path. *)
Theorem X22_package_helpers_parse_a_path (url : string)
    (params headers : list (string * string)) (data : any Other) :
  let spec (helper : M (Client.t * Request.t
                        * (option Response.t * option error))) :=
    ∀ st c r result st',
      helper st = Done (c, r, result) st' →
      Client.BaseURL c = ""
      ∧ ∃ tail,
          Request_rawURL c r st'
          = Done ("/" +:+ TrimPrefix (TrimPrefix url "/") "/" +:+ tail) st' in
  spec (Get url params headers)
  ∧ spec (Head url params headers)
  ∧ spec (PostForm url params headers)
  ∧ spec (PostJSON url data headers).
Proof.
  intros spec. unfold spec.
  destruct (verb_helpers_run url params headers data)
    as (H1 & H2 & _ & H4 & H5).
  split; [|split; [|split]]; intros st c r result st'.
  - apply (package_helper_run url "GET" (Client_Get url params headers)).
    intros c0 st0 H. apply H1 in H as (? & _ & ? & _). done.
  - apply (package_helper_run url "HEAD" (Client_Head url params headers)).
    intros c0 st0 H. apply H2 in H as (? & _ & ? & _). done.
  - apply (package_helper_run url "POST" (Client_PostForm url params headers)).
    intros c0 st0 H. apply H4 in H as (? & _ & ? & _). done.
  - apply (package_helper_run url "POST" (Client_PostJSON url data headers)).
    intros c0 st0 H. apply H5 in H as (? & _ & ? & _). done.
Qed.

(** *** Base URL and query parameters *)

Lemma length_append (a b : string) :
  String.length (a +:+ b) = (String.length a + String.length b)%nat.
Proof. induction a as [|c a IH]; simpl; [done|]. by rewrite IH. Qed.

Lemma substring_append_l (a b : string) :
  String.substring 0 (String.length a) (a +:+ b) = a.
Proof.
  induction a as [|c a IH]; simpl; [by destruct b|]. by rewrite IH.
Qed.

Lemma substring_append_r (a b : string) :
  String.substring (String.length a) (String.length b) (a +:+ b) = b.
Proof. induction a as [|c a IH]; simpl; [apply substring_all|done]. Qed.

Lemma TrimSuffix_slash (b : string) : TrimSuffix (b +:+ "/") "/" = b.
Proof.
  unfold TrimSuffix, HasSuffix, dropBytes. rewrite length_append.
  change (String.length "/") with 1%nat.
  replace (String.length b + 1 - 1)%nat with (String.length b) by lia.
  replace (String.length b + 1 - String.length b)%nat
    with (String.length "/") by (simpl; lia).
  rewrite substring_append_r, substring_append_l.
  by replace (1 <=? String.length b + 1)%nat with true
    by (symmetry; apply Nat.leb_le; lia).
Qed.

Lemma TrimSuffix_no_slash (b : string) :
  HasSuffix b "/" = false → TrimSuffix b "/" = b.
Proof. unfold TrimSuffix. by intros ->. Qed.

(** X23: [SetBaseURL] removes one trailing slash and no more: a base
    without a trailing slash is stored as it is, with one trailing
    slash it is stored without it, with two it keeps one; so whether or
    not the base ends in a slash and whether or not the target path
    starts with one, the string assembled for [url.Parse] has exactly
    one slash between base and path. *)
Theorem X23_SetBaseURL_slashes (base : string) (c : Client.t) :
  HasSuffix base "/" = false →
  Client.BaseURL (Client_SetBaseURL base c) = base
  ∧ Client.BaseURL (Client_SetBaseURL (base +:+ "/") c) = base
  ∧ Client.BaseURL (Client_SetBaseURL ((base +:+ "/") +:+ "/") c)
    = base +:+ "/"
  ∧ ∀ (b p path : string) (r : Request.t) (st : State),
      b = base ∨ b = base +:+ "/" →
      p = path ∨ p = "/" +:+ path →
      HasPrefix path "/" = false →
      default ∅ (st_dicts st !! Request.queryParams r) = ∅ →
      Request_rawURL (Client_SetBaseURL b c)
        (Request.set_urlPoint (TrimPrefix p "/") r) st
      = Done (base +:+ "/" +:+ path) st.
Proof.
  intros Hbase. unfold Client_SetBaseURL. simpl.
  rewrite !TrimSuffix_slash, (TrimSuffix_no_slash base Hbase).
  repeat split.
  intros b p path r st Hb Hp Hpath Hq.
  unfold Request_rawURL, Request_prepareRequestURL.
  cbv [bind ret readDict]. simpl. rewrite Hq. simpl.
  assert (Hp' : TrimPrefix p "/" = path).
  { destruct Hp as [-> | ->];
      [by apply TrimPrefix_no_slash|apply TrimPrefix_slash]. }
  rewrite Hp', (TrimPrefix_no_slash path Hpath).
  destruct Hb as [-> | ->];
    by rewrite ?TrimSuffix_slash, ?(TrimSuffix_no_slash base Hbase).
Qed.

Lemma Encode_singleton (key value : string) :
  NetURL.Encode {[key := [value]]}
  = NetURL.QueryEscape key +:+ "=" +:+ NetURL.QueryEscape value.
Proof.
  unfold NetURL.Encode, NetURL.sortedKeys.
  rewrite map_to_list_singleton. simpl.
  rewrite lookup_singleton_eq. simpl. unfold NetURL.writePair. by simpl.
Qed.

(** X24: a query parameter set on a descriptor that has none shows in
    the assembled string as a question mark and [key=value], both
    escaped; deleting it again gives the string without a question
    mark. *)
Theorem X24_query_parameter_round_trip (c : Client.t) (r : Request.t)
    (st : State) (key value : string) :
  default ∅ (st_dicts st !! Request.queryParams r) = ∅ →
  ∃ st1 st2,
    Request_SetQueryParam key value r st = Done r st1
    ∧ Request_rawURL c r st1
      = Done (Client.BaseURL c +:+ "/" +:+ TrimPrefix (Request.urlPoint r) "/"
              +:+ "?" +:+ NetURL.QueryEscape key +:+ "="
              +:+ NetURL.QueryEscape value) st1
    ∧ Request_DelQueryParam key r st1 = Done r st2
    ∧ Request_rawURL c r st2
      = Done (Client.BaseURL c +:+ "/" +:+ TrimPrefix (Request.urlPoint r) "/")
          st2.
Proof.
  intros Hq.
  unfold Request_SetQueryParam, Request_DelQueryParam, Request_rawURL,
    Request_prepareRequestURL.
  cbv [bind ret readDict writeDict]. simpl.
  eexists _, _. split; [reflexivity|]. split.
  { simpl. rewrite lookup_insert_eq. simpl. rewrite Hq.
    rewrite insert_empty, map_size_singleton. simpl.
    by rewrite map_fold_Add_singletons, map_fmap_singleton, Encode_singleton. }
  split; [reflexivity|]. simpl.
  rewrite !lookup_insert_eq. simpl. rewrite Hq.
  by rewrite insert_empty, delete_singleton_eq, map_size_empty.
Qed.

(** *** The client as seen from a descriptor *)

Lemma separated_request_maps_write c r st st' l m :
  separated c r st →
  l = Request.Header r ∨ l = Request.formParams r →
  st_maps st' = <[l := m]> (st_maps st) →
  st_dicts st' = st_dicts st →
  st_arrays st' = st_arrays st →
  separated c r st' ∧ Client_view c st' = Client_view c st.
Proof.
  intros ((Hc1 & Hc2 & Hc3 & Hc4) & (Hr1 & Hr2 & Hr3 & Hr4)
          & (Ha1 & Ha2 & Ha3 & Ha4 & Ha5 & Ha6)) Hl Hm Hd Ha.
  unfold separated, Client_allocated, Request_allocated, Client_view,
    sliceView.
  rewrite Hm, Hd, Ha, dom_insert_L.
  destruct Hl as [-> | ->]; rewrite !lookup_insert_ne by congruence;
    repeat split; try done; dom_solve.
Qed.

Lemma separated_request_dicts_write c r st st' m :
  separated c r st →
  st_maps st' = st_maps st →
  st_dicts st' = <[Request.queryParams r := m]> (st_dicts st) →
  st_arrays st' = st_arrays st →
  separated c r st' ∧ Client_view c st' = Client_view c st.
Proof.
  intros ((Hc1 & Hc2 & Hc3 & Hc4) & (Hr1 & Hr2 & Hr3 & Hr4)
          & (Ha1 & Ha2 & Ha3 & Ha4 & Ha5 & Ha6)) Hm Hd Ha.
  unfold separated, Client_allocated, Request_allocated, Client_view,
    sliceView.
  rewrite Hm, Hd, Ha, dom_insert_L.
  rewrite !lookup_insert_ne by congruence.
  repeat split; try done; dom_solve.
Qed.

Lemma separated_request_same_store c r st st' :
  separated c r st →
  st_maps st' = st_maps st →
  st_dicts st' = st_dicts st →
  st_arrays st' = st_arrays st →
  separated c r st' ∧ Client_view c st' = Client_view c st.
Proof.
  intros Hsep Hm Hd Ha.
  unfold separated, Client_allocated, Request_allocated, Client_view,
    sliceView in *.
  by rewrite Hm, Hd, Ha.
Qed.

Lemma separated_request_append c r st xs :
  separated c r st →
  ∃ s' st', append (Request.cookies r) xs st = Done s' st'
    ∧ separated c (Request.set_cookies s' r) st'
    ∧ Client_view c st' = Client_view c st.
Proof.
  intros ((Hc1 & Hc2 & Hc3 & Hc4) & (Hr1 & Hr2 & Hr3 & Hr4)
          & (Ha1 & Ha2 & Ha3 & Ha4 & Ha5 & Ha6)).
  destruct (append_run (Request.cookies r) xs st)
    as (s' & st' & Hrun & Hm & Hd & Hdom & Halloc & Hframe).
  { by apply cookies_alloc_iff. }
  exists s', st'. split; [done|].
  unfold separated, Client_allocated, Request_allocated, apart,
    Client_view, sliceView.
  rewrite Hm, Hd. simpl.
  destruct (Client.Cookies c) as [|b n] eqn:Hcc.
  - repeat split; try done. by apply cookies_alloc_iff.
  - destruct (Hframe b) as [Hb Hne]; [done| |].
    { destruct (Request.cookies r); simpl; congruence. }
    rewrite Hb. repeat split; try done.
    + by apply Hdom.
    + by apply cookies_alloc_iff.
    + destruct s'; [done|]. simpl in Hne. congruence.
Qed.

Lemma Header_Set_separated c r st key value v :
  separated c r st ∧ Client_view c st = v →
  ∃ st', Header_Set (Request.Header r) key value st = Done tt st'
         ∧ separated c r st' ∧ Client_view c st' = v.
Proof.
  intros [Hsep <-]. unfold Header_Set. run.
  eexists. split; [done|].
  eapply separated_request_maps_write; [done | by left | done..].
Qed.

Lemma Values_Set_separated c r st key value v :
  separated c r st ∧ Client_view c st = v →
  ∃ st', Values_Set (Request.formParams r) key value st = Done tt st'
         ∧ separated c r st' ∧ Client_view c st' = v.
Proof.
  intros [Hsep <-]. unfold Values_Set. run.
  eexists. split; [done|].
  eapply separated_request_maps_write; [done | by right | done..].
Qed.

Lemma Request_SetQueryParam_separated c r st key value v :
  separated c r st ∧ Client_view c st = v →
  ∃ st', Request_SetQueryParam key value r st = Done r st'
         ∧ separated c r st' ∧ Client_view c st' = v.
Proof.
  intros [Hsep <-]. unfold Request_SetQueryParam. run.
  eexists. split; [done|].
  eapply separated_request_dicts_write; [done..].
Qed.

Lemma applyRequestOp_separated op c r st r' st' :
  separated c r st →
  applyRequestOp op r st = Done r' st' →
  separated c r' st' ∧ Client_view c st' = Client_view c st.
Proof.
  intros Hsep Hop.
  assert (HI : separated c r st ∧ Client_view c st = Client_view c st) by done.
  destruct op; simpl in Hop.
  - unfold Request_SetHeader, bind in Hop.
    destruct (Header_Set_separated c r st key value _ HI) as (st1 & Hrun & ?).
    rewrite Hrun in Hop. run. by injection Hop as <- <-.
  - unfold Request_SetHeaders, bind in Hop.
    destruct (forEach_preserves
                (λ s, separated c r s ∧ Client_view c s = Client_view c st)
                (λ kv : string * string,
                   Header_Set (Request.Header r) kv.1 kv.2)
                headers) with (st := st) as (st1 & Hrun & ?); [|done|].
    { intros kv s Hs. by apply Header_Set_separated. }
    rewrite Hrun in Hop. run. by injection Hop as <- <-.
  - unfold Request_AddHeader, Header_Add in Hop. run. simplify_eq.
    eapply separated_request_maps_write; [done | by left | done..].
  - unfold Request_DelHeader, Header_Del in Hop. run. simplify_eq.
    eapply separated_request_maps_write; [done | by left | done..].
  - unfold Request_SetBodyJSON, Request_SetHeader, Header_Set in Hop.
    destruct data as [body|v]; run.
    + destruct (isJSON body); run; simplify_eq;
        (eapply separated_request_maps_write; [done | by left | done..]).
    + destruct (json_Marshal v) as [jsonData|err]; run; simplify_eq;
        (eapply separated_request_maps_write; [done | by left | done..]).
  - unfold Request_SetCookie, bind in Hop.
    destruct (newCookies_run (parseCookies cookies) st)
      as (pointers & st0 & Hnew & Hm & Hd & Ha).
    rewrite Hnew in Hop.
    destruct (separated_request_same_store c r st st0 Hsep Hm Hd Ha)
      as [Hsep0 Hview0].
    destruct (separated_request_append c r st0 pointers Hsep0)
      as (s' & st1 & Hrun & Hinv & Hview).
    rewrite Hrun in Hop. run. injection Hop as <- <-.
    split; [done|]. by rewrite Hview.
  - unfold Request_SetCookiesRaw, bind in Hop.
    destruct (separated_request_append c r st cookies Hsep)
      as (s' & st1 & Hrun & Hinv & Hview).
    rewrite Hrun in Hop. run. by injection Hop as <- <-.
  - unfold Request_SetCookieRaw, bind in Hop.
    destruct (separated_request_append c r st [cookie] Hsep)
      as (s' & st1 & Hrun & Hinv & Hview).
    rewrite Hrun in Hop. run. by injection Hop as <- <-.
  - destruct (Request_SetQueryParam_separated c r st key value _ HI)
      as (st1 & Hrun & ?).
    rewrite Hrun in Hop. by injection Hop as <- <-.
  - unfold Request_SetQueryParams in Hop. unfold bind at 1 in Hop.
    destruct (forEach_preserves
                (λ s, separated c r s ∧ Client_view c s = Client_view c st)
                (λ kv : string * string,
                   bind (Request_SetQueryParam kv.1 kv.2 r) (λ _, ret tt))
                params) with (st := st) as (st1 & Hrun & ?); [|done|].
    { intros kv s Hs.
      destruct (Request_SetQueryParam_separated c r s kv.1 kv.2 _ Hs)
        as (s1 & Hq & ?).
      exists s1. unfold bind. by rewrite Hq. }
    rewrite Hrun in Hop. run. by injection Hop as <- <-.
  - unfold Request_DelQueryParam in Hop. run. simplify_eq.
    eapply separated_request_dicts_write; [done..].
  - unfold Request_SetFormParam, bind in Hop.
    destruct (Values_Set_separated c r st key value _ HI) as (st1 & Hrun & ?).
    rewrite Hrun in Hop. run. by injection Hop as <- <-.
  - unfold Request_SetFormParams, bind in Hop.
    destruct (forEach_preserves
                (λ s, separated c r s ∧ Client_view c s = Client_view c st)
                (λ kv : string * string,
                   Values_Set (Request.formParams r) kv.1 kv.2)
                params) with (st := st) as (st1 & Hrun & ?); [|done|].
    { intros kv s Hs. by apply Values_Set_separated. }
    rewrite Hrun in Hop. run. by injection Hop as <- <-.
Qed.

Lemma applyRequestOps_separated ops : ∀ c r st r' st',
  separated c r st →
  applyRequestOps ops r st = Done r' st' →
  separated c r' st' ∧ Client_view c st' = Client_view c st.
Proof.
  induction ops as [|op ops IH]; intros c r st r' st' Hsep Hrun;
    simpl in Hrun.
  - run. by simplify_eq.
  - unfold bind in Hrun.
    destruct (applyRequestOp op r st) as [r1 st1|] eqn:Hop; [|done].
    destruct (applyRequestOp_separated op c r st r1 st1 Hsep Hop)
      as [Hinv1 Hview1].
    destruct (IH c r1 st1 r' st' Hinv1 Hrun) as [Hinv2 Hview2].
    split; [done|]. congruence.
Qed.

(** X25: nothing done to a descriptor reaches the client it came from:
    after [R], whatever setters of the descriptor are called (headers
    set, added or deleted, JSON body, cookies, query and form
    parameters), the client holds the headers, query parameters, form
    parameters and cookie list it held. *)
Theorem X25_client_unchanged_by_descriptor (c : Client.t) (st : State) :
  Client_allocated c st →
  ∃ c1 r st1,
    Client_R c st = Done (c1, r) st1
    ∧ Client_view c1 st1 = Client_view c st
    ∧ ∀ ops r2 st2,
        applyRequestOps ops r st1 = Done r2 st2 →
        Client_view c1 st2 = Client_view c1 st1.
Proof.
  intros Halloc.
  destruct (Client_R_separated c st Halloc)
    as (c1 & r & st1 & HR & Hsep & _ & Hview).
  exists c1, r, st1. repeat split; [done..|].
  intros ops r2 st2 Hops.
  by destruct (applyRequestOps_separated ops c1 r st1 r2 st2 Hsep Hops).
Qed.

(** *** The bulk setters *)

Lemma forEach_map_fold {A : Type} (l : loc)
    (f : A → gmap string (list string) → gmap string (list string))
    (items : list A) :
  ∀ st, ∃ st',
    forEach items (λ x, bind (readMap l) (λ m, writeMap l (f x m))) st
    = Done tt st'
    ∧ default ∅ (st_maps st' !! l)
      = foldl (λ m x, f x m) (default ∅ (st_maps st !! l)) items
    ∧ st_dicts st' = st_dicts st.
Proof.
  induction items as [|x items IH]; intros st; simpl.
  - by exists st.
  - cbv [bind readMap writeMap].
    match goal with
    | |- context [forEach items _ ?st1] =>
        destruct (IH st1) as (st' & Hrun & Hfold & Hd)
    end.
    cbv [bind readMap writeMap] in Hrun. rewrite Hrun.
    exists st'. split; [done|]. rewrite Hfold. simpl.
    by rewrite lookup_insert_eq.
Qed.

Lemma forEach_dict_fold (r : Request.t) (items : list (string * string)) :
  ∀ st, ∃ st',
    forEach items
      (λ kv, bind (Request_SetQueryParam kv.1 kv.2 r) (λ _, ret tt)) st
    = Done tt st'
    ∧ default ∅ (st_dicts st' !! Request.queryParams r)
      = foldl (λ m kv, <[kv.1 := kv.2]> m)
          (default ∅ (st_dicts st !! Request.queryParams r)) items
    ∧ st_maps st' = st_maps st.
Proof.
  induction items as [|x items IH]; intros st; simpl.
  - by exists st.
  - unfold Request_SetQueryParam at 1. cbv [bind readDict writeDict ret].
    match goal with
    | |- context [forEach items _ ?st1] =>
        destruct (IH st1) as (st' & Hrun & Hfold & Hd)
    end.
    cbv [bind ret] in Hrun. rewrite Hrun.
    exists st'. split; [done|]. rewrite Hfold. simpl.
    by rewrite lookup_insert_eq.
Qed.

(** X26: the bulk setters of a descriptor are their single setters
    applied to the entries in the order the loop visits them: after
    [SetHeaders], [SetFormParams] and [SetQueryParams] the header, form
    and query objects are the fold of the single update over the
    entries; so of two header entries whose keys differ in spelling
    only, the one visited last is kept, and it is read back under every
    spelling of the key. *)
Theorem X26_bulk_setters_fold (r : Request.t) (st : State)
    (items : list (string * string)) :
  (∃ st1,
     Request_SetHeaders items r st = Done r st1
     ∧ default ∅ (st_maps st1 !! Request.Header r)
       = foldl (λ m kv, NetHTTP.Set_ kv.1 kv.2 m)
           (default ∅ (st_maps st !! Request.Header r)) items
     ∧ ∀ earlier key value key',
         items = earlier ++ [(key, value)] →
         NetHTTP.CanonicalMIMEHeaderKey key'
         = NetHTTP.CanonicalMIMEHeaderKey key →
         Request_GetHeader key' r st1 = Done value st1)
  ∧ (∃ st1,
       Request_SetFormParams items r st = Done r st1
       ∧ default ∅ (st_maps st1 !! Request.formParams r)
         = foldl (λ m kv, NetURL.Set_ kv.1 kv.2 m)
             (default ∅ (st_maps st !! Request.formParams r)) items)
  ∧ (∃ st1,
       Request_SetQueryParams items r st = Done r st1
       ∧ default ∅ (st_dicts st1 !! Request.queryParams r)
         = foldl (λ m kv, <[kv.1 := kv.2]> m)
             (default ∅ (st_dicts st !! Request.queryParams r)) items).
Proof.
  split; [|split].
  - destruct (forEach_map_fold (Request.Header r)
                (λ kv : string * string, NetHTTP.Set_ kv.1 kv.2) items st)
      as (st1 & Hrun & Hfold & _).
    exists st1. unfold Request_SetHeaders, Header_Set.
    unfold bind at 1. rewrite Hrun. split; [done|]. split; [done|].
    intros earlier key value key' -> Hkey.
    unfold Request_GetHeader, Header_Get. cbv [bind readMap ret].
    rewrite Hfold, foldl_app. simpl.
    unfold NetHTTP.Get, NetHTTP.Set_. by rewrite Hkey, lookup_insert_eq.
  - destruct (forEach_map_fold (Request.formParams r)
                (λ kv : string * string, NetURL.Set_ kv.1 kv.2) items st)
      as (st1 & Hrun & Hfold & _).
    exists st1. unfold Request_SetFormParams, Values_Set.
    unfold bind at 1. rewrite Hrun. done.
  - destruct (forEach_dict_fold r items st) as (st1 & Hrun & Hfold & _).
    exists st1. unfold Request_SetQueryParams.
    unfold bind at 1. rewrite Hrun. done.
Qed.

(** *** The request hook *)

(** X27: a request hook that returns nil is not caught: with a ceiling
    of at least 1, [Execute] passes the nil request to the first
    dispatch and panics; and a hook cannot be taken back, since
    [SetHandleRequestResultFunc] with nil leaves the client as it
    is. *)
Theorem X27_hook_returning_nil (c : Client.t) (urlPath : string)
    (r r1 : Request.t) (req : http_Request.t) (st st1 : State) :
  Request_newRequest c (Request.set_urlPoint (TrimPrefix urlPath "/") r) st
  = Done (r1, OK req) st1 →
  applyHook c req = None →
  (1 ≤ Client.RetryMax c)%Z →
  Request_Execute c urlPath r st = Panic "nil pointer dereference"
  ∧ Client_SetHandleRequestResultFunc None c = c.
Proof.
  intros Hbuild Hhook Hmax. split; [|reflexivity].
  unfold Request_Execute. unfold bind at 1. rewrite Hbuild.
  unfold applyHook in Hhook. rewrite Hhook.
  destruct (Z.to_nat (Client.RetryMax c)) as [|n] eqn:Hn; [lia|].
  simpl. unfold bind at 1. unfold bind at 1. by unfold Request_Do.
Qed.

(** *** JSON bodies from values *)

(** X28: for a value that is not a string, the JSON setter of the
    descriptor takes the output of [json.Marshal] as the body, or logs
    the error and keeps the body, and sets Content-Type to
    application/json in both cases; the setter of the client takes the
    output as the body and sets Content-Type, or on an error logs it
    and changes neither body nor headers. *)
Theorem X28_SetBodyJSON_of_a_value (v : Other) :
  (∀ (r : Request.t) (st : State),
     ∃ st',
       Request_SetBodyJSON (AnyOther v) r st
       = Done (match json_Marshal v with
               | OK jsonData => Request.set_body jsonData r
               | Err _ => r
               end) st'
       ∧ default ∅ (st_maps st' !! Request.Header r) !! "Content-Type"
         = Some [ContentTypeJson]
       ∧ st_logs st'
         = st_logs st
           ++ match json_Marshal v with
              | OK _ => []
              | Err err => [mkLog LevelError "failed to marshal JSON"
                              [ArgString "error"; ArgError err]]
              end)
  ∧ (∀ (c : Client.t) (st : State),
       ∃ st',
         Client_SetBodyJSON (AnyOther v) c st
         = Done (match json_Marshal v with
                 | OK jsonString => Client.set_Body jsonString c
                 | Err _ => c
                 end) st'
         ∧ match json_Marshal v with
           | OK _ =>
               default ∅ (st_maps st' !! Client.Header c) !! "Content-Type"
               = Some [ContentTypeJson]
               ∧ st_logs st' = st_logs st
           | Err err =>
               st_maps st' = st_maps st
               ∧ st_logs st'
                 = st_logs st
                   ++ [mkLog LevelError "failed to marshal JSON"
                         [ArgString "error"; ArgError err]]
           end).
Proof.
  split.
  - intros r st.
    unfold Request_SetBodyJSON, Request_SetHeader, Header_Set, NetHTTP.Set_.
    change (NetHTTP.CanonicalMIMEHeaderKey "Content-Type")
      with "Content-Type".
    destruct (json_Marshal v) as [jsonData|err]; run; eexists;
      (split; [reflexivity|]); simpl;
      rewrite lookup_insert_eq; simpl; rewrite lookup_insert_eq;
      by rewrite ?app_nil_r.
  - intros c st.
    unfold Client_SetBodyJSON, marshalJSON, Client_SetHeader, Header_Set,
      NetHTTP.Set_.
    change (NetHTTP.CanonicalMIMEHeaderKey "Content-Type")
      with "Content-Type".
    destruct (json_Marshal v) as [jsonString|err]; run; eexists;
      (split; [reflexivity|]); simpl; [|done].
    rewrite lookup_insert_eq; simpl; by rewrite lookup_insert_eq.
Qed.

(** *** Two descriptors of one client *)

(** [R] makes the objects of the descriptor anew and leaves the objects
    that exist as they are. *)
Lemma Client_R_fresh (c : Client.t) (st : State) (c1 : Client.t)
    (r : Request.t) (st1 : State) :
  Client_R c st = Done (c1, r) st1 →
  (Request.Header r ∉ dom (st_maps st))
  ∧ (Request.formParams r ∉ dom (st_maps st))
  ∧ (Request.queryParams r ∉ dom (st_dicts st))
  ∧ (∀ a, sliceArr (Request.cookies r) = Some a → a ∉ dom (st_arrays st))
  ∧ (∀ l, l ∈ dom (st_maps st) →
          l ∈ dom (st_maps st1) ∧ st_maps st1 !! l = st_maps st !! l)
  ∧ (∀ l, l ∈ dom (st_dicts st) →
          l ∈ dom (st_dicts st1) ∧ st_dicts st1 !! l = st_dicts st !! l)
  ∧ (∀ l, l ∈ dom (st_arrays st) →
          l ∈ dom (st_arrays st1) ∧ st_arrays st1 !! l = st_arrays st !! l).
Proof.
  unfold Client_R, Header_Clone, copyMap, copyValues.
  remember (if Client.Method c =? "" then Client.set_Method "GET" c else c)
    as c0 eqn:Hc0.
  clear Hc0.
  cbv [bind ret readMap writeMap newMap readDict writeDict newDict
         readArray writeArray newArray].
  cbn [st_maps st_dicts st_arrays st_cookies st_logs st_sent st_world].
  rewrite sliceElems_run.
  pose proof (is_fresh (dom (st_maps st))) as Fh.
  pose proof (is_fresh (dom (st_dicts st))) as Fq.
  pose proof (is_fresh (dom (st_arrays st))) as Fe.
  cbn [st_maps st_dicts st_arrays st_cookies st_logs st_sent st_world].
  set (h := fresh (dom (st_maps st))) in *.
  set (q := fresh (dom (st_dicts st))) in *.
  set (e := fresh (dom (st_arrays st))) in *.
  set (cloned := default ∅ (st_maps st !! Client.Header c0)) in *.
  pose proof (is_fresh (dom (<[h := cloned]> (st_maps st)))) as Ff.
  set (f := fresh (dom (<[h := cloned]> (st_maps st)))) in *.
  rewrite dom_insert_L in Ff.
  apply not_elem_of_union in Ff as [Ffh Ff].
  apply not_elem_of_singleton in Ffh.
  match goal with
  | |- context [append _ _ ?st0] => set (st4 := st0)
  end.
  match goal with
  | |- context [append ?s ?xs st4] =>
      destruct (append_run s xs st4)
        as (s' & st' & Hrun & Hm & Hd & Hdom & Halloc & Hframe)
  end.
  { intros a [= <-]. simpl. rewrite dom_insert_L. dom_solve. }
  rewrite Hrun. intros [= <- <- <-]. simpl.
  assert (He : ∀ b, b ∈ dom (st_arrays st) → b ≠ e).
  { intros b Hb Heq. by rewrite Heq in Hb. }
  repeat split.
  - done.
  - done.
  - done.
  - intros a Ha Hin.
    destruct (Hframe a) as [_ Hne]; [| |done].
    + simpl. rewrite dom_insert_L. by apply elem_of_union_r.
    + simpl. intros [= Heq]. by apply (He a).
  - rewrite Hm. simpl. rewrite !dom_insert_L.
    by rewrite !elem_of_union; auto.
  - rewrite Hm. simpl. rewrite !lookup_insert_ne; [done|..]; by intros <-.
  - rewrite Hd. simpl. rewrite !dom_insert_L.
    by rewrite !elem_of_union; auto.
  - rewrite Hd. simpl. rewrite !lookup_insert_ne; [done|..]; by intros <-.
  - apply Hdom. simpl. rewrite dom_insert_L. by apply elem_of_union_r.
  - destruct (Hframe l) as [Hl _].
    + simpl. rewrite dom_insert_L. by apply elem_of_union_r.
    + simpl. intros [= Heq]. by apply (He l).
    + rewrite Hl. simpl. rewrite lookup_insert_ne; [done|].
      intros Heq. by apply (He l).
Qed.

Lemma Request_view_preserved (r : Request.t) (st st' : State) :
  Request_allocated r st →
  (∀ l, l ∈ dom (st_maps st) →
        l ∈ dom (st_maps st') ∧ st_maps st' !! l = st_maps st !! l) →
  (∀ l, l ∈ dom (st_dicts st) →
        l ∈ dom (st_dicts st') ∧ st_dicts st' !! l = st_dicts st !! l) →
  (∀ l, l ∈ dom (st_arrays st) →
        l ∈ dom (st_arrays st') ∧ st_arrays st' !! l = st_arrays st !! l) →
  Request_allocated r st' ∧ Request_view r st' = Request_view r st.
Proof.
  intros (Hh & Hf & Hq & Hc) Hm Hd Ha.
  unfold Request_allocated, Request_view, sliceView.
  destruct (Hm _ Hh) as [? ->]. destruct (Hm _ Hf) as [? ->].
  destruct (Hd _ Hq) as [? ->].
  destruct (Request.cookies r) as [|a n]; [done|].
  destruct (Ha _ Hc) as [? ->]. done.
Qed.

Lemma separated_descriptors (r1 r2 : Request.t) (st1 st2 : State) :
  Request_allocated r1 st1 →
  Request_allocated r1 st2 →
  Request_allocated r2 st2 →
  Request.Header r2 ∉ dom (st_maps st1) →
  Request.formParams r2 ∉ dom (st_maps st1) →
  Request.queryParams r2 ∉ dom (st_dicts st1) →
  (∀ a, sliceArr (Request.cookies r2) = Some a → a ∉ dom (st_arrays st1)) →
  separated (holder r2) r1 st2 ∧ separated (holder r1) r2 st2.
Proof.
  intros (Hh & Hf & Hq & Hc) Hr1 Hr2 Nh Nf Nq Nc.
  assert (Hne : ∀ (D : gset loc) (x y : loc), x ∈ D → y ∉ D → x ≠ y)
    by (intros D x y Hx Hy ->; done).
  assert (Hck : match Request.cookies r2, Request.cookies r1 with
                | Slice a _, Slice b _ => a ≠ b
                | _, _ => True
                end).
  { destruct (Request.cookies r2) as [|a n]; [done|].
    destruct (Request.cookies r1) as [|b m]; [done|].
    apply not_eq_sym. eapply Hne; [exact Hc|]. by apply Nc. }
  split; (split; [done|]; split; [done|]); unfold apart, holder; simpl.
  - repeat split; try (apply not_eq_sym; eapply Hne; eassumption). exact Hck.
  - repeat split; try (eapply Hne; eassumption).
    by destruct (Request.cookies r1), (Request.cookies r2).
Qed.

(** X29: two descriptors made by [R] from one client hold the same
    headers, query parameters, form parameters and cookie list, those
    of the client, and share none of them: whatever setters are called
    on one of the two, the other holds what it held. *)
Theorem X29_descriptors_are_independent (c : Client.t) (st : State) :
  Client_allocated c st →
  ∃ c1 r1 st1 c2 r2 st2,
    Client_R c st = Done (c1, r1) st1
    ∧ Client_R c1 st1 = Done (c2, r2) st2
    ∧ Request_view r1 st2 = Client_view c st
    ∧ Request_view r2 st2 = Client_view c st
    ∧ (∀ ops r1' st3,
         applyRequestOps ops r1 st2 = Done r1' st3 →
         Request_view r2 st3 = Request_view r2 st2)
    ∧ (∀ ops r2' st3,
         applyRequestOps ops r2 st2 = Done r2' st3 →
         Request_view r1 st3 = Request_view r1 st2).
Proof.
  intros Halloc.
  destruct (Client_R_separated c st Halloc)
    as (c1 & r1 & st1 & HR1 & (Hc1 & Hr1 & _) & Hv1 & Hcv1).
  destruct (Client_R_separated c1 st1 Hc1)
    as (c2 & r2 & st2 & HR2 & (Hc2 & Hr2 & _) & Hv2 & _).
  destruct (Client_R_fresh _ _ _ _ _ HR2)
    as (Nh & Nf & Nq & Nc & Hm & Hd & Ha).
  destruct (Request_view_preserved r1 st1 st2 Hr1 Hm Hd Ha) as [Hr1' Hsame].
  destruct (separated_descriptors r1 r2 st1 st2 Hr1 Hr1' Hr2 Nh Nf Nq Nc)
    as [Hsep21 Hsep12].
  exists c1, r1, st1, c2, r2, st2.
  split; [done|]. split; [done|].
  split; [by rewrite Hsame|]. split; [by rewrite Hv2|]. split.
  - intros ops r1' st3 Hops.
    by destruct (applyRequestOps_separated ops _ _ _ _ _ Hsep21 Hops).
  - intros ops r2' st3 Hops.
    by destruct (applyRequestOps_separated ops _ _ _ _ _ Hsep12 Hops).
Qed.

(** *** The snapshot and the cookie objects *)

Lemma append_cookies (s : slice) (xs : list (option loc)) (st : State)
    (s' : slice) (st' : State) :
  append s xs st = Done s' st' → st_cookies st' = st_cookies st.
Proof.
  unfold append, sliceCap, sliceElems.
  destruct s as [|a len]; run; case_match; run; by intros [= <- <-].
Qed.

Lemma forEach_cookies {A : Type} (body : A → M unit) (l : list A) :
  (∀ x s s', body x s = Done tt s' → st_cookies s' = st_cookies s) →
  ∀ s s', forEach l body s = Done tt s' → st_cookies s' = st_cookies s.
Proof.
  intros Hbody. induction l as [|x l IH]; intros s s' Hrun; simpl in Hrun.
  - run. by simplify_eq.
  - unfold bind in Hrun. destruct (body x s) as [[] s1|] eqn:Hx; [|done].
    rewrite (IH s1 s' Hrun). by eapply Hbody.
Qed.

Lemma Client_appendEach_cookies (pointers : list (option loc)) :
  ∀ c st c' st',
    Client_appendEach pointers c st = Done c' st' →
    st_cookies st' = st_cookies st.
Proof.
  induction pointers as [|p pointers IH]; intros c st c' st' Hrun;
    simpl in Hrun.
  - run. by simplify_eq.
  - unfold bind in Hrun.
    destruct (append _ _ st) as [s1 st1|] eqn:Happ; [|done].
    rewrite (IH _ _ _ _ Hrun). by eapply append_cookies.
Qed.

(** But for the write to a cookie object, what can be done to a client
    leaves the cookie objects there are as they are. *)
Lemma applyOp_cookies op c st c' st' :
  writesCookieObject op = false →
  applyOp op c st = Done c' st' →
  st_cookies st ⊆ st_cookies st'.
Proof.
  intros Hkeep Hop.
  destruct op; simpl in Hop; try discriminate Hkeep; clear Hkeep.
  - unfold Client_SetHeader, Header_Set in Hop. run. by simplify_eq.
  - unfold Client_SetHeaders, bind at 1 in Hop.
    destruct (forEach _ _ st) as [[] s1|] eqn:Hloop; [|done].
    run. simplify_eq.
    assert (Heq : st_cookies st' = st_cookies st); [|by rewrite Heq].
    eapply forEach_cookies; [|exact Hloop].
    intros x s0 s0'. unfold Client_SetHeader, Header_Set. run.
    by intros [= <-].
  - unfold Client_SetUserAgent, Client_SetHeader, Header_Set in Hop. run.
    by simplify_eq.
  - unfold Client_SetBodyJSON, Client_SetHeader, Header_Set in Hop.
    destruct (marshalJSON data); run; by simplify_eq.
  - unfold Client_SetCookie, bind in Hop.
    destruct (newCookies_objects (parseCookies cookies) st)
      as (pointers & st1 & Hnew & _ & Hsub & _).
    rewrite Hnew in Hop.
    by rewrite (Client_appendEach_cookies _ _ _ _ _ Hop).
  - unfold Client_SetCookiesRaw, bind in Hop.
    destruct (append _ _ st) as [s1 st1|] eqn:Happ; [|done].
    run. simplify_eq. by rewrite (append_cookies _ _ _ _ _ Happ).
  - unfold Client_SetCookieRaw, bind in Hop.
    destruct (append _ _ st) as [s1 st1|] eqn:Happ; [|done].
    run. simplify_eq. by rewrite (append_cookies _ _ _ _ _ Happ).
  - run. by simplify_eq.
  - unfold Client_SetQueryParam in Hop. run. by simplify_eq.
  - unfold Client_SetQueryParams, bind at 1 in Hop.
    destruct (forEach _ _ st) as [[] s1|] eqn:Hloop; [|done].
    run. simplify_eq.
    assert (Heq : st_cookies st' = st_cookies st); [|by rewrite Heq].
    eapply forEach_cookies; [|exact Hloop].
    intros x s0 s0'. unfold Client_SetQueryParam. run.
    by intros [= <-].
  - unfold Client_SetFormParam, Values_Set in Hop. run. by simplify_eq.
  - unfold Client_SetFormParams, bind at 1 in Hop.
    destruct (forEach _ _ st) as [[] s1|] eqn:Hloop; [|done].
    run. simplify_eq.
    assert (Heq : st_cookies st' = st_cookies st); [|by rewrite Heq].
    eapply forEach_cookies; [|exact Hloop].
    intros x s0 s0'. unfold Client_SetFormParam, Values_Set. run.
    by intros [= <-].
  - run. by simplify_eq.
  - run. by simplify_eq.
  - run. by simplify_eq.
  - destruct (Client.Cookies c) as [|a n]; [done|].
    destruct (i <? n)%nat; [|done]. run. by simplify_eq.
Qed.

Lemma applyOps_cookies ops : ∀ c st c' st',
  existsb writesCookieObject ops = false →
  applyOps ops c st = Done c' st' →
  st_cookies st ⊆ st_cookies st'.
Proof.
  induction ops as [|op ops IH]; intros c st c' st' Hkeep Hrun;
    simpl in Hrun.
  - run. by simplify_eq.
  - simpl in Hkeep. apply orb_false_elim in Hkeep as [Hop Hrest].
    unfold bind in Hrun.
    destruct (applyOp op c st) as [c1 st1|] eqn:Hrun1; [|done].
    etrans; [by eapply applyOp_cookies|by eapply IH].
Qed.

(** The object behind an element of a list of pointers that all lead
    somewhere. *)
Lemma pointees_lookup (pointers : list (option loc)) (st : State) :
  ∀ cs i l,
    pointees pointers st = Some cs →
    pointers !! i = Some (Some l) →
    ∃ cookie, st_cookies st !! l = Some cookie ∧ cs !! i = Some cookie.
Proof.
  induction pointers as [|p pointers IH]; intros cs i l Hcs Hi; [done|].
  rewrite pointees_cons in Hcs. destruct p as [l0|]; [|done].
  destruct (st_cookies st !! l0) as [c0|] eqn:Hl0; [|done].
  destruct (pointees pointers st) as [cs0|] eqn:Hcs0; [|done].
  injection Hcs as <-. destruct i as [|i]; simpl in *.
  - injection Hi as <-. eauto.
  - eapply IH; [reflexivity|done].
Qed.

(** A write to one cookie object, seen through a list of pointers. *)
Lemma pointees_write (pointers : list (option loc)) (st st' : State)
    (l : loc) (cookie : NetHTTP.Cookie) :
  st_cookies st' = <[l := cookie]> (st_cookies st) →
  ∀ cs, pointees pointers st = Some cs →
    ∃ cs', pointees pointers st' = Some cs'
           ∧ length cs' = length cs
           ∧ ∀ j, cs' !! j = if bool_decide (pointers !! j = Some (Some l))
                             then Some cookie else cs !! j.
Proof.
  intros Hst. induction pointers as [|p pointers IH]; intros cs Hcs.
  - injection Hcs as <-. exists []. split; [done|]. split; [done|].
    intros j. by rewrite bool_decide_eq_false_2.
  - rewrite pointees_cons in Hcs. destruct p as [l0|]; [|done].
    destruct (st_cookies st !! l0) as [c0|] eqn:Hl0; [|done].
    destruct (pointees pointers st) as [cs0|] eqn:Hcs0; [|done].
    injection Hcs as <-.
    destruct (IH cs0 eq_refl) as (cs' & Hcs' & Hlen & Hj).
    rewrite pointees_cons, Hcs', Hst.
    destruct (decide (l0 = l)) as [->|Hne].
    + rewrite lookup_insert_eq. eexists. split; [done|]. simpl.
      split; [by rewrite Hlen|].
      intros [|j]; simpl; [by rewrite bool_decide_eq_true_2|apply Hj].
    + rewrite lookup_insert_ne, Hl0 by done. eexists. split; [done|]. simpl.
      split; [by rewrite Hlen|].
      intros [|j]; simpl; [|apply Hj].
      rewrite bool_decide_eq_false_2; [done|]. congruence.
Qed.

(** C9, as the code has it: [R] returns a descriptor that holds what
    the client held (headers, query parameters, form parameters, and a
    cookie list with the same pointers).  Whatever is then done to the
    client's headers, query parameters, form parameters or cookie list,
    through the setters or by writing through the exported fields, the
    maps of the descriptor and the pointers in its cookie list stay the
    same, and as long as no cookie object is written to, so do the
    cookies these pointers lead to.  The cookie objects are not copied:
    a write to the object behind the element [i] of the client's cookie
    list succeeds, and the descriptor then has the written cookie at
    [i] (and wherever else it holds that pointer), the other cookies
    being as before. *)
Theorem C9_snapshot_shares_cookie_objects (c : Client.t) (st : State) :
  Client_allocated c st →
  ∃ c1 r st1,
    Client_R c st = Done (c1, r) st1
    ∧ Request_view r st1 = Client_view c st
    ∧ (∀ ops c2 st2,
         applyOps ops c1 st1 = Done c2 st2 →
         Request_view r st2 = Request_view r st1
         ∧ (existsb writesCookieObject ops = false →
            ∀ cs, Request_cookieObjects r st1 = Some cs →
                  Request_cookieObjects r st2 = Some cs))
    ∧ (∀ i l cookie cs,
         sliceView (Request.cookies r) st1 !! i = Some (Some l) →
         Request_cookieObjects r st1 = Some cs →
         ∃ st2 cs',
           applyOp (OpWriteCookieObject i cookie) c1 st1 = Done c1 st2
           ∧ Request_view r st2 = Request_view r st1
           ∧ Request_cookieObjects r st2 = Some cs'
           ∧ cs' !! i = Some cookie
           ∧ ∀ j, sliceView (Request.cookies r) st1 !! j ≠ Some (Some l) →
                  cs' !! j = cs !! j).
Proof.
  intros Halloc.
  destruct (Client_R_separated c st Halloc)
    as (c1 & r & st1 & HR & Hsep & Hview & Hview1).
  exists c1, r, st1. split; [done|]. split; [done|]. split.
  - intros ops c2 st2 Hops.
    destruct (applyOps_separated ops c1 r st1 c2 st2 Hsep Hops)
      as [_ Hsame].
    split; [done|]. intros Hkeep cs Hcs.
    unfold Request_cookieObjects in *.
    assert (Hptr : sliceView (Request.cookies r) st2
                   = sliceView (Request.cookies r) st1).
    { unfold Request_view in Hsame. congruence. }
    rewrite Hptr. eapply pointees_mono; [|exact Hcs].
    by eapply applyOps_cookies.
  - intros i l cookie cs Hi Hcs.
    assert (Hptr : sliceView (Client.Cookies c1) st1
                   = sliceView (Request.cookies r) st1).
    { unfold Request_view, Client_view in *. congruence. }
    unfold Request_cookieObjects in Hcs.
    destruct (pointees_lookup _ _ _ _ _ Hcs Hi) as (old & Hold & _).
    assert (Hop : ∃ st2, applyOp (OpWriteCookieObject i cookie) c1 st1
                         = Done c1 st2
                         ∧ st_cookies st2 = <[l := cookie]> (st_cookies st1)).
    { simpl. unfold bind. rewrite sliceElems_run, Hptr, Hi.
      unfold writeCookie. rewrite Hold. eexists. split; reflexivity. }
    destruct Hop as (st2 & Hop & Hck).
    destruct (applyOp_separated _ _ _ _ _ _ Hsep Hop) as [_ Hsame].
    assert (Hptr2 : sliceView (Request.cookies r) st2
                    = sliceView (Request.cookies r) st1).
    { unfold Request_view in Hsame. congruence. }
    destruct (pointees_write _ _ _ _ _ Hck _ Hcs) as (cs' & Hcs' & _ & Hj).
    exists st2, cs'. split; [done|]. split; [done|].
    unfold Request_cookieObjects. rewrite Hptr2. split; [done|].
    split.
    + rewrite Hj. by rewrite bool_decide_eq_true_2.
    + intros j Hne. rewrite Hj. by rewrite bool_decide_eq_false_2.
Qed.
End Properties.

(** ** Closed instances *)

(** C10 at the envelope with nothing in it. *)
Lemma C10_witness :
  let r := Response.mk None None None in
  Response.Response_ r = None
  ∧ Response_Body r = (None, r)
  ∧ Response_String r = ("", r)
  ∧ Response_StatusCode r = 0%Z
  ∧ Response_Header r = ∅
  ∧ Response_IsServerError r = false
  ∧ Response_GetHeader "Content-Type" r = ""
  ∧ Response_HasHeader "Content-Type" r = false
  ∧ Response_SaveToFile "out.bin" r = SavePanic.
Proof.
  destruct (C10_nil_response_accessors (Response.mk None None None) eq_refl)
    as (HB & HS & HC & HH & _ & _ & HE & HG & _ & _ & _ & HF & _).
  destruct (HG "Content-Type") as (Hget & Hhas & _).
  intros r. split; [reflexivity|].
  split; [exact HB|]. split; [exact HS|]. split; [exact HC|].
  split; [exact HH|]. split; [exact HE|]. split; [exact Hget|].
  split; [exact Hhas|]. exact (HF eq_refl "out.bin").
Defined.

(** C10, as stated, fails at two accessors: on the envelope with
    nothing in it, [SaveToFile] and [GetCookies] panic. *)
Lemma C10_counterexample :
  let r := Response.mk None None None in
  Response.Response_ r = None
  ∧ (∀ filepath, Response_SaveToFile filepath r = SavePanic)
  ∧ (∀ readSetCookies, Response_GetCookies readSetCookies r = None).
Proof. repeat split. Qed.

(** C5 at a stream whose first read fails. *)
Lemma C5_witness :
  let raw := http_Response.mk 200 "200 OK" ∅ (Some flakyStream) in
  let r0 := Response.mk (Some raw) None None in
  let r1 := (Response_Body r0).2 in
  let r2 := (Response_Body r1).2 in
  outcomes flakyStream (reads flakyStream) = Err (ErrorString "unexpected EOF")
  ∧ (Response_Body r0).1 = None
  ∧ (Response_Body r1).1 = Some "late"
  ∧ (http_Response.Body <$> Response.Response_ r2)
    = Some (Some (mkStream (outcomes flakyStream) 2 2)).
Proof.
  intros raw r0 r1 r2. split; [reflexivity|].
  destruct (C5_failed_read_is_repeated raw flakyStream
              (ErrorString "unexpected EOF") eq_refl eq_refl)
    as (H1 & _ & H2 & H3).
  auto.
Defined.

(** C2 at a new client and the argument -1: the ceiling stays 5. *)
Lemma C2_witness :
  ∃ c st,
    NewClient (startWith []) = Done c st
    ∧ (-1 < 0)%Z
    ∧ Client.RetryMax c = 5%Z
    ∧ Client_SetRetryMax (-1) c = c.
Proof.
  eexists _, _. split; [vm_compute; reflexivity|].
  split; [lia|]. split; [reflexivity|].
  refine (proj1 (C2_negative_ceiling_is_not_clamped (P := scripted) (-1) _ _)).
  lia.
Defined.

(** C1 at a new client (ceiling 5) and a transport that refuses every
    connection: five dispatches, then the generic error. *)
Lemma C1_witness :
  ∃ c r st,
    scenario ret ret (startWith []) = Done (c, r) st
    ∧ (1 ≤ Client.RetryMax c)%Z
    ∧ Z.to_nat (Client.RetryMax c) = 5%nat
    ∧ ∃ r1 req st2,
        Request_Execute c "/v1/users" r st
        = Done (Request.set_Request_ (Some req) r1,
                (None, Some (ErrorString "failed to execute request"))) st2
        ∧ st_sent st2
          = st_sent st ++ replicate (Z.to_nat (Client.RetryMax c)) req
        ∧ length (st_sent st2)
          = (length (st_sent st) + Z.to_nat (Client.RetryMax c))%nat.
Proof.
  eexists _, _, _. split; [vm_compute; reflexivity|].
  split; [vm_compute; discriminate|].
  split; [reflexivity|].
  eexists _, _.
  eapply (C1_retries_exhausted (P := scripted)).
  - vm_compute; discriminate.
  - vm_compute; reflexivity.
  - reflexivity.
  - vm_compute; reflexivity.
Defined.

(** C3 at a transport that times out once and then answers with status
    500: two dispatches, an envelope and no error, a server error. *)
Lemma C3_witness :
  ∃ c r st,
    scenario ret ret
      (startWith [Err (ErrorString "timeout"); OK (Some (statusOnly 500))])
    = Done (c, r) st
    ∧ (1 < Z.to_nat (Client.RetryMax c))%nat
    ∧ ∃ r1 req env st2,
        Request_Execute c "/v1/users" r st
        = Done (Request.set_Request_ (Some req) r1, (Some env, None)) st2
        ∧ st_sent st2 = st_sent st ++ [req; req]
        ∧ Response_StatusCode env = 500%Z
        ∧ Response_IsServerError env = true.
Proof.
  eexists _, _, _. split; [vm_compute; reflexivity|].
  split; [vm_compute; lia|].
  match goal with
  | |- context [Request_Execute ?c _ ?r ?st] =>
      assert (Hbuild : Request_newRequest c
                         (Request.set_urlPoint (TrimPrefix "/v1/users" "/") r)
                         st = Done (_, OK _) _)
        by (vm_compute; reflexivity);
      assert (Hlt : (1 < Z.to_nat (Client.RetryMax c))%nat)
        by (vm_compute; lia);
      destruct (C3_first_response_is_returned (P := scripted)
                  c "/v1/users" r _ _ _ st _ 1 [OK (Some (statusOnly 500))]
                  [] (statusOnly 500) Hbuild eq_refl Hlt eq_refl eq_refl)
        as (env & st2 & Hexec & Hsent & _ & Hcode & _ & _ & Hserver)
  end.
  eexists _, _, env, st2. split; [exact Hexec|].
  split; [exact Hsent|]. split; [exact Hcode|]. by apply Hserver.
Defined.

(** C7 at a descriptor with one form parameter and an empty body: the
    stream carries [a=1], the supplier returns nothing. *)
Lemma C7_witness :
  ∃ c r st,
    scenario ret (Request_SetFormParam "a" "1") (startWith []) = Done (c, r) st
    ∧ Request.GetBody r = None
    ∧ ∃ r' req st',
        Request_newRequest c r st = Done (r', OK req) st'
        ∧ http_Request.GetBody req = Some OwnBody
        ∧ callGetBody r' OwnBody = OK ""
        ∧ http_Request.Body req = "a=1".
Proof.
  eexists _, _, _. split; [vm_compute; reflexivity|].
  split; [reflexivity|].
  eexists _, _, _.
  match goal with
  | |- Request_newRequest ?c ?r ?st = _ ∧ _ =>
      assert (Hbuild : Request_newRequest c r st = Done (_, OK _) _)
        by (vm_compute; reflexivity);
      destruct (C7_supplier_returns_raw_body (P := scripted) c r st _ _ _
                  eq_refl Hbuild) as (Hget & _ & Hcall & Hbody)
  end.
  split; [exact Hbuild|]. split; [exact Hget|]. split; [exact Hcall|].
  rewrite Hbody. vm_compute. reflexivity.
Defined.

(** C4 at a client with the token [secret]: the wire request has no
    Authorization header; and at a client with user credentials: the
    first assembly panics. *)
Lemma C4_witness :
  (∃ c r st,
     scenario (λ c, ret (Client_SetBasicAuthToken "secret" c)) ret
       (startWith []) = Done (c, r) st
     ∧ Client.UserInfo c = None
     ∧ IsStringEmpty (Client.BasicAuthToken c) = false
     ∧ ∃ r' req st',
         Request_newRequest c r st = Done (r', OK req) st'
         ∧ http_Request.Header req !! "Authorization" = None)
  ∧ bind (scenario (λ c, ret (Client_SetBasicAuth "user" "pass" c)) ret)
      (λ cr, Request_newRequest cr.1 cr.2) (startWith [])
    = Panic "nil pointer dereference".
Proof.
  split; [|vm_compute; reflexivity].
  eexists _, _, _. split; [vm_compute; reflexivity|].
  split; [reflexivity|]. split; [vm_compute; reflexivity|].
  eexists _, _, _.
  match goal with
  | |- Request_newRequest ?c ?r ?st = _ ∧ _ =>
      assert (Hbuild : Request_newRequest c r st = Done (_, OK _) _)
        by (vm_compute; reflexivity);
      destruct (C4_credentials_miss_the_wire_request (P := scripted)
                  c r st _ _ _ Hbuild) as (Hauth & _)
  end.
  split; [exact Hbuild|]. rewrite Hauth. vm_compute. reflexivity.
Defined.

(** C6, as stated, fails at the setter of the client: after setting the
    string [hello] the client has no Content-Type header; the valid JSON
    text [123], which has no braces or brackets, is taken as the body;
    and [{a}], which has braces, is not. *)
Lemma C6_counterexample :
  ∃ c st,
    NewClient (startWith []) = Done c st
    ∧ (∃ st', Client_SetBodyJSON (AnyString "hello") c st = Done c st'
              ∧ default ∅ (st_maps st' !! Client.Header c) !! "Content-Type"
                = None)
    ∧ isJSON "123" = false
    ∧ (∃ st', Client_SetBodyJSON (AnyString "123") c st
              = Done (Client.set_Body "123" c) st')
    ∧ isJSON "{a}" = true
    ∧ (∃ st', Client_SetBodyJSON (AnyString "{a}") c st = Done c st').
Proof.
  eexists _, _. split; [vm_compute; reflexivity|].
  split; [eexists; split; vm_compute; reflexivity|].
  split; [vm_compute; reflexivity|].
  split; [eexists; vm_compute; reflexivity|].
  split; [vm_compute; reflexivity|].
  eexists; vm_compute; reflexivity.
Qed.

(** C9 at a client with the cookie [a=1]: headers, cookies, query and
    form parameters of the client change and its cookie list is
    cleared, the descriptor made before holds the same; a write to the
    cookie object changes the cookie of the descriptor. *)
Lemma C9_witness :
  ∃ c st,
    bind NewClient (Client_SetCookie "a=1") (startWith []) = Done c st
    ∧ Client_allocated c st
    ∧ ∃ c1 r st1 c2 st2 st3,
        Client_R c st = Done (c1, r) st1
        ∧ applyOps [OpSetHeader "X-Trace" "1"; OpSetCookie "b=2";
                    OpSetQueryParam "page" "2"; OpSetFormParam "k" "v";
                    OpWriteHeader {["Accept" := ["*/*"]]}; OpClearCookies]
            c1 st1 = Done c2 st2
        ∧ Client_view c2 st2 ≠ Client_view c1 st1
        ∧ Request_view r st2 = Request_view r st1
        ∧ Request_cookieObjects r st2 = Some [NetHTTP.mkCookie "a" "1"]
        ∧ applyOp (OpWriteCookieObject 0 (NetHTTP.mkCookie "a" "evil")) c1 st1
          = Done c1 st3
        ∧ Request_view r st3 = Request_view r st1
        ∧ Request_cookieObjects r st3 = Some [NetHTTP.mkCookie "a" "evil"].
Proof.
  eexists _, _. split; [vm_compute; reflexivity|].
  match goal with
  | |- Client_allocated ?c ?st ∧ _ =>
      assert (Halloc : Client_allocated c st)
        by (repeat split; apply elem_of_dom; vm_compute; eauto);
      destruct (C9_snapshot_shares_cookie_objects (P := scripted) c st Halloc)
        as (c1 & r & st1 & HR & _ & Hframe & Hshare);
      assert (HR' : Client_R c st = Done (_, _) _) by (vm_compute; reflexivity)
  end.
  split; [exact Halloc|].
  pose proof (eq_trans (eq_sym HR) HR') as Heq.
  injection Heq as -> -> ->.
  eexists _, _, _, _, _, _. split; [exact HR'|].
  match goal with
  | |- applyOps ?ops ?c1 ?st1 = _ ∧ _ =>
      assert (Hops : applyOps ops c1 st1 = Done _ _)
        by (vm_compute; reflexivity)
  end.
  split; [exact Hops|]. split; [vm_compute; discriminate|].
  destruct (Hframe _ _ _ Hops) as [Hview Hobjects].
  split; [exact Hview|].
  split; [apply Hobjects; [reflexivity|vm_compute; reflexivity]|].
  match goal with
  | |- applyOp ?op ?c1 ?st1 = _ ∧ _ =>
      destruct (Hshare 0%nat _ (NetHTTP.mkCookie "a" "evil")
                  [NetHTTP.mkCookie "a" "1"]
                  ltac:(vm_compute; reflexivity) ltac:(vm_compute; reflexivity))
        as (st3 & cs' & Hop & Hview3 & Hcs' & Hi & Hrest);
      assert (Hop' : applyOp op c1 st1 = Done _ _) by (vm_compute; reflexivity)
  end.
  pose proof (eq_trans (eq_sym Hop) Hop') as Heq.
  injection Heq as ->.
  split; [exact Hop'|]. split; [exact Hview3|].
  vm_compute. reflexivity.
Defined.

(** C9, as stated, fails for the cookies: the descriptor made from a
    client with the cookie [a=1] sends [a=1]; after a write to the
    cookie object through the cookie list of the client, the same
    descriptor, with the same pointers, holds and sends [a=evil]. *)
Lemma C9_counterexample :
  ∃ c r st c2 st2 r1 req1 s1 r2 req2 s2,
    scenario (Client_SetCookie "a=1") ret (startWith []) = Done (c, r) st
    ∧ Request_cookieObjects r st = Some [NetHTTP.mkCookie "a" "1"]
    ∧ Request_newRequest c r st = Done (r1, OK req1) s1
    ∧ NetHTTP.Get "Cookie" (http_Request.Header req1) = "a=1"
    ∧ applyOps [OpWriteCookieObject 0 (NetHTTP.mkCookie "a" "evil")] c st
      = Done c2 st2
    ∧ Request_view r st2 = Request_view r st
    ∧ Request_cookieObjects r st2 = Some [NetHTTP.mkCookie "a" "evil"]
    ∧ Request_newRequest c2 r st2 = Done (r2, OK req2) s2
    ∧ NetHTTP.Get "Cookie" (http_Request.Header req2) = "a=evil".
Proof.
  eexists _, _, _, _, _, _, _, _, _, _, _.
  split; [vm_compute; reflexivity|].
  split; [vm_compute; reflexivity|].
  split; [vm_compute; reflexivity|].
  split; [vm_compute; reflexivity|].
  split; [vm_compute; reflexivity|].
  split; [vm_compute; reflexivity|].
  split; [vm_compute; reflexivity|].
  split; vm_compute; reflexivity.
Qed.

(** C8 from end to end: [Execute] with path [/v1/users] dispatches a
    request for [http://example.com/api/v1/users?id=5]. *)
Example C8_example :
  ∃ c r st r' out st',
    scenario (Client_SetQueryParam "id" "5") ret (startWith []) = Done (c, r) st
    ∧ Request_rawURL c (Request.set_urlPoint "/v1/users" r) st
      = Done "http://example.com/api/v1/users?id=5" st
    ∧ Request_Execute c "/v1/users" r st = Done (r', out) st'
    ∧ (http_Request.URL <$> head (st_sent st'))
      = Some (NetURL.mkURL "http" "example.com" "/api/v1/users" "id=5").
Proof.
  eexists _, _, _, _, _, _. split; [vm_compute; reflexivity|].
  split; [vm_compute; reflexivity|].
  split; vm_compute; reflexivity.
Qed.

(** C8 with a value that needs escaping: the query string of the
    dispatched request is escaped. *)
Example C8_example_escaped :
  ∃ c r st r' out st',
    scenario (Client_SetQueryParam "q" "a b&c=d") ret (startWith [])
    = Done (c, r) st
    ∧ Request_Execute c "/v1/users" r st = Done (r', out) st'
    ∧ (http_Request.URL <$> head (st_sent st'))
      = Some (NetURL.mkURL "http" "example.com" "/api/v1/users"
                "q=a+b%26c%3Dd").
Proof.
  eexists _, _, _, _, _, _. split; [vm_compute; reflexivity|].
  split; vm_compute; reflexivity.
Qed.

(** X2 at two cookies, one with equals signs in its value and one with
    a space in it. *)
Lemma X2_witness :
  let cs := [NetHTTP.mkCookie "sid" "abc=="; NetHTTP.mkCookie "theme" "dark mode"] in
  forallb plainCookie cs = true
  ∧ cookieLine cs = "sid=abc==; theme=dark mode"
  ∧ parseCookies "sid=abc==; theme=dark mode" = cs.
Proof.
  split; [reflexivity|]. split; [reflexivity|].
  apply (X2_parseCookies_reads_back
           [NetHTTP.mkCookie "sid" "abc=="; NetHTTP.mkCookie "theme" "dark mode"]).
  reflexivity.
Defined.

(** X3 at an address in brackets with a port: the host is cut down to
    the opening bracket. *)
Lemma X3_witness :
  noColon "[" = true
  ∧ removeEmptyPort "[::1]:8080" = "[".
Proof.
  split; [reflexivity|].
  apply (X3_removeEmptyPort_cases "[" ":1]:8080"). reflexivity.
Defined.

(** X6 at a response with a Content-Type header and the key in lower
    case. *)
Lemma X6_witness :
  let r := Response.mk
             (Some (http_Response.mk 200 "200 OK"
                      {["Content-Type" := ["text/html"]]} None))
             None None in
  Response_GetHeader "content-type" r = "text/html"
  ∧ Response_HasHeader "content-type" r = false
  ∧ Response_GetHeaderValues "content-type" r = [].
Proof.
  intros r.
  destruct (X6_header_lookup_case r "content-type")
    as (Hhas & Hvalues & Hget).
  - apply map_Forall_singleton. reflexivity.
  - vm_compute. discriminate.
  - split; [rewrite Hget; reflexivity|]. split; assumption.
Defined.

(** X8 at the envelope with nothing in it. *)
Lemma X8_witness :
  Response.body (Response.mk None None None) = None
  ∧ Response_SaveToFile "out.bin" (Response.mk None None None) = SavePanic
  ∧ Response_Body (Response.mk None None None)
    = (None, Response.mk None None None).
Proof.
  split; [reflexivity|].
  apply (X8_SaveToFile_failures (Response.mk None None None) "out.bin").
  reflexivity.
Defined.

(** X10 at a descriptor of a new client, with the key written in lower
    case and read back in upper case. *)
Lemma X10_witness :
  ∃ c r st,
    scenario ret ret (startWith []) = Done (c, r) st
    ∧ NetHTTP.CanonicalMIMEHeaderKey "CONTENT-TYPE"
      = NetHTTP.CanonicalMIMEHeaderKey "content-type"
    ∧ ∃ st1 st2,
        Request_SetHeader "content-type" "text/plain" r st = Done r st1
        ∧ Request_GetHeader "CONTENT-TYPE" r st1 = Done "text/plain" st1
        ∧ Request_DelHeader "CONTENT-TYPE" r st1 = Done r st2
        ∧ Request_GetHeader "content-type" r st2 = Done "" st2.
Proof.
  eexists _, _, _. split; [vm_compute; reflexivity|].
  split; [vm_compute; reflexivity|].
  eapply (X10_header_round_trip (P := scripted)).
  vm_compute; reflexivity.
Defined.

(** X13 at a client in debug mode and a transport that answers with a
    stream delivering [hello]. *)
Lemma X13_witness :
  ∃ c r st,
    scenario (λ c, ret (Client_SetDebug true c))
      (λ r, ret (Request.set_Request_ (Some sampleRequest) r))
      (startWith [OK (Some (http_Response.mk 200 "200 OK" ∅
                              (Some helloStream)))])
    = Done (c, r) st
    ∧ Client.Debug c = true
    ∧ Request.Request_ r = Some sampleRequest
    ∧ ∃ env st',
        Request_Do c r st = Done (Some env, None) st'
        ∧ Response.body env = Some "hello"
        ∧ Response_Body env = (Some "hello", env)
        ∧ length (st_logs st') = (length (st_logs st) + 2)%nat.
Proof.
  eexists _, _, _. split; [vm_compute; reflexivity|].
  split; [reflexivity|]. split; [reflexivity|].
  match goal with
  | |- context [Request_Do ?c ?r ?st] =>
      destruct (X13_debug_reads_the_body (P := scripted) c r sampleRequest st
                  [] (http_Response.mk 200 "200 OK" ∅ (Some helloStream))
                  helloStream "hello" eq_refl eq_refl eq_refl eq_refl eq_refl)
        as (env & st' & HDo & Hbody & Hcached & _ & Hlogs)
  end.
  exists env, st'. split; [exact HDo|]. split; [exact Hbody|].
  split; [exact Hcached|]. rewrite Hlogs, length_app. reflexivity.
Defined.

(** X14 at a transport that times out once and then answers: two
    dispatches within the ceiling of 5, an envelope and no error. *)
Lemma X14_witness :
  ∃ c r st r' result st',
    scenario ret ret
      (startWith [Err (ErrorString "timeout"); OK (Some (statusOnly 200))])
    = Done (c, r) st
    ∧ Request_Execute c "/v1/users" r st = Done (r', result) st'
    ∧ ∃ sent,
        st_sent st' = st_sent st ++ sent
        ∧ (length sent ≤ 5)%nat
        ∧ (∀ x, x ∈ sent → Request.Request_ r' = Some x).
Proof.
  eexists _, _, _, _, _, _. split; [vm_compute; reflexivity|].
  match goal with
  | |- Request_Execute ?c ?u ?r ?st = _ ∧ _ =>
      assert (Hexec : Request_Execute c u r st = Done (_, _) _)
        by (vm_compute; reflexivity);
      destruct (X14_Execute_outcomes (P := scripted) c u r st _ _ _ Hexec)
        as (sent & Hsent & Hlen & Hall & _)
  end.
  split; [exact Hexec|]. exists sent. split; [exact Hsent|].
  split; [exact Hlen|]. exact Hall.
Defined.

(** X15 at a descriptor whose method has been set to the empty
    string. *)
Lemma X15_witness :
  ∃ c r st r' st',
    scenario ret (λ r, ret (Request_SetMethod "" r)) (startWith [])
    = Done (c, r) st
    ∧ Request_newRequest c r st
      = Done (r', Err (ErrorString "HTTP method is not set")) st'
    ∧ st' = st
    ∧ Request.GetBody r = None
    ∧ Request.GetBody r' = Some OwnBody.
Proof.
  eexists _, _, _, _, _. split; [vm_compute; reflexivity|].
  match goal with
  | |- Request_newRequest ?c ?r ?st = _ ∧ _ =>
      assert (Hbuild : Request_newRequest c r st
                       = Done (_, Err (ErrorString "HTTP method is not set"))
                           _)
        by (vm_compute; reflexivity);
      destruct (X15_assembly_errors (P := scripted) c r st _ _ _ Hbuild)
        as (Hst & _)
  end.
  split; [exact Hbuild|]. split; [exact Hst|]. split; reflexivity.
Defined.

(** X16 at a descriptor with one form parameter and the body [raw]:
    the first wire request carries [a=1] with length 3, the second
    carries [raw] with length 0. *)
Lemma X16_witness :
  ∃ c r st r1 req1 st1 r2 req2 st2,
    scenario ret
      (λ r, Request_SetFormParam "a" "1" (Request_SetBody "raw" r))
      (startWith []) = Done (c, r) st
    ∧ Request.GetBody r = None
    ∧ Request_newRequest c r st = Done (r1, OK req1) st1
    ∧ Request_newRequest c
        (Request.set_urlPoint "v1" (Request.set_Request_ (Some req1) r1)) st1
      = Done (r2, OK req2) st2
    ∧ http_Request.Body req1 = "a=1"
    ∧ http_Request.ContentLength req1 = 3%Z
    ∧ http_Request.Body req2 = "raw"
    ∧ http_Request.ContentLength req2 = 0%Z.
Proof.
  eexists _, _, _, _, _, _, _, _, _. split; [vm_compute; reflexivity|].
  match goal with
  | |- Request.GetBody ?r = None ∧ _ =>
      assert (Hnone : Request.GetBody r = None) by reflexivity
  end.
  split; [exact Hnone|].
  match goal with
  | |- Request_newRequest ?c ?r ?st = _ ∧ _ =>
      assert (H1 : Request_newRequest c r st = Done (_, OK _) _)
        by (vm_compute; reflexivity)
  end.
  split; [exact H1|].
  match goal with
  | |- Request_newRequest ?c ?r ?st = _ ∧ _ =>
      assert (H2 : Request_newRequest c r st = Done (_, OK _) _)
        by (vm_compute; reflexivity)
  end.
  split; [exact H2|].
  destruct (X16_second_assembly_sends_raw_body (P := scripted)
              _ _ _ _ _ _ _ _ _ _ _ _ Hnone H1 H2)
    as (Hlen1 & Hbody2 & Hlen2).
  split; [reflexivity|]. split; [rewrite Hlen1; reflexivity|].
  split; [rewrite Hbody2; reflexivity|]. exact Hlen2.
Defined.

(** X17 at a descriptor without cookies and the string [a=1; b=2]. *)
Lemma X17_witness :
  ∃ c r st,
    scenario ret ret (startWith []) = Done (c, r) st
    ∧ sliceFits (Request.cookies r) st
    ∧ pointees (sliceView (Request.cookies r) st) st = Some []
    ∧ ∃ r1 st1,
        Request_SetCookie "a=1; b=2" r st = Done r1 st1
        ∧ pointees (sliceView (Request.cookies r1) st1) st1
          = Some [NetHTTP.mkCookie "a" "1"; NetHTTP.mkCookie "b" "2"].
Proof.
  eexists _, _, _. split; [vm_compute; reflexivity|].
  match goal with
  | |- sliceFits ?s ?st ∧ _ =>
      assert (Hfit : sliceFits s st) by (vm_compute; lia);
      destruct (X17_Request_SetCookie_appends (P := scripted) "a=1; b=2"
                  _ st [] Hfit eq_refl)
        as (r1 & st1 & Hset & Hobj & _)
  end.
  split; [exact Hfit|]. split; [reflexivity|].
  exists r1, st1. split; [exact Hset|]. exact Hobj.
Defined.

(** X18 at a new client and the string [a=1; b=2]. *)
Lemma X18_witness :
  ∃ c st,
    NewClient (startWith []) = Done c st
    ∧ sliceFits (Client.Cookies c) st
    ∧ pointees (sliceView (Client.Cookies c) st) st = Some []
    ∧ ∃ c1 st1,
        Client_SetCookie "a=1; b=2" c st = Done c1 st1
        ∧ pointees (sliceView (Client.Cookies c1) st1) st1
          = Some [NetHTTP.mkCookie "a" "1"; NetHTTP.mkCookie "b" "2"].
Proof.
  eexists _, _. split; [vm_compute; reflexivity|].
  match goal with
  | |- sliceFits ?s ?st ∧ _ =>
      assert (Hfit : sliceFits s st) by (vm_compute; lia);
      destruct (X18_Client_SetCookie_appends (P := scripted) "a=1; b=2"
                  _ st [] Hfit eq_refl)
        as (c1 & st1 & Hset & Hobj & _)
  end.
  split; [exact Hfit|]. split; [reflexivity|].
  exists c1, st1. split; [exact Hset|]. exact Hobj.
Defined.

(** X19 at a descriptor of a new client: after [SetCookieRaw(nil)] the
    assembly panics. *)
Lemma X19_witness :
  ∃ c r st,
    scenario ret ret (startWith []) = Done (c, r) st
    ∧ sliceFits (Request.cookies r) st
    ∧ ∃ r1 st1,
        Request_SetCookieRaw None r st = Done r1 st1
        ∧ Request_newRequest c r1 st1 = Panic "nil pointer dereference"
        ∧ ∀ r' req st', Request_newRequest c r1 st1 ≠ Done (r', OK req) st'.
Proof.
  eexists _, _, _. split; [vm_compute; reflexivity|].
  match goal with
  | |- sliceFits (Request.cookies ?r) ?st ∧ _ =>
      match goal with
      | |- context [Request_newRequest ?c] =>
      assert (Hfit : sliceFits (Request.cookies r) st) by (vm_compute; lia);
      destruct (X19_nil_cookie_blocks_assembly (P := scripted) c "/v1" r st
                  Hfit)
        as (r1 & st1 & Hset & Hnever & _);
      assert (Hset' : Request_SetCookieRaw None r st = Done _ _)
        by (vm_compute; reflexivity)
      end
  end.
  split; [exact Hfit|].
  pose proof (eq_trans (eq_sym Hset) Hset') as Heq.
  injection Heq as -> ->.
  eexists _, _. split; [exact Hset'|].
  split; [vm_compute; reflexivity|exact Hnever].
Defined.

(** X20 at a descriptor with the cookies of [a=1; b=2]: the wire
    request has the Cookie header [a=1; b=2]. *)
Lemma X20_witness :
  ∃ c r st r' req st',
    scenario ret (Request_SetCookie "a=1; b=2") (startWith []) = Done (c, r) st
    ∧ pointees (sliceView (Request.cookies r) st) st
      = Some [NetHTTP.mkCookie "a" "1"; NetHTTP.mkCookie "b" "2"]
    ∧ Request_newRequest c r st = Done (r', OK req) st'
    ∧ NetHTTP.Get "Cookie" (http_Request.Header req) = "a=1; b=2".
Proof.
  eexists _, _, _, _, _, _. split; [vm_compute; reflexivity|].
  split; [vm_compute; reflexivity|].
  match goal with
  | |- Request_newRequest ?c ?r ?st = _ ∧ _ =>
      assert (Hbuild : Request_newRequest c r st = Done (_, OK _) _)
        by (vm_compute; reflexivity);
      pose proof (X20_Cookie_header (P := scripted) c r st
                    [NetHTTP.mkCookie "a" "1"; NetHTTP.mkCookie "b" "2"]
                    _ _ _ ltac:(vm_compute; reflexivity) Hbuild) as Hcookie
  end.
  split; [exact Hbuild|]. rewrite Hcookie. vm_compute. reflexivity.
Defined.

(** X23 at the base [http://example.com/api]. *)
Lemma X23_witness :
  ∃ c st,
    NewClient (startWith []) = Done c st
    ∧ HasSuffix "http://example.com/api" "/" = false
    ∧ Client.BaseURL (Client_SetBaseURL "http://example.com/api/" c)
      = "http://example.com/api"
    ∧ Client.BaseURL (Client_SetBaseURL "http://example.com/api//" c)
      = "http://example.com/api/".
Proof.
  eexists _, _. split; [vm_compute; reflexivity|].
  split; [vm_compute; reflexivity|].
  match goal with
  | |- context [Client_SetBaseURL _ ?c] =>
      destruct (X23_SetBaseURL_slashes (P := scripted)
                  "http://example.com/api" c ltac:(vm_compute; reflexivity))
        as (_ & H1 & H2 & _)
  end.
  split; [exact H1|exact H2].
Defined.

(** X24 at a descriptor of a new client and the parameter [q] with the
    value [a b]. *)
Lemma X24_witness :
  ∃ c r st,
    scenario ret ret (startWith []) = Done (c, r) st
    ∧ default ∅ (st_dicts st !! Request.queryParams r) = ∅
    ∧ ∃ st1 st2,
        Request_SetQueryParam "q" "a b" r st = Done r st1
        ∧ Request_rawURL c r st1 = Done "http://example.com/api/?q=a+b" st1
        ∧ Request_DelQueryParam "q" r st1 = Done r st2
        ∧ Request_rawURL c r st2 = Done "http://example.com/api/" st2.
Proof.
  eexists _, _, _. split; [vm_compute; reflexivity|].
  split; [vm_compute; reflexivity|].
  match goal with
  | |- context [Request_rawURL ?c ?r _] =>
      match goal with
      | |- context [Request_SetQueryParam _ _ r ?st] =>
          destruct (X24_query_parameter_round_trip (P := scripted)
                      c r st "q" "a b" ltac:(vm_compute; reflexivity))
            as (st1 & st2 & Hset & Hurl1 & Hdel & Hurl2)
      end
  end.
  exists st1, st2. split; [exact Hset|].
  split; [rewrite Hurl1; reflexivity|].
  split; [exact Hdel|]. rewrite Hurl2. reflexivity.
Defined.

(** X25 at a new client: headers, cookies, query and form parameters
    of the descriptor change, the client does not. *)
Lemma X25_witness :
  ∃ c st,
    NewClient (startWith []) = Done c st
    ∧ Client_allocated c st
    ∧ ∃ c1 r st1 r2 st2,
        Client_R c st = Done (c1, r) st1
        ∧ applyRequestOps
            [RopSetHeader "X-Trace" "1"; RopSetCookie "a=1; b=2";
             RopSetQueryParam "page" "2"; RopSetFormParam "k" "v";
             RopAddHeader "Accept" "*/*"; RopSetCookieRaw None]
            r st1 = Done r2 st2
        ∧ Request_view r2 st2 ≠ Request_view r st1
        ∧ Client_view c1 st2 = Client_view c1 st1.
Proof.
  eexists _, _. split; [vm_compute; reflexivity|].
  match goal with
  | |- Client_allocated ?c ?st ∧ _ =>
      assert (Halloc : Client_allocated c st)
        by (repeat split; apply elem_of_dom; vm_compute; eauto);
      destruct (X25_client_unchanged_by_descriptor (P := scripted) c st Halloc)
        as (c1 & r & st1 & HR & _ & Hframe);
      assert (HR' : Client_R c st = Done (_, _) _) by (vm_compute; reflexivity)
  end.
  split; [exact Halloc|].
  pose proof (eq_trans (eq_sym HR) HR') as Heq.
  injection Heq as -> -> ->.
  eexists _, _, _, _, _. split; [exact HR'|].
  match goal with
  | |- applyRequestOps ?ops ?r1 ?st1 = _ ∧ _ =>
      assert (Hops : applyRequestOps ops r1 st1 = Done _ _)
        by (vm_compute; reflexivity)
  end.
  split; [exact Hops|]. split; [vm_compute; discriminate|].
  exact (Hframe _ _ _ Hops).
Defined.

(** X27 at a client whose hook returns nil. *)
Lemma X27_witness :
  ∃ c r st r1 req st1,
    scenario
      (λ c, ret (Client_SetHandleRequestResultFunc (Some (λ _, None)) c))
      ret (startWith []) = Done (c, r) st
    ∧ Request_newRequest c (Request.set_urlPoint (TrimPrefix "/v1" "/") r) st
      = Done (r1, OK req) st1
    ∧ applyHook c req = None
    ∧ (1 ≤ Client.RetryMax c)%Z
    ∧ Request_Execute c "/v1" r st = Panic "nil pointer dereference".
Proof.
  eexists _, _, _, _, _, _. split; [vm_compute; reflexivity|].
  match goal with
  | |- Request_newRequest ?c ?r ?st = _ ∧ _ =>
      assert (Hbuild : Request_newRequest c r st = Done (_, OK _) _)
        by (vm_compute; reflexivity)
  end.
  split; [exact Hbuild|]. split; [reflexivity|].
  split; [vm_compute; discriminate|].
  refine (proj1 (X27_hook_returning_nil (P := scripted) _ _ _ _ _ _ _
                   Hbuild eq_refl _)).
  vm_compute; discriminate.
Defined.

(** X29 at a new client with a header and a cookie: two descriptors,
    the first changed, the second as it was. *)
Lemma X29_witness :
  ∃ c st,
    bind NewClient
      (λ c, bind (Client_SetHeader "Accept" "*/*" c)
              (Client_SetCookie "a=1")) (startWith []) = Done c st
    ∧ Client_allocated c st
    ∧ ∃ c1 r1 st1 c2 r2 st2 r1' st3,
        Client_R c st = Done (c1, r1) st1
        ∧ Client_R c1 st1 = Done (c2, r2) st2
        ∧ Request_view r1 st2 = Request_view r2 st2
        ∧ applyRequestOps
            [RopDelHeader "Accept"; RopSetCookie "b=2";
             RopSetQueryParam "page" "2"; RopSetFormParam "k" "v"]
            r1 st2 = Done r1' st3
        ∧ Request_view r1' st3 ≠ Request_view r1 st2
        ∧ Request_view r2 st3 = Request_view r2 st2.
Proof.
  eexists _, _. split; [vm_compute; reflexivity|].
  match goal with
  | |- Client_allocated ?c ?st ∧ _ =>
      assert (Halloc : Client_allocated c st)
        by (repeat split; apply elem_of_dom; vm_compute; eauto);
      destruct (X29_descriptors_are_independent (P := scripted) c st Halloc)
        as (c1 & r1 & st1 & c2 & r2 & st2 & HR1 & HR2 & Hv1 & Hv2 & Hframe & _);
      assert (HR1' : Client_R c st = Done (_, _) _) by (vm_compute; reflexivity)
  end.
  split; [exact Halloc|].
  pose proof (eq_trans (eq_sym HR1) HR1') as Heq1.
  injection Heq1 as -> -> ->.
  match type of HR2 with
  | Client_R ?c1 ?st1 = _ =>
      assert (HR2' : Client_R c1 st1 = Done (_, _) _)
        by (vm_compute; reflexivity)
  end.
  pose proof (eq_trans (eq_sym HR2) HR2') as Heq2.
  injection Heq2 as -> -> ->.
  eexists _, _, _, _, _, _, _, _. split; [exact HR1'|].
  split; [exact HR2'|]. split; [by rewrite Hv1, Hv2|].
  match goal with
  | |- applyRequestOps ?ops ?r ?s = _ ∧ _ =>
      assert (Hops : applyRequestOps ops r s = Done _ _)
        by (vm_compute; reflexivity)
  end.
  split; [exact Hops|]. split; [vm_compute; discriminate|].
  exact (Hframe _ _ _ Hops).
Defined.
